(** * TrashWheel auto-annotation pipeline: a shallow embedding

    The Python sources under [baltimore-auto-annotation/] are embedded as
    Rocq functions over explicit models of what they talk to:

    - a storage bucket is the list of its object names;
    - a directory on local disk is a finite map from file names to entries;
    - the manifest (a JSON object of JSON objects) is a [gmap] of [gmap]s;
    - Python exceptions are values of [exn] carried by [result];
    - remote services (the annotation platform, the detector, the clock)
      are explicit parameters of the functions that call them.

    Object and file names are ASCII strings; [str.lower] is modelled on the
    26 ASCII letters, which is all that membership in the extension tables
    can observe. *)

From stdpp Require Import gmap strings list fin_maps.
From Stdlib Require Import Ascii ZArith Lia DecimalString Sorted.

(** ** Python string and path operations used by the scripts *)
Module PyStr.

Definition lower_ascii (c : ascii) : ascii :=
  let n := Ascii.nat_of_ascii c in
  if (65 <=? n)%nat && (n <=? 90)%nat then Ascii.ascii_of_nat (n + 32) else c.

(** [s.lower()] *)
Fixpoint lower (s : string) : string :=
  match s with
  | EmptyString => EmptyString
  | String c r => String (lower_ascii c) (lower r)
  end.

(** [s.split(sep)] for a one-character separator: never the empty list. *)
Fixpoint split (sep : ascii) (s : string) : list string :=
  match s with
  | EmptyString => [EmptyString]
  | String c r =>
      if decide (c = sep) then EmptyString :: split sep r
      else match split sep r with
           | h :: t => String c h :: t
           | [] => [String c EmptyString]
           end
  end.

(** [xs[-1]] on the result of a split. *)
Definition last_item (xs : list string) : string := default "" (last xs).

(** [xs[1]]; [None] stands for IndexError. *)
Definition item1 (xs : list string) : option string := xs !! 1%nat.

(** [s.startswith(p)] *)
Definition startswith (s p : string) : bool := String.prefix p s.

(** [s.rfind(".")] as the pair (text before the last dot, text from the
    last dot on); [None] when there is no dot. *)
Fixpoint rsplit_dot (s : string) : option (string * string) :=
  match s with
  | EmptyString => None
  | String c r =>
      match rsplit_dot r with
      | Some (a, b) => Some (String c a, b)
      | None => if decide (c = "."%char) then Some (EmptyString, s) else None
      end
  end.

(** The pair (text before the last slash, text after it); [None] when
    there is no slash. *)
Fixpoint rsplit_slash (s : string) : option (string * string) :=
  match s with
  | EmptyString => None
  | String c r =>
      match rsplit_slash r with
      | Some (a, b) => Some (String c a, b)
      | None => if decide (c = "/"%char) then Some (EmptyString, r) else None
      end
  end.

(** [s.rstrip("/")] *)
Fixpoint rstrip_slash (s : string) : string :=
  match s with
  | EmptyString => EmptyString
  | String c r =>
      match rstrip_slash r with
      | EmptyString =>
          if decide (c = "/"%char) then EmptyString else String c EmptyString
      | String c' r' => String c (String c' r')
      end
  end.

(** [os.path.dirname(p)]: the head [p[:i]] up to and with the last slash,
    stripped of its trailing slashes unless it is made of slashes only. *)
Definition dirname (p : string) : string :=
  match rsplit_slash p with
  | Some (a, _) =>
      let head := a +:+ "/" in
      match rstrip_slash head with
      | EmptyString => head
      | String c r => String c r
      end
  | None => ""
  end.

(** [os.path.basename(p)]: the text after the last slash. *)
Definition basename (p : string) : string :=
  match rsplit_slash p with Some (_, b) => b | None => p end.

(** [PurePath(name).suffix]: the last dot must be neither the first nor
    the last character of the name. *)
Definition suffix (name : string) : string :=
  match rsplit_dot name with
  | Some (a, b) =>
      if decide (a = "") then ""
      else if decide (b = ".") then "" else b
  | None => ""
  end.

(** [PurePath(name).stem] *)
Definition stem (name : string) : string :=
  match rsplit_dot name with
  | Some (a, b) =>
      if decide (a = "") then name
      else if decide (b = ".") then name else a
  | None => name
  end.

End PyStr.

(** ** Cloud storage listings *)
Module Gcs.

(** A bucket is the list of the names of its objects. *)
Definition bucket := list string.

(** [max_results]: [None] is "no limit". *)
Definition limit (max_results : option nat) (l : list string) : list string :=
  match max_results with
  | Some n => take n l
  | None => l
  end.

(** [storage_client.list_blobs(BUCKET, prefix=p, max_results=m)]: the
    objects whose name starts with [p]. *)
Definition list_blobs (b : bucket) (prefix : string)
    (max_results : option nat) : list string :=
  limit max_results (filter (λ n, PyStr.startswith n prefix = true) b).

End Gcs.

(** ** Scan-and-dispatch function
    [cloud-run-functions/baltimore-auto-annotation/baltimore_auto_annotation.py] *)
Module Dispatch.

(** Valid ultralytics/yolov11 image formats *)
Definition IMG_FORMATS : gset string :=
  list_to_set ["bmp"; "dng"; "jpeg"; "jpg"; "mpo"; "png"; "tif"; "tiff";
               "webp"; "pfm"; "heic"].

(** [blob.name.lower().split('.')[-1]] *)
Definition extension (name : string) : string :=
  PyStr.last_item (PyStr.split "."%char (PyStr.lower name)).

Definition supported (name : string) : bool :=
  bool_decide (extension name ∈ IMG_FORMATS).

(** The [for blob in images_blobs] loop with its [break]; the state is
    the pair [(valid_images, at_least_one_file)]. *)
Fixpoint check_images (blobs : list string) (st : bool * bool) : bool * bool :=
  match blobs with
  | [] => st
  | blob :: rest =>
      let at_least_one_file := true in
      if negb (supported blob) then (false, at_least_one_file)
      else check_images rest (st.1, at_least_one_file)
  end.

(** [f"{wheel}/{yesterday}/"] *)
Definition date_wheel_path (wheel yesterday : string) : string :=
  wheel +:+ "/" +:+ yesterday +:+ "/".

Definition images_folder_path (p : string) : string := p +:+ "images/".
Definition auto_annotations_folder_path (p : string) : string :=
  p +:+ "auto-annotations/".

(** One iteration of [for wheel in TRASH_WHEELS]; every [continue]
    returns the accumulator unchanged. *)
Definition scan_wheel (b : Gcs.bucket) (yesterday : string)
    (valid_folders_for_inference : list string) (wheel : string) : list string :=
  let path := date_wheel_path wheel yesterday in
  let images_blobs := Gcs.list_blobs b (images_folder_path path) None in
  let '(valid_images, at_least_one_file) := check_images images_blobs (true, false) in
  if negb at_least_one_file then valid_folders_for_inference
  else if negb valid_images then valid_folders_for_inference
  else
    let auto_annotations_blobs :=
      Gcs.list_blobs b (auto_annotations_folder_path path) (Some 1%nat) in
    if negb (bool_decide (auto_annotations_blobs = []))
    then valid_folders_for_inference
    else valid_folders_for_inference ++ [path].

Definition scan (b : Gcs.bucket) (TRASH_WHEELS : list string)
    (yesterday : string) : list string :=
  foldl (scan_wheel b yesterday) [] TRASH_WHEELS.

(** Instance metadata values: the ["folders"] item holds the JSON text of
    a list of strings, kept here as the list it encodes; the credential
    items hold environment variables, which may be unset. *)
Inductive meta_value :=
| JsonList (folders : list string)
| EnvValue (v : option string)
| Text (s : string).

Record Items := { key : string; value : meta_value }.

Record instance := {
  name : string;
  metadata : list Items;
}.

(** [start_inference_vm]: the metadata of the instance it inserts. The
    template's own items are kept, except a previous ["folders"]. *)
Definition start_inference_vm (template_items : list Items)
    (cvat_username cvat_password : option string)
    (valid_folders_for_inference : list string) (date : string) : instance :=
  let merged_items :=
    filter (λ item, key item ≠ "folders") template_items in
  let merged_items :=
    merged_items ++ [ {| key := "folders";
                         value := JsonList valid_folders_for_inference |} ] in
  let merged_items :=
    merged_items ++ [ {| key := "cvat_username"; value := EnvValue cvat_username |} ] in
  let merged_items :=
    merged_items ++ [ {| key := "cvat_password"; value := EnvValue cvat_password |} ] in
  {| name := "baltimore-auto-annotation-" +:+ date; metadata := merged_items |}.

(** [main]: the instance it asks the compute service for, if any, and the
    HTTP response. *)
Definition main (template_items : list Items)
    (cvat_username cvat_password : option string)
    (b : Gcs.bucket) (TRASH_WHEELS : list string) (yesterday : string)
    : option instance * (string * Z) :=
  let valid_folders_for_inference := scan b TRASH_WHEELS yesterday in
  let vm :=
    if (0 <? length valid_folders_for_inference)%nat
    then Some (start_inference_vm template_items cvat_username cvat_password
                 valid_folders_for_inference yesterday)
    else None in
  (vm, ("Processing complete", 200%Z)).

(** The folder list carried by the ["folders"] metadata item. *)
Definition metadata_folders (i : instance) : list string :=
  flat_map (λ item,
              if decide (key item = "folders")
              then match value item with JsonList l => l | _ => [] end
              else []) (metadata i).

End Dispatch.

(** ** The older copy of the dispatch function
    [cloud-run-functions/baltimore_auto_annotation.py]: same scan, with a
    second look at [auto-annotations/] after the first. *)
Module DispatchTop.

Definition scan_wheel (b : Gcs.bucket) (yesterday : string)
    (valid_folders_for_inference : list string) (wheel : string) : list string :=
  let path := Dispatch.date_wheel_path wheel yesterday in
  let images_blobs := Gcs.list_blobs b (Dispatch.images_folder_path path) None in
  let '(valid_images, at_least_one_file) :=
    Dispatch.check_images images_blobs (true, false) in
  if negb at_least_one_file then valid_folders_for_inference
  else if negb valid_images then valid_folders_for_inference
  else
    let auto_annotations_folder_path := Dispatch.auto_annotations_folder_path path in
    let auto_annotations_blobs :=
      Gcs.list_blobs b auto_annotations_folder_path (Some 1%nat) in
    if negb (bool_decide (auto_annotations_blobs = []))
    then valid_folders_for_inference
    else
      let auto_annotations_blobs :=
        Gcs.list_blobs b auto_annotations_folder_path (Some 2%nat) in
      (* any(blob.name != auto_annotations_folder_path for blob in ...) *)
      if existsb (λ blob, negb (bool_decide (blob = auto_annotations_folder_path)))
           auto_annotations_blobs
      then valid_folders_for_inference
      else valid_folders_for_inference ++ [path].

Definition scan (b : Gcs.bucket) (trash_wheels : list string)
    (yesterday : string) : list string :=
  foldl (scan_wheel b yesterday) [] trash_wheels.

(** This copy's [start_inference_vm] adds the ["folders"] item only. *)
Definition start_inference_vm (template_items : list Dispatch.Items)
    (valid_folders_for_inference : list string) (date : string)
    : Dispatch.instance :=
  let merged_items :=
    filter (λ item, Dispatch.key item ≠ "folders") template_items in
  let merged_items :=
    merged_items ++ [ {| Dispatch.key := "folders";
                         Dispatch.value := Dispatch.JsonList valid_folders_for_inference |} ] in
  {| Dispatch.name := "baltimore-auto-annotation-" +:+ date;
     Dispatch.metadata := merged_items |}.

Definition main (template_items : list Dispatch.Items)
    (b : Gcs.bucket) (trash_wheels : list string) (yesterday : string)
    : option Dispatch.instance * (string * Z) :=
  let valid_folders_for_inference := scan b trash_wheels yesterday in
  let vm :=
    if (0 <? length valid_folders_for_inference)%nat
    then Some (start_inference_vm template_items valid_folders_for_inference yesterday)
    else None in
  (vm, ("Processing complete", 200%Z)).

End DispatchTop.

(** ** Python exceptions and results *)
Module Py.

(** The exception classes the scripts raise or run into. All of them are
    subclasses of [Exception], so [except Exception] catches each.
    [OSError] stands for its subclasses too ([FileNotFoundError],
    [FileExistsError], [NotADirectoryError], [IsADirectoryError]), told
    apart by [errno]. *)
Inductive exn :=
| Exception (msg : string)
| ValueError (msg : string)
| NameError (name : string)      (* name '...' is not defined *)
| TypeError (msg : string)
| IndexError (msg : string)
| OSError (errno : Z) (strerror filename : string).

Inductive result (A : Type) :=
| Ok (a : A)
| Raise (e : exn).
Arguments Ok {A} a.
Arguments Raise {A} e.

(** [str(n)] for an integer. *)
Definition str_int (z : Z) : string :=
  DecimalString.NilZero.string_of_int (Z.to_int z).

(** [str(e)] *)
Definition str_exn (e : exn) : string :=
  match e with
  | Exception msg | ValueError msg | TypeError msg | IndexError msg => msg
  | NameError name => "name '" +:+ name +:+ "' is not defined"
  | OSError errno strerror filename =>
      "[Errno " +:+ str_int errno +:+ "] " +:+ strerror +:+ ": '" +:+ filename +:+ "'"
  end.

(** [int(s)] for a string of ASCII digits. *)
Definition digit_value (c : ascii) : N := N.of_nat (nat_of_ascii c - 48).

Fixpoint int_of_digits_from (acc : N) (s : string) : N :=
  match s with
  | EmptyString => acc
  | String c r => int_of_digits_from (acc * 10 + digit_value c) r
  end.

Definition int_of_digits (s : string) : N := int_of_digits_from 0 s.

End Py.

(** ** Inference runner [virtual-machine/inference.py] *)
Module Inference.
Import Py.

(** Allowed image extensions for ultralytic's YOLOv11 *)
Definition IMG_FORMATS : list string :=
  [".bmp"; ".dng"; ".jpeg"; ".jpg"; ".mpo"; ".png"; ".tif"; ".tiff";
   ".webp"; ".pfm"; ".heic"].

(** An entry of the detector's [labels] directory. *)
Inductive entry :=
| File (content : string)
| Dir.

(** [image_file.suffix.lower() in IMG_FORMATS] *)
Definition is_image (name : string) : bool :=
  bool_decide (PyStr.lower (PyStr.suffix name) ∈ IMG_FORMATS).

(** [image_file.stem + ".txt"] *)
Definition label_file_name (name : string) : string :=
  PyStr.stem name +:+ ".txt".

(** One step of the loop over [predicted_txt_dir.iterdir()]: a regular
    file with suffix [.txt] is moved into [output_dir], replacing a file
    of the same name. *)
Definition move_label (name : string) (e : entry)
    (output_dir : gmap string string) : gmap string string :=
  match e with
  | File content =>
      if decide (PyStr.suffix name = ".txt")
      then <[name := content]> output_dir
      else output_dir
  | Dir => output_dir
  end.

(** One step of the loop over [Path(input_dir).iterdir()]: touch the label
    file of an image unless it exists. *)
Definition touch_label (name : string) (_ : string)
    (output_dir : gmap string string) : gmap string string :=
  if is_image name then
    let label_file_name := label_file_name name in
    match output_dir !! label_file_name with
    | None => <[label_file_name := ""]> output_dir
    | Some _ => output_dir
    end
  else output_dir.

(** [process_batch]. [predicted_txt_dir] is what [model.predict] left at
    [runs/detect/predict/labels] ([None]: the directory does not exist);
    directories are maps from file names to contents, and the result is
    the output directory after the call. *)
Definition process_batch (predicted_txt_dir : option (gmap string entry))
    (input_dir output_dir : gmap string string) : gmap string string :=
  let output_dir :=
    match predicted_txt_dir with
    | Some labels => map_fold move_label output_dir labels
    | None => output_dir
    end in
  map_fold touch_label output_dir input_dir.

(** *** [re.search(r'model_v(\d+)/', name)] *)

Definition is_digit (c : ascii) : bool :=
  let n := nat_of_ascii c in (48 <=? n)%nat && (n <=? 57)%nat.

(** [s] without the prefix [p], if it starts with it. *)
Fixpoint strip_prefix (p s : string) : option string :=
  match p, s with
  | EmptyString, _ => Some s
  | String a p', String c s' =>
      if decide (a = c) then strip_prefix p' s' else None
  | String _ _, EmptyString => None
  end.

(** The longest run of digits at the head of [s], and what follows. *)
Fixpoint span_digits (s : string) : string * string :=
  match s with
  | String c r =>
      if is_digit c
      then let '(d, rest) := span_digits r in (String c d, rest)
      else (EmptyString, s)
  | EmptyString => (EmptyString, EmptyString)
  end.

(** A match of the pattern starting at the head of [s]: group 1. The
    greedy [\d+] takes the whole run of digits, which must be non-empty
    and followed by a slash. *)
Definition match_here (s : string) : option string :=
  match strip_prefix "model_v" s with
  | Some rest =>
      let '(digits, rest) := span_digits rest in
      match digits, rest with
      | String _ _, String "/" _ => Some digits
      | _, _ => None
      end
  | None => None
  end.

(** The leftmost match anywhere in [s]. *)
Fixpoint search (s : string) : option string :=
  match match_here s with
  | Some digits => Some digits
  | None =>
      match s with
      | EmptyString => None
      | String _ r => search r
      end
  end.

(** [max(model_versions, key=lambda x: x[0])] from a first element on:
    a later element wins only with a strictly larger key. *)
Fixpoint max_by_version (best : N * string) (l : list (N * string)) : N * string :=
  match l with
  | [] => best
  | x :: r => if (best.1 <? x.1)%N then max_by_version x r else max_by_version best r
  end.

(** The [(version, prefix)] pair appended for a blob, if its name matches. *)
Definition model_version (production_folder blob : string) : option (N * string) :=
  match search blob with
  | Some digits =>
      let version := int_of_digits digits in
      Some (version,
            production_folder +:+ "model_v" +:+ str_int (Z.of_N version) +:+ "/")
  | None => None
  end.

Definition get_latest_model_version (b : Gcs.bucket) (production_folder : string)
    : result string :=
  let blobs := Gcs.list_blobs b production_folder None in
  let model_versions := omap (model_version production_folder) blobs in
  match model_versions with
  | [] => Raise (ValueError "No model versions found in the production folder.")
  | first :: rest =>
      let '(latest_version, latest_model_prefix) := max_by_version first rest in
      Ok latest_model_prefix
  end.

End Inference.

(** ** Annotation-platform client [CVAT/cvat_client.py] *)
Module Cvat.
Import Py.

(** A task as the platform returns it: the keys ['id'], ['name'] and
    ['status'] of the task dictionary. *)
Record task := { t_id : Z; t_name : string; t_status : string }.

(** The part of a JSON body the client reads with [.get]. *)
Inductive json :=
| JNull
| JInt (z : Z)
| JStr (s : string).

(** Python truthiness: [if not rq_id]. *)
Definition truthy (j : json) : bool :=
  match j with
  | JNull => false
  | JInt z => negb (z =? 0)%Z
  | JStr s => negb (bool_decide (s = ""))
  end.

Record response := { status_code : Z; rq_id : json }.

(** One page of [GET /tasks]; the ['next'] link is set on every page but
    the last. *)
Record page := { page_status : Z; page_results : list task }.

(** The platform as one run of the client sees it: the pages of the task
    list, the answer to the export request, and the status code of the
    [k]-th status poll. *)
Record platform := {
  task_pages : page * list page;
  export_response : response;
  poll_status : nat → Z;
}.

(** The client object: the project it works in, its two caches, and what
    it has done so far (the number of status polls sent and the seconds
    slept). *)
Record client := {
  project_id : Z;
  _tasks : option (list task);
  _completed_tasks : option (list task);
  polls : nat;
  slept : Z;
}.

(** Methods run on the client and either return or raise. *)
Definition M (A : Type) : Type := client → result A * client.

Definition ret {A} (a : A) : M A := λ c, (Ok a, c).
Definition raise {A} (e : exn) : M A := λ c, (Raise e, c).
Definition bind {A B} (m : M A) (k : A → M B) : M B :=
  λ c, match m c with
       | (Ok a, c') => k a c'
       | (Raise e, c') => (Raise e, c')
       end.
(** [try: m except Exception as e: h e] *)
Definition try_except {A} (m : M A) (h : exn → M A) : M A :=
  λ c, match m c with
       | (Ok a, c') => (Ok a, c')
       | (Raise e, c') => h e c'
       end.

Notation "x <~ m ;; k" := (bind m (λ x, k))
  (at level 100, m at next level, right associativity).

Definition set_tasks (l : list task) : M unit :=
  λ c, (Ok tt, {| project_id := project_id c;
                  _tasks := Some l; _completed_tasks := _completed_tasks c;
                  polls := polls c; slept := slept c |}).
Definition set_completed_tasks (l : list task) : M unit :=
  λ c, (Ok tt, {| project_id := project_id c;
                  _tasks := _tasks c; _completed_tasks := Some l;
                  polls := polls c; slept := slept c |}).
(** [time.sleep(n)] *)
Definition sleep (n : Z) : M unit :=
  λ c, (Ok tt, {| project_id := project_id c;
                  _tasks := _tasks c; _completed_tasks := _completed_tasks c;
                  polls := polls c; slept := slept c + n |}).
(** A status poll: the platform answers the [k]-th poll with
    [poll_status k]. *)
Definition poll (pf : platform) : M Z :=
  λ c, (Ok (poll_status pf (polls c)),
        {| project_id := project_id c;
           _tasks := _tasks c; _completed_tasks := _completed_tasks c;
           polls := S (polls c); slept := slept c |}).

(** [_fetch_all_tasks]: follow the ['next'] links from the first page. *)
Fixpoint fetch_pages (p : page) (rest : list page) (all_tasks : list task)
    : result (list task) :=
  if negb (page_status p =? 200)%Z
  then Raise (Exception ("Failed to get tasks: " +:+ str_int (page_status p)))
  else
    let all_tasks := all_tasks ++ page_results p in
    match rest with
    | [] => Ok all_tasks
    | p' :: rest' => fetch_pages p' rest' all_tasks
    end.

Definition _fetch_all_tasks (pf : platform) : M (list task) :=
  λ c, (fetch_pages (task_pages pf).1 (task_pages pf).2 [], c).

(** [get_all_tasks]; the second [None] test of the source cannot fire
    after the assignment and is kept as written. *)
Definition get_all_tasks (pf : platform) (force_refresh : bool) : M (list task) :=
  λ c,
    let refresh : M unit :=
      match _tasks c with
      | Some _ =>
          if force_refresh
          then (all <~ _fetch_all_tasks pf ;; set_tasks all)
          else ret tt
      | None => all <~ _fetch_all_tasks pf ;; set_tasks all
      end in
    bind refresh (λ _ c',
      match _tasks c' with
      | None => (Raise (Exception ("No tasks found for project: "
                                     +:+ str_int (project_id c'))), c')
      | Some l => (Ok l, c')
      end) c.

(** [next((t for t in tasks if t['name'] == name), None)] *)
Definition find_by_name (name : string) (tasks : list task) : option task :=
  head (filter (λ t, t_name t = name) tasks).

(** [get_task]. Iterating a cache that is still [None] is a TypeError;
    the message of the not-found branch reads the variable [task_name],
    which this method does not define, so building it is a NameError. *)
Definition get_task (name : string) : M task :=
  λ c,
    match _tasks c with
    | None => (Raise (TypeError "'NoneType' object is not iterable"), c)
    | Some tasks =>
        match find_by_name name tasks with
        | Some task => (Ok task, c)
        | None => (Raise (NameError "task_name"), c)
        end
    end.

(** [list.sort(key=lambda x: x['name'])]: a stable sort. *)
Fixpoint insert_by_name (t : task) (l : list task) : list task :=
  match l with
  | [] => [t]
  | u :: r =>
      if String.leb (t_name u) (t_name t) then u :: insert_by_name t r
      else t :: l
  end.

Definition sort_by_name (l : list task) : list task :=
  foldl (λ acc t, insert_by_name t acc) [] l.

Definition get_completed_tasks (pf : platform) (force_refresh : bool)
    : M (list task) :=
  tasks <~ get_all_tasks pf force_refresh ;;
  let completed := sort_by_name (filter (λ t, t_status t = "completed") tasks) in
  _ <~ set_completed_tasks completed ;;
  ret completed.

(** [get_completed_task]: when the name is not among the completed
    tasks, [get_task] is asked; it returns a task or raises. *)
Definition get_completed_task (name : string) : M task :=
  λ c,
    match _completed_tasks c with
    | None => (Raise (TypeError "'NoneType' object is not iterable"), c)
    | Some completed =>
        match find_by_name name completed with
        | Some completed_task => (Ok completed_task, c)
        | None =>
            bind (get_task name)
                 (λ _, raise (Exception ("Task '" +:+ name +:+ "' is not completed"))) c
        end
    end.

Definition is_200_or_201 (code : Z) : bool := (code =? 200)%Z || (code =? 201)%Z.

(** The loop [for attempt in range(60)], with [attempts] iterations left. *)
Fixpoint poll_export (pf : platform) (attempts : nat) : M bool :=
  match attempts with
  | O => raise (Exception "Export timed out")
  | S n =>
      _ <~ sleep 10 ;;
      code <~ poll pf ;;
      if is_200_or_201 code then ret true
      else if negb (code =? 202)%Z
           then raise (Exception ("Export failed: " +:+ str_int code))
           else poll_export pf n
  end.

(** [if self._completed_tasks is None: self._completed_tasks = ...] *)
Definition ensure_completed_tasks (pf : platform) : M unit :=
  λ c, match _completed_tasks c with
       | None => (l <~ get_completed_tasks pf true ;; set_completed_tasks l) c
       | Some _ => (Ok tt, c)
       end.

(** The export request and what follows it, once the task is known. *)
Definition request_export (pf : platform) : M bool :=
  let export_response := export_response pf in
  if (status_code export_response =? 202)%Z then
    if negb (truthy (rq_id export_response))
    then raise (Exception "No request ID received")
    else poll_export pf 60
  else if is_200_or_201 (status_code export_response) then ret true
  else raise (Exception ("Export failed: "
                           +:+ str_int (status_code export_response))).

(** The task lookup at the head of the [try]. *)
Definition find_task_to_export (pf : platform) (device_id date : string) : M task :=
  _ <~ ensure_completed_tasks pf ;;
  let task_name := device_id +:+ "_" +:+ date in
  get_completed_task task_name.

(** The body of the [try] of [export_annotations]. *)
Definition export_annotations_try (pf : platform) (device_id date : string)
    : M bool :=
  task <~ find_task_to_export pf device_id date ;;
  request_export pf.

(** [export_annotations]: [except Exception as e: ... return False]. *)
Definition export_annotations (pf : platform) (device_id date : string) : M bool :=
  try_except (export_annotations_try pf device_id date) (λ e, ret false).

End Cvat.

(** ** Export-and-download function
    [cloud-run-functions/baltimore-cvat-download/main.py] *)
Module Download.
Import Py.

(** One manifest record: [{"status": ..., "processed_at": ...}]. *)
Record entry := { status : string; processed_at : string }.

(** The manifest: device id, then date, then record. *)
Abbreviation manifest := (gmap string (gmap string entry)).

(** An element of [results]. *)
Record item := {
  item_device_id : string;
  item_date : string;
  item_status : string;
  item_error : option string;
}.

(** What the storage client answers for a delimiter listing of a bucket
    (given by its object names) under a prefix. *)
Record Storage := {
  (** [list(bucket.list_blobs(prefix=p, delimiter='/', max_results=m))] *)
  list_blobs : list string → string → option nat → list string;
  (** [list(bucket.list_blobs(prefix=p, delimiter='/').prefixes)], read
      from a listing that has not been iterated *)
  prefixes : list string → string → list string;
  (** the [page.prefixes] met while iterating [blobs.pages] *)
  page_prefixes : list string → string → list string;
}.

(** The world the function runs in: the bucket, the manifest object, the
    clock, and what the run has produced so far ([results], and the calls
    of [client.export_annotations], oldest first). *)
Record world := {
  objects : list string;
  manifest_blob : option manifest;
  now : Z;
  results : list item;
  exports : list (string * string);
}.

(** What the run cannot decide by itself. *)
Record env := {
  storage : Storage;
  (** [CVATClient()] authenticates and may raise *)
  new_client : result unit;
  (** [client.export_annotations(device_id, date)] *)
  export_annotations : string → string → result bool;
  (** [bucket.blob(zip_path).exists()] at a given time *)
  zip_exists : string → Z → result bool;
  (** download and extraction of the archive: the relative paths of the
      files it holds, or the error met *)
  archive : string → result (list string);
  (** [time.strftime('%Y-%m-%d %H:%M:%S')] at a given time *)
  strftime : Z → string;
  (** the storage calls of [load_processed_manifest] (exists, then download
      or the upload of an empty manifest): done, or the error raised *)
  manifest_load : result unit;
  (** the storage calls of [update_processed_manifest] (exists, download,
      upload) for the write of a status for a folder at a given time: done,
      or the error raised, the manifest object being then as it was *)
  manifest_io : string → string → string → Z → result unit;
}.

Definition set_objects (l : list string) (w : world) : world :=
  {| objects := l; manifest_blob := manifest_blob w; now := now w;
     results := results w; exports := exports w |}.
Definition set_manifest (m : manifest) (w : world) : world :=
  {| objects := objects w; manifest_blob := Some m; now := now w;
     results := results w; exports := exports w |}.
(** [time.sleep(n)] *)
Definition sleep (n : Z) (w : world) : world :=
  {| objects := objects w; manifest_blob := manifest_blob w; now := now w + n;
     results := results w; exports := exports w |}.
(** [results.append(i)] *)
Definition append_result (i : item) (w : world) : world :=
  {| objects := objects w; manifest_blob := manifest_blob w; now := now w;
     results := results w ++ [i]; exports := exports w |}.
Definition log_export (device_id date : string) (w : world) : world :=
  {| objects := objects w; manifest_blob := manifest_blob w; now := now w;
     results := results w; exports := exports w ++ [(device_id, date)] |}.

(** [folder_exists] *)
Definition folder_exists (e : env) (w : world) (prefix : string) : bool :=
  let blobs := list_blobs (storage e) (objects w) prefix (Some 1%nat) in
  let prefixes := prefixes (storage e) (objects w) prefix in
  (0 <? length blobs)%nat || (0 <? length prefixes)%nat.

(** Steps of the function: they run in the world and return or raise. *)
Definition M (A : Type) : Type := world → result A * world.

Definition ret {A} (a : A) : M A := λ w, (Ok a, w).
Definition bind {A B} (m : M A) (k : A → M B) : M B :=
  λ w, match m w with
       | (Ok a, w') => k a w'
       | (Raise ex, w') => (Raise ex, w')
       end.
Definition act (f : world → world) : M unit := λ w, (Ok tt, f w).
(** [try: m except Exception as e: h e] *)
Definition try_except {A} (m : M A) (h : exn → M A) : M A :=
  λ w, match m w with
       | (Ok a, w') => (Ok a, w')
       | (Raise ex, w') => h ex w'
       end.

Notation "m ;;; k" := (bind m (λ _, k))
  (at level 100, right associativity).

(** [load_processed_manifest]: a missing manifest is created empty. *)
Definition load_processed_manifest (e : env) : M manifest :=
  λ w,
    match manifest_load e with
    | Raise ex => (Raise ex, w)
    | Ok _ =>
        match manifest_blob w with
        | Some m => (Ok m, w)
        | None => (Ok ∅, set_manifest ∅ w)
        end
    end.

(** [update_processed_manifest]: the new content of the manifest object,
    from its old content ([None]: no such object) and the timestamp read
    from the clock. *)
Definition update_processed_manifest (timestamp : string)
    (blob : option manifest) (device_id date status : string) : manifest :=
  let manifest := match blob with Some m => m | None => ∅ end in
  let manifest :=
    match manifest !! device_id with
    | None => <[device_id := ∅]> manifest
    | Some _ => manifest
    end in
  alter (λ dates, <[date := {| status := status; processed_at := timestamp |}]> dates)
        device_id manifest.

(** A call of [update_processed_manifest]: the manifest object gets its
    new content, unless one of the storage calls raises. *)
Definition write_status (e : env) (device_id date status : string) : M unit :=
  λ w,
    match manifest_io e device_id date status (now w) with
    | Raise ex => (Raise ex, w)
    | Ok _ =>
        (Ok tt,
         set_manifest
           (update_processed_manifest (strftime e (now w)) (manifest_blob w)
              device_id date status) w)
    end.

(** [process_zip_file]: every extracted file except a file named
    [annotations.zip] is uploaded under the folder of the archive, then the
    archive is deleted. *)
Definition upload (name : string) (objs : list string) : list string :=
  if bool_decide (name ∈ objs) then objs else objs ++ [name].

Definition process_zip_file (e : env) (zip_path : string) (w : world)
    : result unit * world :=
  match archive e zip_path with
  | Raise ex => (Raise ex, w)
  | Ok files =>
      let base_dir := PyStr.dirname zip_path in
      let kept := filter (λ rel, PyStr.basename rel ≠ "annotations.zip") files in
      let objs :=
        foldl (λ objs rel, upload (base_dir +:+ "/" +:+ rel) objs) (objects w) kept in
      (Ok tt, set_objects (filter (λ n, n ≠ zip_path) objs) w)
  end.

Definition max_wait : Z := 300.

(** The [try] around [process_zip_file] and its handler; both end with
    [break]. A raise of the ["completed"] write is caught by the same
    handler as a raise of [process_zip_file]; a raise inside the handler
    leaves it. *)
Definition unpack (e : env) (device_id date : string) : M unit :=
  let zip_path := device_id +:+ "/" +:+ date +:+ "/annotations.zip" in
  try_except
    (process_zip_file e zip_path ;;;
     write_status e device_id date "completed" ;;;
     act (append_result
            {| item_device_id := device_id; item_date := date;
               item_status := "success"; item_error := None |}))
    (λ zip_error,
       write_status e device_id date "failed_zip_processing" ;;;
       act (append_result
              {| item_device_id := device_id; item_date := date;
                 item_status := "zip_processing_error";
                 item_error := Some (str_exn zip_error) |})).

(** The [else] of the loop. *)
Definition timed_out (e : env) (device_id date : string) : M unit :=
  write_status e device_id date "timeout_waiting_for_zip" ;;;
  act (append_result
         {| item_device_id := device_id; item_date := date;
            item_status := "timeout_waiting_for_zip"; item_error := None |}).

(** The loop [while time.time() - start_time < max_wait: ... else: ...].
    [fuel] bounds the number of iterations; [None] is "fuel used up". *)
Fixpoint wait_for_zip (fuel : nat) (e : env) (device_id date : string)
    (start_time : Z) (w : world) : option (result unit * world) :=
  let zip_path := device_id +:+ "/" +:+ date +:+ "/annotations.zip" in
  if decide (now w - start_time < max_wait)%Z then
    match fuel with
    | O => None
    | S fuel' =>
        match zip_exists e zip_path (now w) with
        | Raise ex => Some (Raise ex, w)
        | Ok true => Some (unpack e device_id date w)
        | Ok false => wait_for_zip fuel' e device_id date start_time (sleep 10 w)
        end
    end
  else Some (timed_out e device_id date w).

(** The [else] of [if export_success]. *)
Definition export_rejected (e : env) (device_id date : string) : M unit :=
  write_status e device_id date "export_failed" ;;;
  act (append_result
         {| item_device_id := device_id; item_date := date;
            item_status := "export_failed"; item_error := None |}).

(** The body of the [try] for a candidate folder. Every second of
    [max_wait] pays for one iteration at most, so that much fuel is enough. *)
Definition export_and_wait (e : env) (device_id date : string) (w : world)
    : option (result unit * world) :=
  let w := log_export device_id date w in
  match export_annotations e device_id date with
  | Raise ex => Some (Raise ex, w)
  | Ok true =>
      let start_time := now w in
      wait_for_zip (Z.to_nat max_wait) e device_id date start_time w
  | Ok false => Some (export_rejected e device_id date w)
  end.

(** The handler [except Exception as e] of a candidate folder. *)
Definition folder_error (e : env) (device_id date : string) (ex : exn) : M unit :=
  write_status e device_id date "error" ;;;
  act (append_result
         {| item_device_id := device_id; item_date := date;
            item_status := "error"; item_error := Some (str_exn ex) |}).

(** [try: ... except Exception as e: ...], then [time.sleep(5)]; what the
    handler raises leaves the loops. *)
Definition process_candidate (e : env) (device_id date : string) (w : world)
    : option (result unit * world) :=
  match export_and_wait e device_id date w with
  | None => None
  | Some (Ok _, w) => Some (Ok tt, sleep 5 w)
  | Some (Raise ex, w) =>
      Some ((folder_error e device_id date ex ;;; act (sleep 5)) w)
  end.

(** The test that skips a folder the manifest has as completed. *)
Definition already_completed (processed_folders : manifest)
    (device_id date : string) : bool :=
  match processed_folders !! device_id with
  | Some dates =>
      match dates !! date with
      | Some r => bool_decide (status r = "completed")
      | None => false
      end
  | None => false
  end.

(** One iteration of [for date in date_folders]. *)
Definition scan_date (e : env) (processed_folders : manifest)
    (device_id date : string) (w : world) : option (result unit * world) :=
  if already_completed processed_folders device_id date then Some (Ok tt, w)
  else
    let auto_annotations_path := device_id +:+ "/" +:+ date +:+ "/auto-annotations/" in
    let annotations_path := device_id +:+ "/" +:+ date +:+ "/annotations/" in
    let auto_annotations_exists := folder_exists e w auto_annotations_path in
    let annotations_exists := folder_exists e w annotations_path in
    if auto_annotations_exists && negb annotations_exists
    then process_candidate e device_id date w
    else Some (Ok tt, w).

Fixpoint scan_dates (e : env) (processed_folders : manifest)
    (device_id : string) (dates : list string) (w : world)
    : option (result unit * world) :=
  match dates with
  | [] => Some (Ok tt, w)
  | date :: rest =>
      match scan_date e processed_folders device_id date w with
      | Some (Ok _, w) => scan_dates e processed_folders device_id rest w
      | Some (Raise ex, w) => Some (Raise ex, w)
      | None => None
      end
  end.

(** [date_folders]: [prefix.split('/')[1]] of every listed prefix, as a set
    (iterated here in order of first appearance). *)
Fixpoint date_folders_of (prefixes : list string) : result (list string) :=
  match prefixes with
  | [] => Ok []
  | prefix :: rest =>
      match PyStr.item1 (PyStr.split "/"%char prefix) with
      | None => Raise (IndexError "list index out of range")
      | Some date =>
          match date_folders_of rest with
          | Ok dates => Ok (date :: dates)
          | Raise ex => Raise ex
          end
      end
  end.

Definition date_folders (e : env) (w : world) (device_id : string)
    : result (list string) :=
  match date_folders_of (page_prefixes (storage e) (objects w) (device_id +:+ "/")) with
  | Ok dates => Ok (remove_dups dates)
  | Raise ex => Raise ex
  end.

(** [for device_id in ['1', '2', '3']] *)
Fixpoint scan_devices (e : env) (processed_folders : manifest)
    (devices : list string) (w : world) : option (result unit * world) :=
  match devices with
  | [] => Some (Ok tt, w)
  | device_id :: rest =>
      match date_folders e w device_id with
      | Raise ex => Some (Raise ex, w)
      | Ok dates =>
          match scan_dates e processed_folders device_id dates w with
          | Some (Ok _, w) => scan_devices e processed_folders rest w
          | Some (Raise ex, w) => Some (Raise ex, w)
          | None => None
          end
      end
  end.

(** The JSON body and the HTTP status of the answer. *)
Inductive response :=
| Completed (processed_items : list item)       (* 200 *)
| GlobalError (error : string).                 (* 500 *)

Definition cvat_download (e : env) (w : world) : option (response * world) :=
  match new_client e with
  | Raise ex => Some (GlobalError (str_exn ex), w)
  | Ok _ =>
      match load_processed_manifest e w with
      | (Raise ex, w) => Some (GlobalError (str_exn ex), w)
      | (Ok processed_folders, w) =>
          match scan_devices e processed_folders ["1"; "2"; "3"] w with
          | None => None
          | Some (Ok _, w) => Some (Completed (results w), w)
          | Some (Raise ex, w) => Some (GlobalError (str_exn ex), w)
          end
      end
  end.

(** *** A storage client over object names

    Objects directly under the prefix are listed as blobs; deeper ones
    contribute the prefix up to their next slash. [eager] tells whether the
    [prefixes] attribute is already filled when it is read from a listing
    that was not iterated. *)
Definition after_prefix (prefix name : string) : option string :=
  Inference.strip_prefix prefix name.

Fixpoint up_to_slash (s : string) : option string :=
  match s with
  | EmptyString => None
  | String c r =>
      if decide (c = "/"%char) then Some "/"
      else match up_to_slash r with
           | Some a => Some (String c a)
           | None => None
           end
  end.

Definition is_direct (prefix name : string) : bool :=
  match after_prefix prefix name with
  | Some rest => bool_decide (up_to_slash rest = None)
  | None => false
  end.

Definition direct_blobs (objs : list string) (prefix : string) : list string :=
  filter (λ n, is_direct prefix n = true) objs.

Definition sub_prefixes (objs : list string) (prefix : string) : list string :=
  remove_dups
    (omap (λ n, match after_prefix prefix n with
                | Some rest =>
                    match up_to_slash rest with
                    | Some dir => Some (prefix +:+ dir)
                    | None => None
                    end
                | None => None
                end) objs).

Definition object_storage (eager : bool) : Storage :=
  {| list_blobs := λ objs prefix max_results,
       Gcs.limit max_results (direct_blobs objs prefix);
     prefixes := λ objs prefix, if eager then sub_prefixes objs prefix else [];
     page_prefixes := sub_prefixes |}.

End Download.

(** ** Concrete platform runs used in the scenarios *)
Module Scenario.
Import Cvat.

(** A freshly constructed client. *)
Definition new_client : client :=
  {| project_id := 184108; _tasks := None; _completed_tasks := None;
     polls := 0; slept := 0 |}.

Definition review_done : page :=
  {| page_status := 200;
     page_results := [ {| t_id := 7; t_name := "3_2025-1-4"; t_status := "completed" |};
                       {| t_id := 8; t_name := "3_2025-1-5"; t_status := "annotation" |} ] |}.

(** The client once both caches are filled from [review_done]. *)
Definition cached : client :=
  {| project_id := 184108;
     _tasks := Some (page_results review_done);
     _completed_tasks :=
       Some [ {| t_id := 7; t_name := "3_2025-1-4"; t_status := "completed" |} ];
     polls := 0; slept := 0 |}.

(** The export is accepted with [rq_id = 42]; the polls answer from
    [answers], and 202 once the list is used up. *)
Definition accepted (answers : list Z) : platform :=
  {| task_pages := (review_done, []);
     export_response := {| status_code := 202; rq_id := JInt 42 |};
     poll_status := λ k, default 202%Z (answers !! k) |}.

(** Five times 202, then 201. *)
Definition six_polls : platform :=
  accepted [202; 202; 202; 202; 202; 201]%Z.

(** The first poll answers 500. *)
Definition failing : platform := accepted [500]%Z.

(** Every poll answers 202. *)
Definition never_ready : platform := accepted [].

(** A run of the export-and-download function: the answer of the export
    call, the time from which the archive is in the bucket, and what its
    extraction gives. Nothing is reported as a prefix before a listing is
    iterated. *)
Definition download_env (export : Py.result bool) (ready_at : Z)
    (extracted : Py.result (list string)) : Download.env :=
  {| Download.storage := Download.object_storage false;
     Download.new_client := Py.Ok tt;
     Download.export_annotations := λ _ _, export;
     Download.zip_exists := λ _ t, Py.Ok (ready_at <=? t)%Z;
     Download.archive := λ _, extracted;
     Download.strftime := λ t, "t+" +:+ Py.str_int t;
     Download.manifest_load := Py.Ok tt;
     Download.manifest_io := λ _ _ _ _, Py.Ok tt |}.


(** Device 3 has a reviewed folder without export and one already
    exported. *)
Definition bucket_world : Download.world :=
  {| Download.objects :=
       ["3/2025-1-4/images/a.jpg"; "3/2025-1-4/auto-annotations/a.txt";
        "3/2025-1-5/images/b.jpg"; "3/2025-1-5/auto-annotations/b.txt";
        "3/2025-1-5/annotations/instances_default.json"];
     Download.manifest_blob := None;
     Download.now := 0;
     Download.results := [];
     Download.exports := [] |}.

(** The same run over a storage client that reports the prefixes of a
    listing before it is iterated. *)
Definition eager (e : Download.env) : Download.env :=
  {| Download.storage := Download.object_storage true;
     Download.new_client := Download.new_client e;
     Download.export_annotations := Download.export_annotations e;
     Download.zip_exists := Download.zip_exists e;
     Download.archive := Download.archive e;
     Download.strftime := Download.strftime e;
     Download.manifest_load := Download.manifest_load e;
     Download.manifest_io := Download.manifest_io e |}.

(** Devices 1 and 3 have a reviewed folder each, neither exported; the
    manifest exists and is empty. *)
Definition two_device_world : Download.world :=
  {| Download.objects :=
       ["1/2025-1-4/images/a.jpg"; "1/2025-1-4/auto-annotations/a.txt";
        "3/2025-1-4/images/b.jpg"; "3/2025-1-4/auto-annotations/b.txt"];
     Download.manifest_blob := Some ∅;
     Download.now := 0;
     Download.results := [];
     Download.exports := [] |}.

(** The exported annotations of folder [3/2025-1-4] are kept one level
    down, in [annotations/coco/]. *)
Definition nested_world : Download.world :=
  {| Download.objects :=
       ["3/2025-1-4/images/a.jpg"; "3/2025-1-4/auto-annotations/a.txt";
        "3/2025-1-4/annotations/coco/instances_default.json"];
     Download.manifest_blob := Some ∅;
     Download.now := 0;
     Download.results := [];
     Download.exports := [] |}.

End Scenario.

(** ** Vocabulary of the statements *)

(** What the three checks of one iteration of the dispatch loop decide. *)
Definition eligible (b : Gcs.bucket) (yesterday wheel : string) : Prop :=
  let path := Dispatch.date_wheel_path wheel yesterday in
  let images := Gcs.list_blobs b (Dispatch.images_folder_path path) None in
  images ≠ []
  ∧ Forall (λ n, Dispatch.extension n ∈ Dispatch.IMG_FORMATS) images
  ∧ Gcs.list_blobs b (Dispatch.auto_annotations_folder_path path) None = [].

(** The folder list that reaches the VM: the ["folders"] metadata item of
    the instance [main] creates, or nothing when no instance is created. *)
Definition dispatched (b : Gcs.bucket) (yesterday : string)
    (template_items : list Dispatch.Items)
    (cvat_username cvat_password : option string) (wheels : list string)
    : list string :=
  match (Dispatch.main template_items cvat_username cvat_password b wheels yesterday).1 with
  | Some vm => Dispatch.metadata_folders vm
  | None => []
  end.

(** The client after [k] more rounds of "sleep 10 s, poll". *)
Definition after_polls (c : Cvat.client) (k : nat) : Cvat.client :=
  {| Cvat.project_id := Cvat.project_id c;
     Cvat._tasks := Cvat._tasks c; Cvat._completed_tasks := Cvat._completed_tasks c;
     Cvat.polls := Cvat.polls c + k; Cvat.slept := Cvat.slept c + 10 * Z.of_nat k |}.

(** [manifest[device_id][date]] *)
Definition record_of (m : Download.manifest) (device_id date : string)
    : option Download.entry :=
  m !! device_id ≫= λ dates, dates !! date.

(** The status the manifest object holds for a folder. *)
Definition recorded_status (w : Download.world) (device_id date : string)
    : option string :=
  Download.manifest_blob w ≫= λ m, Download.status <$> record_of m device_id date.



(** A step that moved neither the clock nor the export log. *)
Definition same_log (w w' : Download.world) : Prop :=
  Download.now w' = Download.now w ∧ Download.exports w' = Download.exports w.


(** Whether a call returned. *)
Definition is_ok {A} (r : Py.result A) : bool :=
  match r with Py.Ok _ => true | Py.Raise _ => false end.



(** ** Further string and path operations *)
Module PyText.

(** [s.endswith(suffix)] *)
Fixpoint endswith (s suffix : string) : bool :=
  if decide (s = suffix) then true
  else match s with
       | EmptyString => false
       | String _ r => endswith r suffix
       end.

(** [c in s] for a character. *)
Fixpoint contains (c : ascii) (s : string) : bool :=
  match s with
  | EmptyString => false
  | String a r => if decide (a = c) then true else contains c r
  end.

(** [os.path.join(a, b)] on POSIX paths. *)
Definition path_join (a b : string) : string :=
  if PyStr.startswith b "/" then b
  else if decide (a = "") then b
  else if endswith a "/" then a +:+ b
  else a +:+ "/" +:+ b.

End PyText.

(** ** [os.path] on POSIX paths *)
Module PyPath.
Import Py.

(** The loop of [os.path.normpath] over the components of an absolute
    path: empty components and [.] are skipped, [..] takes back the
    component before it and is dropped at the root. [new_comps] has its
    last component first. *)
Fixpoint normpath_comps (new_comps comps : list string) : list string :=
  match comps with
  | [] => rev new_comps
  | comp :: rest =>
      if decide (comp = "" ∨ comp = ".") then normpath_comps new_comps rest
      else if decide (comp = "..") then normpath_comps (tail new_comps) rest
      else normpath_comps (comp :: new_comps) rest
  end.

(** [[x for x in os.path.abspath(path).split('/') if x]], where [cwd] is
    what [os.getcwd()] returns, an absolute path. *)
Definition abspath_list (cwd path : string) : list string :=
  normpath_comps [] (PyStr.split "/" (PyText.path_join cwd path)).

(** [os.path.commonprefix] of two lists of components. *)
Fixpoint commonprefix (a b : list string) : list string :=
  match a, b with
  | x :: a', y :: b' => if decide (x = y) then x :: commonprefix a' b' else []
  | _, _ => []
  end.

(** [os.path.relpath(path, start)] *)
Definition relpath (cwd path start : string) : result string :=
  if decide (path = "") then Raise (ValueError "no path specified")
  else
    let start_list := abspath_list cwd start in
    let path_list := abspath_list cwd path in
    let i := length (commonprefix start_list path_list) in
    let rel_list := replicate (length start_list - i) ".." ++ drop i path_list in
    match rel_list with
    | [] => Ok "."
    | first :: rest => Ok (foldl PyText.path_join first rest)
    end.

End PyPath.

(** ** The rest of the inference runner [virtual-machine/inference.py] *)
Module InferenceRun.
Import Py.

(** The files of the local file system as the run has written them, by
    path. A directory is there when a file lies below it. *)
Abbreviation files := (gmap string string).

(** [os.path.isfile(p)] *)
Definition isfile (fs : files) (p : string) : bool :=
  bool_decide (is_Some (fs !! p)).

(** [os.path.isdir(p)], for a path below the temporary directory. *)
Definition isdir (fs : files) (p : string) : bool :=
  existsb (λ k, PyStr.startswith k (p +:+ "/")) (map_to_list fs).*1.

(** The machine the script runs on. *)
Record machine := {
  (** [os.getcwd()], an absolute path *)
  cwd : string;
  (** the directory [tempfile.TemporaryDirectory()] makes, absolute and
      without a final slash *)
  tmp_dir : string;
  (** the write of a blob to a path that leaves the temporary directory
      through [..]: done, or the error raised; nothing inside the
      temporary directory changes *)
  write_outside : string → result unit;
  (** [YOLO(model_path)] for the content of an existing weights file: the
      model is loaded, or the error raised *)
  load_weights : string → result unit;
  (** what the batch loop does when the model folder has left entries in
      the directories [input_images] or [annotated_images]: the objects
      uploaded in the end, or the error raised *)
  cluttered_run : files → gmap string string → result (gmap string string);
}.

(** [os.makedirs(name, exist_ok=True)] for the directory with components
    [dirs] below the existing directory [base]. The first path on the way
    that is a file stops it: [FileExistsError] when it is the directory to
    make, [NotADirectoryError] for the next path when it is above. *)
Fixpoint makedirs (fs : files) (base : string) (dirs : list string) : result unit :=
  match dirs with
  | [] => Ok tt
  | d :: rest =>
      let p := PyText.path_join base d in
      if isfile fs p then
        match rest with
        | [] => Raise (OSError 17 "File exists" p)
        | d' :: _ => Raise (OSError 20 "Not a directory" (PyText.path_join p d'))
        end
      else makedirs fs p rest
  end.

(** One iteration of the loop of [download_gcs_folder]. *)
Definition download_blob (m : machine) (content : string → string)
    (source_folder destination_folder : string) (fs : files) (name : string)
    : result files :=
  if PyText.endswith name "/" then Ok fs
  else
    match PyPath.relpath (cwd m) name source_folder with
    | Raise ex => Raise ex
    | Ok relative_path =>
        let destination_path := PyText.path_join destination_folder relative_path in
        let comps := PyStr.split "/" relative_path in
        if decide (relative_path = ".") then
          Raise (OSError 21 "Is a directory" destination_path)
        else if decide (head comps = Some "..") then
          match write_outside m destination_path with
          | Raise ex => Raise ex
          | Ok _ => Ok fs
          end
        else
          match makedirs fs destination_folder (removelast comps) with
          | Raise ex => Raise ex
          | Ok _ =>
              if isdir fs destination_path
              then Raise (OSError 21 "Is a directory" destination_path)
              else Ok (<[destination_path := content name]> fs)
          end
    end.

Fixpoint download_blobs (m : machine) (content : string → string)
    (source_folder destination_folder : string) (blobs : list string) (fs : files)
    : result files :=
  match blobs with
  | [] => Ok fs
  | name :: rest =>
      match download_blob m content source_folder destination_folder fs name with
      | Raise ex => Raise ex
      | Ok fs => download_blobs m content source_folder destination_folder rest fs
      end
  end.

(** [download_gcs_folder], into the local files [fs]. *)
Definition download_gcs_folder (m : machine) (b : Gcs.bucket)
    (content : string → string) (source_folder destination_folder : string)
    (fs : files) : result files :=
  let blobs := Gcs.list_blobs b source_folder None in
  download_blobs m content source_folder destination_folder blobs fs.

(** [YOLO(model_path)]: a path that does not exist raises
    [FileNotFoundError], a directory [IsADirectoryError]. *)
Definition YOLO (m : machine) (fs : files) (model_path : string) : result unit :=
  match fs !! model_path with
  | Some weights => load_weights m weights
  | None =>
      if isdir fs model_path
      then Raise (OSError 21 "Is a directory" model_path)
      else Raise (OSError 2 "No such file or directory" model_path)
  end.

(** Whether the download of the model folder has made [input_images] or
    [annotated_images] in the temporary directory, with files below. *)
Definition cluttered (m : machine) (fs : files) : bool :=
  let input_dir := PyText.path_join (tmp_dir m) "input_images" in
  let output_dir := PyText.path_join (tmp_dir m) "annotated_images" in
  isdir fs input_dir || isdir fs output_dir.

(** [blob.name.lower().endswith(IMG_FORMATS)] *)
Definition listed (name : string) : bool :=
  existsb (PyText.endswith (PyStr.lower name)) Inference.IMG_FORMATS.

(** [list_gcs_images] *)
Definition list_gcs_images (b : Gcs.bucket) (images_folder : string) : list string :=
  filter (λ name, listed name = true) (Gcs.list_blobs b images_folder None).

Definition BATCH_SIZE : nat := 16.

(** [range(start, stop, step)]; [fuel] bounds the number of elements. *)
Fixpoint range_from (fuel start stop step : nat) : list nat :=
  match fuel with
  | O => []
  | S fuel' =>
      if (start <? stop)%nat
      then start :: range_from fuel' (start + step) stop step
      else []
  end.

(** [range(0, stop, step)] for a positive step has at most [stop] elements. *)
Definition range_step (stop step : nat) : list nat := range_from stop 0 stop step.

(** The batches of [main]:
    [image_paths[batch_index: batch_index + BATCH_SIZE]] for
    [batch_index in range(0, len(image_paths), BATCH_SIZE)]. *)
Definition batches (image_paths : list string) : list (list string) :=
  (λ batch_index, take BATCH_SIZE (drop batch_index image_paths))
    <$> range_step (length image_paths) BATCH_SIZE.

(** The local directories of a run and the objects it has uploaded. *)
Record state := {
  input_dir : gmap string string;
  output_dir : gmap string string;
  uploaded : gmap string string;
}.

(** The downloads of one batch: each image lands in [input_dir] under its
    base name. The pool runs them concurrently; two images of one base name
    leave one file. *)
Definition download_batch (content : string → string) (batch : list string)
    (input_dir : gmap string string) : gmap string string :=
  foldl (λ d img_path, <[PyStr.basename img_path := content img_path]> d)
        input_dir batch.

(** The uploads of one batch: every file of [output_dir] goes to
    [annotated_gcs_path] under its own name (a directory entry has no slash,
    so the base name of its path is the entry name). *)
Definition upload_batch (annotated_gcs_path : string)
    (output_dir uploaded : gmap string string) : gmap string string :=
  map_fold (λ f body up, <[PyText.path_join annotated_gcs_path f := body]> up)
           uploaded output_dir.

(** One iteration of the batch loop. [predict] is what the detector leaves
    in [runs/detect/predict/labels] for the batch of that number. *)
Definition run_batch (content : string → string)
    (predict : nat → gmap string string → option (gmap string Inference.entry))
    (annotated_gcs_path : string) (number : nat) (batch : list string)
    (st : state) : state :=
  let input_dir := download_batch content batch (input_dir st) in
  let output_dir :=
    Inference.process_batch (predict number input_dir) input_dir (output_dir st) in
  let annotated_files := map_to_list output_dir in
  match annotated_files with
  | _ :: _ =>
      {| input_dir := ∅; output_dir := ∅;
         uploaded := upload_batch annotated_gcs_path output_dir (uploaded st) |}
  | [] =>
      {| input_dir := ∅; output_dir := output_dir; uploaded := uploaded st |}
  end.

Fixpoint run_batches (content : string → string)
    (predict : nat → gmap string string → option (gmap string Inference.entry))
    (annotated_gcs_path : string) (number : nat) (bs : list (list string))
    (st : state) : state :=
  match bs with
  | [] => st
  | batch :: rest =>
      run_batches content predict annotated_gcs_path (S number) rest
        (run_batch content predict annotated_gcs_path number batch st)
  end.

(** [main(folder_path)]: the objects uploaded by the run, added to those
    already there. The working directories [input_images] and
    [annotated_images] are made in the temporary directory the model folder
    was fetched into. *)
Definition main (m : machine) (b : Gcs.bucket) (content : string → string)
    (predict : nat → gmap string string → option (gmap string Inference.entry))
    (folder_path : string) (uploaded : gmap string string)
    : result (gmap string string) :=
  match Inference.get_latest_model_version b "models/production/" with
  | Raise ex => Raise ex
  | Ok model_gcs_path =>
      let images_gcs_path := PyText.path_join folder_path "images/" in
      let annotated_gcs_path := PyText.path_join folder_path "auto-annotations/" in
      match download_gcs_folder m b content model_gcs_path (tmp_dir m) ∅ with
      | Raise ex => Raise ex
      | Ok fs =>
          let model_path :=
            PyText.path_join (PyText.path_join (tmp_dir m) "weights") "best.pt" in
          match YOLO m fs model_path with
          | Raise ex => Raise ex
          | Ok _ =>
              let image_paths := list_gcs_images b images_gcs_path in
              match image_paths with
              | [] => Ok uploaded
              | _ :: _ =>
                  match makedirs fs (tmp_dir m) ["input_images"] with
                  | Raise ex => Raise ex
                  | Ok _ =>
                      match makedirs fs (tmp_dir m) ["annotated_images"] with
                      | Raise ex => Raise ex
                      | Ok _ =>
                          if cluttered m fs then cluttered_run m fs uploaded
                          else
                            Ok (InferenceRun.uploaded
                                  (run_batches content predict annotated_gcs_path 0
                                     (batches image_paths)
                                     {| input_dir := ∅; output_dir := ∅;
                                        uploaded := uploaded |}))
                      end
                  end
              end
          end
      end
  end.

End InferenceRun.

(** The machine of the scenarios: writes outside the temporary directory
    go through, every weights file loads. *)
Module InferenceScenario.

Definition vm : InferenceRun.machine :=
  {| InferenceRun.cwd := "/home/runner";
     InferenceRun.tmp_dir := "/tmp/tmpk3x9q2ab";
     InferenceRun.write_outside := λ _, Py.Ok tt;
     InferenceRun.load_weights := λ _, Py.Ok tt;
     InferenceRun.cluttered_run := λ _ uploaded, Py.Ok uploaded |}.

End InferenceScenario.

(** ** The uploader script [virtual-machine/upload_to_cvat.py] *)
Module UploadScript.
Import Py.

(** [device_id, date, discard = folder_path.split("/")] *)
Definition unpack_folder_path (folder_path : string)
    : result (string * string * string) :=
  match PyStr.split "/"%char folder_path with
  | [device_id; date; discard] => Ok (device_id, date, discard)
  | [] | [_] | [_; _] =>
      Raise (ValueError "not enough values to unpack (expected 3)")
  | _ => Raise (ValueError "too many values to unpack (expected 3)")
  end.

End UploadScript.

(** ** The upload side of the CVAT client [CVAT/cvat_client.py]

    [upload_to_cvat] copies a folder of the mounted bucket to a temporary
    directory, creates a task, sends the images and then the labels.
    Directories are the sets of the names of their files; the order in which
    [glob] yields them is the file system's and is not modelled. Requests
    are answered by the platform; copying a file that is there succeeds. *)
Module CvatUpload.

(** The [raise Exception(...)] statements of the upload path, each with the
    data its message prints. *)
Inductive site :=
| SourceDirectoryNotFound
| ImagesDirectoryNotFound
| NoImagesFound
| AnnotationsDirectoryNotFound
| NoAnnotationsFound
| FailedToCreateTask (status_code : Z) (text : string)
| InvalidTaskCreationResponse
| NoImagesFoundInDir
| FailedToUploadImages (status_code : Z) (text : string)
| TaskProcessingFailed
| FailedToGetTaskStatus (status_code : Z)
| NoImagesFoundInData
| FailedToUploadAnnotations (status_code : Z) (text : string)
| AnnotationProcessingFailed.

Inductive exn :=
| Exception (raised_at : site)
| KeyError (key : string)
| Builtin (e : Py.exn).

Inductive outcome (A : Type) :=
| Return (a : A)
| Raise (e : exn).
Arguments Return {A} a.
Arguments Raise {A} e.

(** *** [Path.glob] patterns: a star followed by bracket classes *)

Fixpoint match_classes (classes : list (list ascii)) (s : string) : bool :=
  match classes, s with
  | [], EmptyString => true
  | cl :: rest, String c s' => bool_decide (c ∈ cl) && match_classes rest s'
  | _, _ => false
  end.

(** The leading [*] matches any prefix of the name. *)
Fixpoint fnmatch (classes : list (list ascii)) (name : string) : bool :=
  match_classes classes name
  || match name with
     | EmptyString => false
     | String _ r => fnmatch classes r
     end.

(** ['*.[jJ][pP][gG]'] *)
Definition JPG : list (list ascii) :=
  [ ["."%char]; ["j"; "J"]%char; ["p"; "P"]%char; ["g"; "G"]%char ].
(** ['*.[jJ][pP][eE][gG]'] *)
Definition JPEG : list (list ascii) :=
  [ ["."%char]; ["j"; "J"]%char; ["p"; "P"]%char; ["e"; "E"]%char; ["g"; "G"]%char ].
(** ['*.[pP][nN][gG]'] *)
Definition PNG : list (list ascii) :=
  [ ["."%char]; ["p"; "P"]%char; ["n"; "N"]%char; ["g"; "G"]%char ].
(** ['*.txt'] *)
Definition TXT : list (list ascii) :=
  [ ["."%char]; ["t"%char]; ["x"%char]; ["t"%char] ].

Definition glob (classes : list (list ascii)) (dir : gset string) : gset string :=
  filter (λ name, fnmatch classes name = true) dir.

(** *** The mounted bucket and the local files *)

(** A date folder of the mount: its [images] and [auto-annotations]
    directories, where they exist. *)
Record folder := {
  images : option (gset string);
  auto_annotations : option (gset string);
}.

(** [bucket_mount_path / device_id / date], where it exists. *)
Definition mount : Type := string → string → option folder.

(** The temporary directory of one upload: [device/date/images] and
    [annotations]. *)
Record tempdir := {
  images_dest : gset string;
  annotations_dest : gset string;
}.

(** [upload.zip]: the files under [obj_train_data] and the lines of
    [train.txt]; [obj.names] and [obj.data] hold the class names. *)
Record yolo_zip := {
  obj_train_data : gset string;
  train_txt : gset string;
}.

Inductive request :=
| PostTask (name : string)
| PostData (task_id : Cvat.json) (client_files : gset string)
| GetStatus (task_id : Cvat.json)
| PutAnnotations (task_id : Cvat.json) (annotation_file : yolo_zip).

Record create_answer := {
  create_status : Z;
  create_text : string;
  task_data : gmap string Cvat.json;
}.

Record answer := { status_code : Z; text : string }.

(** ['state'] of the status body, if the key is there. *)
Record status_answer := { status_status : Z; state : option string }.

(** The platform as the client sees it: the answers to the creation of a
    task of a given name, to the data and annotation uploads of a task, and
    to the [k]-th status poll. *)
Record platform := {
  create_response : string → create_answer;
  data_response : Cvat.json → answer;
  annotations_response : Cvat.json → answer;
  status_response : nat → status_answer;
}.

(** Local files, the requests sent so far, the number of status polls and
    the seconds slept; [uploads] lists the calls of [upload_to_cvat]. *)
Record world := {
  temp_dir : option tempdir;
  temp_images : option (gset string);
  images_zip : option (gset string);
  upload_zip : option yolo_zip;
  sent : list request;
  polls : nat;
  slept : Z;
  uploads : list (string * string);
}.

Definition set_temp_dir (v : option tempdir) (w : world) : world :=
  {| temp_dir := v; temp_images := temp_images w; images_zip := images_zip w;
     upload_zip := upload_zip w; sent := sent w; polls := polls w;
     slept := slept w; uploads := uploads w |}.
Definition set_temp_images (v : option (gset string)) (w : world) : world :=
  {| temp_dir := temp_dir w; temp_images := v; images_zip := images_zip w;
     upload_zip := upload_zip w; sent := sent w; polls := polls w;
     slept := slept w; uploads := uploads w |}.
Definition set_images_zip (v : option (gset string)) (w : world) : world :=
  {| temp_dir := temp_dir w; temp_images := temp_images w; images_zip := v;
     upload_zip := upload_zip w; sent := sent w; polls := polls w;
     slept := slept w; uploads := uploads w |}.
Definition set_upload_zip (v : option yolo_zip) (w : world) : world :=
  {| temp_dir := temp_dir w; temp_images := temp_images w; images_zip := images_zip w;
     upload_zip := v; sent := sent w; polls := polls w;
     slept := slept w; uploads := uploads w |}.
Definition send (r : request) (w : world) : world :=
  {| temp_dir := temp_dir w; temp_images := temp_images w; images_zip := images_zip w;
     upload_zip := upload_zip w; sent := sent w ++ [r]; polls := polls w;
     slept := slept w; uploads := uploads w |}.
Definition count_poll (w : world) : world :=
  {| temp_dir := temp_dir w; temp_images := temp_images w; images_zip := images_zip w;
     upload_zip := upload_zip w; sent := sent w; polls := S (polls w);
     slept := slept w; uploads := uploads w |}.
Definition add_sleep (n : Z) (w : world) : world :=
  {| temp_dir := temp_dir w; temp_images := temp_images w; images_zip := images_zip w;
     upload_zip := upload_zip w; sent := sent w; polls := polls w;
     slept := slept w + n; uploads := uploads w |}.
Definition log_upload (device_id date : string) (w : world) : world :=
  {| temp_dir := temp_dir w; temp_images := temp_images w; images_zip := images_zip w;
     upload_zip := upload_zip w; sent := sent w; polls := polls w;
     slept := slept w; uploads := uploads w ++ [(device_id, date)] |}.

(** Methods return, raise, or are still waiting when the fuel of their
    [while True] loop is used up. *)
Definition M (A : Type) : Type := world → option (outcome A * world).

Definition ret {A} (a : A) : M A := λ w, Some (Return a, w).
Definition raise {A} (e : exn) : M A := λ w, Some (Raise e, w).
Definition bind {A B} (m : M A) (k : A → M B) : M B :=
  λ w, match m w with
       | Some (Return a, w') => k a w'
       | Some (Raise e, w') => Some (Raise e, w')
       | None => None
       end.
Definition act (f : world → world) : M unit := λ w, Some (Return tt, f w).
(** [try: m except Exception as e: h e] *)
Definition try_except {A} (m : M A) (h : exn → M A) : M A :=
  λ w, match m w with
       | Some (Return a, w') => Some (Return a, w')
       | Some (Raise e, w') => h e w'
       | None => None
       end.
(** [try: m finally: f] *)
Definition try_finally {A} (m : M A) (f : world → world) : M A :=
  λ w, match m w with
       | Some (r, w') => Some (r, f w')
       | None => None
       end.

Notation "x <~ m ;; k" := (bind m (λ x, k))
  (at level 100, m at next level, right associativity).
Notation "m ;;; k" := (bind m (λ _, k))
  (at level 100, right associativity).

(** *** [_get_device_data] *)

(** [mkdir(parents=True, exist_ok=True)] of both destinations. *)
Definition mkdir_temp_dir (w : world) : world :=
  set_temp_dir
    (Some (default {| images_dest := ∅; annotations_dest := ∅ |} (temp_dir w))) w.

Definition copy_images (names : gset string) (w : world) : world :=
  set_temp_dir
    ((λ t, {| images_dest := images_dest t ∪ names;
              annotations_dest := annotations_dest t |}) <$> temp_dir w) w.

Definition copy_annotations (names : gset string) (w : world) : world :=
  set_temp_dir
    ((λ t, {| images_dest := images_dest t;
              annotations_dest := annotations_dest t ∪ names |}) <$> temp_dir w) w.

(** The files each pattern of the list yields. *)
Definition glob_all (patterns : list (list (list ascii))) (dir : gset string)
    : list (gset string) :=
  (λ p, glob p dir) <$> patterns.

(** [image_count]: one per file a pattern yields. *)
Definition count {A} `{Countable A} (found : list (gset A)) : nat :=
  foldr (λ s n, (size s + n)%nat) 0%nat found.

Definition _get_device_data (mnt : mount) (device_id date : string) : M unit :=
  match mnt device_id date with
  | None => raise (Exception SourceDirectoryNotFound)
  | Some device_path =>
      match images device_path with
      | None => raise (Exception ImagesDirectoryNotFound)
      | Some images_src =>
          act mkdir_temp_dir ;;;
          let found := glob_all [JPG; JPEG; PNG] images_src in
          act (copy_images (⋃ found)) ;;;
          let image_count := count found in
          if (image_count =? 0)%nat then raise (Exception NoImagesFound)
          else
            match auto_annotations device_path with
            | None => raise (Exception AnnotationsDirectoryNotFound)
            | Some annotations_src =>
                let found := glob TXT annotations_src in
                act (copy_annotations found) ;;;
                let annotation_count := size found in
                if (annotation_count =? 0)%nat
                then raise (Exception NoAnnotationsFound)
                else ret tt
            end
      end
  end.

(** *** [_create_task] *)

Definition _create_task (pf : platform) (name : string)
    : M (gmap string Cvat.json) :=
  act (send (PostTask name)) ;;;
  let response := create_response pf name in
  if negb (create_status response =? 201)%Z
  then raise (Exception (FailedToCreateTask (create_status response)
                           (create_text response)))
  else
    let task_data := task_data response in
    if bool_decide (task_data = ∅) || bool_decide (task_data !! "id" = None)
    then raise (Exception InvalidTaskCreationResponse)
    else
      (* the message printed reads task_data['id'] and task_data['name'] *)
      match task_data !! "name" with
      | None => raise (KeyError "name")
      | Some _ => ret task_data
      end.

(** [task['id']] *)
Definition task_id_of (task : gmap string Cvat.json) : M Cvat.json :=
  match task !! "id" with
  | Some i => ret i
  | None => raise (KeyError "id")
  end.

(** *** [_get_task_status] and the two waiting loops *)

Definition _get_task_status (pf : platform) (task_id : Cvat.json) : M string :=
  λ w,
    let response := status_response pf (polls w) in
    let w := count_poll (send (GetStatus task_id) w) in
    if negb (status_status response =? 200)%Z
    then raise (Exception (FailedToGetTaskStatus (status_status response))) w
    else ret (default "Unknown" (state response)) w.

(** [while True: status = ...; if status == "Failed": raise ...;
    if status == "Finished": break; time.sleep(interval)] *)
Fixpoint wait_finished (fuel : nat) (pf : platform) (task_id : Cvat.json)
    (interval : Z) (failed : site) : M unit :=
  match fuel with
  | O => λ _, None
  | S fuel =>
      status <~ _get_task_status pf task_id ;;
      if bool_decide (status = "Failed") then raise (Exception failed)
      else if bool_decide (status = "Finished") then ret tt
      else act (add_sleep interval) ;;;
           wait_finished fuel pf task_id interval failed
  end.

(** *** [_prepare_image_zip] and [_upload_images] *)

Definition in_dir (dir : string) (names : gset string) : gset string :=
  set_map (λ name, dir +:+ name) names.

(** [image_dir] is [temp_dir / device_id / date / 'images']; the method
    reads the device id and the date back from this path. [temp_images] is
    kept when it exists and removed once the archive is made. *)
Definition _prepare_image_zip (device_id date : string) : M (gset string) :=
  λ w,
    let image_dir := default ∅ (images_dest <$> temp_dir w) in
    let w := set_temp_images (Some (default ∅ (temp_images w))) w in
    let found := glob_all [PNG; JPG; JPEG] image_dir in
    let copied := in_dir (device_id +:+ "/" +:+ date +:+ "/images/") (⋃ found) in
    let w := set_temp_images ((λ t, t ∪ copied) <$> temp_images w) w in
    if (count found =? 0)%nat then raise (Exception NoImagesFoundInDir) w
    else
      let archive := default ∅ (temp_images w) in
      let w := set_images_zip (Some archive) w in
      let w := set_temp_images None w in
      ret archive w.

Definition _upload_images (fuel : nat) (pf : platform) (task_id : Cvat.json)
    (device_id date : string) : M unit :=
  zip_file <~ _prepare_image_zip device_id date ;;
  try_finally
    (act (send (PostData task_id zip_file)) ;;;
     let upload_response := data_response pf task_id in
     if negb (bool_decide (status_code upload_response ∈ [201; 202]%Z))
     then raise (Exception (FailedToUploadImages (status_code upload_response)
                              (text upload_response)))
     else wait_finished fuel pf task_id 15 TaskProcessingFailed)
    (set_images_zip None).

(** *** [_prepare_yolo_data] and [_upload_annotations] *)

(** The image files [rglob] finds under the temporary directory, by their
    path relative to it: the directory and the name. *)
Definition rglob (classes : list (list ascii)) (device_id date : string)
    (t : tempdir) : gset (string * string) :=
  set_map (λ name, (device_id +:+ "/" +:+ date +:+ "/images/", name))
    (glob classes (images_dest t))
  ∪ set_map (λ name, ("annotations/", name)) (glob classes (annotations_dest t)).

(** What one image adds to [obj_train_data]: itself and, if
    [annotations/{stem}.txt] exists, that label beside it. The directory
    [temp_upload] in which the archive is laid out is built and removed
    within the call. *)
Definition train_files (t : tempdir) (img : string * string) : gset string :=
  {[ "obj_train_data/" +:+ img.1 +:+ img.2 ]}
  ∪ (if bool_decide (PyStr.stem img.2 +:+ ".txt" ∈ annotations_dest t)
     then {[ "obj_train_data/" +:+ img.1 +:+ PyStr.stem img.2 +:+ ".txt" ]}
     else ∅).

Definition _prepare_yolo_data (device_id date : string) : M yolo_zip :=
  λ w,
    let data_dir := default {| images_dest := ∅; annotations_dest := ∅ |} (temp_dir w) in
    let found := (λ p, rglob p device_id date data_dir) <$> [PNG; JPG; JPEG] in
    let image_count := count found in
    if (image_count =? 0)%nat then raise (Exception NoImagesFoundInData) w
    else
      let imgs : gset (string * string) := ⋃ found in
      let archive :=
        {| obj_train_data := ⋃ (train_files data_dir <$> elements imgs);
           train_txt := set_map (λ img : string * string,
                                   "obj_train_data/" +:+ img.1 +:+ img.2) imgs |} in
      ret archive (set_upload_zip (Some archive) w).

Definition _upload_annotations (fuel : nat) (pf : platform) (task_id : Cvat.json)
    (zip_file : yolo_zip) : M unit :=
  act (send (PutAnnotations task_id zip_file)) ;;;
  let upload_response := annotations_response pf task_id in
  if negb (bool_decide (status_code upload_response ∈ [200; 202]%Z))
  then raise (Exception (FailedToUploadAnnotations (status_code upload_response)
                           (text upload_response)))
  else if (status_code upload_response =? 202)%Z
       then wait_finished fuel pf task_id 5 AnnotationProcessingFailed
       else ret tt.

(** *** [upload_to_cvat] *)

(** [if temp_dir.exists(): shutil.rmtree(temp_dir)] *)
Definition rmtree_temp_dir (w : world) : world := set_temp_dir None w.

Definition upload_to_cvat (fuel : nat) (pf : platform) (mnt : mount)
    (device_id date : string) : M bool :=
  act (log_upload device_id date) ;;;
  try_finally
    (try_except
       (_get_device_data mnt device_id date ;;;
        let task_name := device_id +:+ "_" +:+ date in
        task <~ _create_task pf task_name ;;
        task_id <~ task_id_of task ;;
        _upload_images fuel pf task_id device_id date ;;;
        zip_file <~ _prepare_yolo_data device_id date ;;
        _upload_annotations fuel pf task_id zip_file ;;;
        act (set_upload_zip None) ;;;
        ret true)
       (λ e, act rmtree_temp_dir ;;; ret false))
    rmtree_temp_dir.

(** *** The script [virtual-machine/upload_to_cvat.py]: the loop over the
    folder paths. An exception is logged and raised again. *)
Fixpoint upload_folders (fuel : nat) (pf : platform) (mnt : mount)
    (folder_paths : list string) : M unit :=
  match folder_paths with
  | [] => ret tt
  | folder_path :: rest =>
      match UploadScript.unpack_folder_path folder_path with
      | Py.Raise e => raise (Builtin e)
      | Py.Ok (device_id, date, discard) =>
          ok <~ upload_to_cvat fuel pf mnt device_id date ;;
          upload_folders fuel pf mnt rest
      end
  end.

End CvatUpload.

(** ** Scenarios of an upload *)
Module UploadScenario.
Import CvatUpload.

(** Device 3 has a folder with two images the upload takes, one it does
    not, and labels for two of them; device 2 has bitmaps only. *)
Definition bucket : mount :=
  λ device_id date,
    if decide ((device_id, date) = ("3", "2025-1-4"))
    then Some {| images := Some {[ "a.jpg"; "b.PNG"; "c.bmp" ]};
                 auto_annotations := Some {[ "a.txt"; "c.txt"; "notes.md" ]} |}
    else if decide ((device_id, date) = ("2", "2025-1-4"))
    then Some {| images := Some {[ "x.bmp"; "y.tiff" ]};
                 auto_annotations := Some {[ "x.txt"; "y.txt" ]} |}
    else None.

(** Every task is created with id 7, uploads are accepted for processing,
    and the status polls answer from [states], then ["Started"]. *)
Definition accepting (states : list string) : platform :=
  {| create_response := λ name,
       {| create_status := 201; create_text := "";
          task_data := {[ "id" := Cvat.JInt 7; "name" := Cvat.JStr name ]} |};
     data_response := λ _, {| status_code := 202; text := "" |};
     annotations_response := λ _, {| status_code := 202; text := "" |};
     status_response := λ k,
       {| status_status := 200; state := Some (default "Started" (states !! k)) |} |}.

Definition fresh : world :=
  {| temp_dir := None; temp_images := None; images_zip := None; upload_zip := None;
     sent := []; polls := 0; slept := 0; uploads := [] |}.

End UploadScenario.

(** ** Vocabulary of the further statements *)

(** The order of [list.sort(key=lambda x: x['name'])]. *)
Definition name_le (a b : Cvat.task) : Prop :=
  String.leb (Cvat.t_name a) (Cvat.t_name b) = true.

(** The folder an element of [results] is about. *)
Definition item_key (i : Download.item) : string * string :=
  (Download.item_device_id i, Download.item_date i).

(** The names the image patterns of the upload yield. *)
Definition uploadable (name : string) : bool :=
  CvatUpload.fnmatch CvatUpload.JPG name
  || CvatUpload.fnmatch CvatUpload.JPEG name
  || CvatUpload.fnmatch CvatUpload.PNG name.

(** A status answer that keeps a waiting loop going. *)
Definition pending (a : CvatUpload.status_answer) : Prop :=
  CvatUpload.status_status a = 200%Z
  ∧ CvatUpload.state a ≠ Some "Failed" ∧ CvatUpload.state a ≠ Some "Finished".

(** No temporary file of an earlier upload lies around. *)
Definition tidy (w : CvatUpload.world) : Prop :=
  CvatUpload.temp_dir w = None ∧ CvatUpload.temp_images w = None
  ∧ CvatUpload.images_zip w = None.

(** The world after [n] rounds of a waiting loop that found the task
    neither finished nor failed: a status poll and a sleep each. *)
Definition polled (task_id : Cvat.json) (interval : Z) (n : nat)
    (w : CvatUpload.world) : CvatUpload.world :=
  Nat.iter n (λ w, CvatUpload.add_sleep interval
                     (CvatUpload.count_poll
                        (CvatUpload.send (CvatUpload.GetStatus task_id) w))) w.

(** From poll number [k] on, the platform answers [n] times that the task
    is neither finished nor failed and then that it is finished. *)
Definition finished_at (pf : CvatUpload.platform) (k n : nat) : Prop :=
  (∀ i, (i < n)%nat → pending (CvatUpload.status_response pf (k + i)))
  ∧ CvatUpload.status_status (CvatUpload.status_response pf (k + n)) = 200%Z
  ∧ CvatUpload.state (CvatUpload.status_response pf (k + n)) = Some "Finished".

(** The images and the labels of a folder that an upload takes. *)
Definition taken (imgs : gset string) : gset string :=
  filter (λ name, uploadable name = true) imgs.
Definition labels (annos : gset string) : gset string :=
  filter (λ name, PyText.endswith name ".txt" = true) annos.

(** The two kinds of request that carry an archive. *)
Definition is_data (r : CvatUpload.request) : bool :=
  match r with CvatUpload.PostData _ _ => true | _ => false end.
Definition is_annotations (r : CvatUpload.request) : bool :=
  match r with CvatUpload.PutAnnotations _ _ => true | _ => false end.

(** The uploader script unpacks a folder path into this device and date. *)
Definition unpacks_to (folder_path : string) (k : string * string) : Prop :=
  ∃ discard, UploadScript.unpack_folder_path folder_path = Py.Ok (k.1, k.2, discard).

(** Neither a file nor a directory is at the path. *)
Definition nothing_at (fs : InferenceRun.files) (p : string) : bool :=
  negb (InferenceRun.isfile fs p) && negb (InferenceRun.isdir fs p).

(** Whether the model folder a run fetches leaves its working directories
    for [main] to make, empty. *)
Definition starts_clean (m : InferenceRun.machine) (b : Gcs.bucket)
    (content : string → string) : bool :=
  match Inference.get_latest_model_version b "models/production/" with
  | Py.Ok model =>
      match InferenceRun.download_gcs_folder m b content model
              (InferenceRun.tmp_dir m) ∅ with
      | Py.Ok fs => negb (InferenceRun.cluttered m fs)
      | Py.Raise _ => true
      end
  | Py.Raise _ => true
  end.

(** Eligibility can be decided from the two listings. *)
#[global] Instance eligible_dec (b : Gcs.bucket) (yesterday wheel : string) :
  Decision (eligible b yesterday wheel).
Proof. unfold eligible. cbv zeta. apply _. Defined.

(** What happened between two worlds of a run: the export calls [new] were
    made, each with one element of [results] and a record in the manifest,
    then the calls [last], one at most, without either; and no record was
    lost. *)
Definition progress (devices : list string) (w w' : Download.world)
    (new last : list (string * string)) : Prop :=
  Download.exports w' = Download.exports w ++ new ++ last
  ∧ item_key <$> Download.results w' = (item_key <$> Download.results w) ++ new
  ∧ Forall (λ k, k.1 ∈ devices ∧ is_Some (recorded_status w' k.1 k.2)) new
  ∧ Forall (λ k, k.1 ∈ devices) last
  ∧ length last ≤ 1
  ∧ ∀ d dt, is_Some (recorded_status w d dt) → is_Some (recorded_status w' d dt).

(* ===================================================================== *)
(** * Properties *)
(* ===================================================================== *)

(** ** Strings *)
Section string_facts.

Lemma list_ascii_app (a b : string) :
  String.list_ascii_of_string (a +:+ b)
  = String.list_ascii_of_string a ++ String.list_ascii_of_string b.
Proof. induction a as [|c a IH]; simpl; [done | by rewrite IH]. Qed.

Lemma list_ascii_inj (a b : string) :
  String.list_ascii_of_string a = String.list_ascii_of_string b → a = b.
Proof.
  intros H.
  rewrite <- (String.string_of_list_ascii_of_string a),
          <- (String.string_of_list_ascii_of_string b).
  by rewrite H.
Qed.

Lemma append_inj_tail (a b t : string) : a +:+ t = b +:+ t → a = b.
Proof.
  intros H. apply list_ascii_inj.
  apply (f_equal String.list_ascii_of_string) in H.
  rewrite !list_ascii_app in H. by apply app_inv_tail in H.
Qed.

End string_facts.

(** ** Scan-and-dispatch *)
Section dispatch_facts.
Import Dispatch.

Variable b : Gcs.bucket.
Variable yesterday : string.

Lemma date_wheel_path_inj w1 w2 :
  date_wheel_path w1 yesterday = date_wheel_path w2 yesterday → w1 = w2.
Proof. unfold date_wheel_path. apply append_inj_tail. Qed.

Lemma check_images_spec blobs at_least :
  check_images blobs (true, at_least)
  = (forallb supported blobs, at_least || negb (bool_decide (blobs = []))).
Proof.
  revert at_least. induction blobs as [|x l IH]; intros at_least; simpl.
  - by rewrite orb_false_r.
  - rewrite orb_true_r.
    destruct (supported x); simpl; [|done].
    by rewrite IH.
Qed.

Lemma take_one_nil {A} (l : list A) : take 1 l = [] → l = [].
Proof. by destruct l. Qed.

Lemma forallb_supported l :
  forallb supported l = true ↔ Forall (λ n, extension n ∈ IMG_FORMATS) l.
Proof.
  rewrite forallb_forall, Forall_forall. unfold supported.
  split; intros H x Hx.
  - eapply bool_decide_eq_true_1, H. by apply list_elem_of_In.
  - apply bool_decide_eq_true_2, H. by apply list_elem_of_In.
Qed.

(** One iteration appends the folder exactly when it is eligible. *)
Lemma scan_wheel_spec acc wheel :
  (eligible b yesterday wheel ∧ scan_wheel b yesterday acc wheel
                    = acc ++ [date_wheel_path wheel yesterday])
  ∨ (¬ eligible b yesterday wheel ∧ scan_wheel b yesterday acc wheel = acc).
Proof.
  unfold scan_wheel, eligible. cbv zeta.
  set (path := date_wheel_path wheel yesterday).
  set (images := Gcs.list_blobs b (images_folder_path path) None).
  rewrite check_images_spec. simpl.
  destruct (decide (images = [])) as [Hnil|Hne].
  { right. rewrite bool_decide_eq_true_2 by done. simpl. split; [tauto | done]. }
  rewrite bool_decide_eq_false_2 by done. simpl.
  destruct (forallb supported images) eqn:Hall; simpl.
  2:{ right. split; [|done]. intros (_ & HF & _).
      apply forallb_supported in HF. congruence. }
  apply forallb_supported in Hall.
  set (autos := filter _ b).
  destruct (decide (take 1 autos = [])) as [Ht|Ht].
  - rewrite bool_decide_eq_true_2 by done. simpl. left.
    apply take_one_nil in Ht. split; [|done]. split; [done|]. split; done.
  - rewrite bool_decide_eq_false_2 by done. simpl. right.
    split; [|done]. intros (_ & _ & Ha). apply Ht.
    unfold Gcs.list_blobs in Ha. simpl in Ha. fold autos in Ha. by rewrite Ha.
Qed.

Lemma scan_fold_spec wheels acc p :
  p ∈ foldl (scan_wheel b yesterday) acc wheels
  ↔ p ∈ acc
    ∨ ∃ w, w ∈ wheels ∧ eligible b yesterday w ∧ p = date_wheel_path w yesterday.
Proof.
  revert acc. induction wheels as [|w ws IH]; intros acc; simpl.
  - split; [auto | intros [?|(w & Hw & _)]; [done | by inversion Hw]].
  - rewrite IH.
    destruct (scan_wheel_spec acc w) as [[He ->]|[He ->]].
    + rewrite elem_of_app, list_elem_of_singleton. split.
      * intros [[?| ->]|(w' & ? & ? & ?)]; eauto.
        -- right. exists w. split; [left | done].
        -- right. exists w'. split; [by right | done].
      * intros [?|(w' & Hw' & ? & ->)]; [tauto|].
        apply elem_of_cons in Hw' as [->|?]; [tauto | eauto 7].
    + split.
      * intros [?|(w' & ? & ? & ?)]; [tauto|].
        right. exists w'. split; [by right | done].
      * intros [?|(w' & Hw' & ? & ->)]; [tauto|].
        apply elem_of_cons in Hw' as [->|?]; [tauto | eauto 7].
Qed.

Lemma scan_spec wheels wheel :
  wheel ∈ wheels →
  date_wheel_path wheel yesterday ∈ scan b wheels yesterday ↔ eligible b yesterday wheel.
Proof.
  intros Hin. unfold scan. rewrite scan_fold_spec. split.
  - intros [H|(w & _ & He & Hp)]; [by inversion H|].
    by apply date_wheel_path_inj in Hp as ->.
  - intros He. right. eauto.
Qed.

Lemma metadata_folders_template items :
  flat_map (λ item,
              if decide (key item = "folders")
              then match value item with JsonList l => l | _ => [] end
              else []) (filter (λ item, key item ≠ "folders") items) = [].
Proof.
  induction items as [|i l IH]; [done|].
  rewrite filter_cons. destruct (decide (key i ≠ "folders")) as [Hk|Hk]; [|done].
  simpl. rewrite IH. by destruct (decide (key i = "folders")).
Qed.

Lemma dispatched_scan template_items user pw wheels :
  dispatched b yesterday template_items user pw wheels = scan b wheels yesterday.
Proof.
  unfold dispatched, main. simpl.
  destruct (scan b wheels yesterday) as [|f fs] eqn:Hs; [done|].
  simpl. unfold metadata_folders, start_inference_vm. simpl.
  rewrite !flat_map_app, metadata_folders_template. simpl.
  by rewrite !app_nil_r.
Qed.

End dispatch_facts.

(** C1. For a configured device and yesterday's date, the folder
    ['{device}/{date}/'] is in the folder list put into the VM metadata if
    and only if the [images/] listing is non-empty, every listed object's
    lowercased extension after the last dot is a supported image format, and
    the [auto-annotations/] listing is empty. In particular a folder with an
    object of unsupported extension under [images/] is never dispatched. *)
Theorem dispatch_eligible_iff (b : Gcs.bucket) (yesterday : string)
    (template_items : list Dispatch.Items) (user pw : option string)
    (wheels : list string) (wheel : string) :
  wheel ∈ wheels →
  let path := Dispatch.date_wheel_path wheel yesterday in
  let images := Gcs.list_blobs b (Dispatch.images_folder_path path) None in
  (path ∈ dispatched b yesterday template_items user pw wheels
   ↔ images ≠ []
     ∧ Forall (λ n, Dispatch.extension n ∈ Dispatch.IMG_FORMATS) images
     ∧ Gcs.list_blobs b (Dispatch.auto_annotations_folder_path path) None = [])
  ∧ (∀ n, n ∈ images → Dispatch.extension n ∉ Dispatch.IMG_FORMATS →
          path ∉ dispatched b yesterday template_items user pw wheels).
Proof.
  intros Hin path images.
  assert (Hiff : path ∈ dispatched b yesterday template_items user pw wheels
                 ↔ eligible b yesterday wheel).
  { rewrite dispatched_scan. by apply scan_spec. }
  split; [exact Hiff|].
  intros n Hn Hbad Hp. apply Hiff in Hp as (_ & HF & _).
  rewrite Forall_forall in HF. by apply Hbad, HF.
Qed.

(** The scenario of C1: [3/2025-1-4/images/{a.jpg,b.jpg}] and no
    [auto-annotations/] puts ["3/2025-1-4/"] in the folder list. *)
Lemma dispatch_scenario :
  "3" ∈ ["1"; "2"; "3"; "4"; "5"]
  ∧ "3/2025-1-4/" ∈ dispatched
      ["3/2025-1-4/images/a.jpg"; "3/2025-1-4/images/b.jpg"] "2025-1-4"
      [] None None ["1"; "2"; "3"; "4"; "5"].
Proof.
  assert (Hin : "3" ∈ ["1"; "2"; "3"; "4"; "5"]) by (do 2 right; left).
  split; [exact Hin|].
  apply (dispatch_eligible_iff
           ["3/2025-1-4/images/a.jpg"; "3/2025-1-4/images/b.jpg"] "2025-1-4"
           [] None None ["1"; "2"; "3"; "4"; "5"] "3" Hin).
  split; [done|]. split; [|done].
  repeat constructor; by vm_compute.
Defined.

(** ** The two copies of the dispatch function *)
Section dispatch_copies.

Variable b : Gcs.bucket.
Variable yesterday : string.

(** The second look at [auto-annotations/] is reached only when the first
    found the listing empty, and then it finds nothing either. *)
Lemma scan_wheel_copies (acc : list string) (wheel : string) :
  DispatchTop.scan_wheel b yesterday acc wheel
  = Dispatch.scan_wheel b yesterday acc wheel.
Proof.
  unfold DispatchTop.scan_wheel, Dispatch.scan_wheel. cbv zeta.
  destruct (Dispatch.check_images _ _) as [valid_images at_least_one_file].
  destruct (negb at_least_one_file); [done|].
  destruct (negb valid_images); [done|].
  unfold Gcs.list_blobs. simpl.
  destruct (filter _ b) as [|x l]; [done|].
  change (take 1 (x :: l)) with [x].
  by rewrite (bool_decide_eq_false_2 ([x] = [])).
Qed.

Lemma foldl_scan_copies (wheels acc : list string) :
  foldl (DispatchTop.scan_wheel b yesterday) acc wheels
  = foldl (Dispatch.scan_wheel b yesterday) acc wheels.
Proof.
  revert acc. induction wheels as [|w ws IH]; intros acc; simpl; [done|].
  by rewrite scan_wheel_copies, IH.
Qed.

End dispatch_copies.

(** C9, as the code has it. The two copies differ in text only: on every
    bucket, every device list and every date, the copy with the additional
    prefix-only check computes the same eligible-folder list as the copy
    with the single non-emptiness check, and so asks for an instance in the
    same cases. *)
Theorem dispatch_copies_same_folders (b : Gcs.bucket) (wheels : list string)
    (yesterday : string) (template_items : list Dispatch.Items)
    (user pw : option string) :
  DispatchTop.scan b wheels yesterday = Dispatch.scan b wheels yesterday
  ∧ from_option Dispatch.metadata_folders []
      (DispatchTop.main template_items b wheels yesterday).1
    = from_option Dispatch.metadata_folders []
        (Dispatch.main template_items user pw b wheels yesterday).1.
Proof.
  assert (Hscan : DispatchTop.scan b wheels yesterday = Dispatch.scan b wheels yesterday)
    by apply foldl_scan_copies.
  split; [exact Hscan|].
  unfold DispatchTop.main, Dispatch.main. simpl. rewrite Hscan.
  destruct (Dispatch.scan b wheels yesterday) as [|f fs]; [done|].
  simpl. unfold Dispatch.metadata_folders. simpl.
  rewrite !flat_map_app, metadata_folders_template. simpl.
  by rewrite !app_nil_r.
Qed.

(** C9 as stated fails: where the [auto-annotations/] listing holds only
    the placeholder object, both copies skip the folder, and no bucket
    makes them differ. *)
Lemma dispatch_copies_never_differ :
  Dispatch.scan ["3/2025-1-4/auto-annotations/"; "3/2025-1-4/images/a.jpg"]
    ["3"] "2025-1-4" = []
  ∧ DispatchTop.scan ["3/2025-1-4/auto-annotations/"; "3/2025-1-4/images/a.jpg"]
      ["3"] "2025-1-4" = []
  ∧ ¬ (∃ b wheels yesterday,
         DispatchTop.scan b wheels yesterday ≠ Dispatch.scan b wheels yesterday).
Proof.
  split; [by vm_compute|]. split; [by vm_compute|].
  intros (b & wheels & yesterday & Hne). apply Hne, foldl_scan_copies.
Qed.

(** ** Inference runner: label files *)
Section process_batch_facts.
Import Inference.

(** After the move loop a name holds the detector's label when there is
    one to move, and what the output directory held otherwise. *)
Lemma move_labels_lookup (labels : gmap string entry)
    (output_dir : gmap string string) (k : string) :
  map_fold move_label output_dir labels !! k
  = match labels !! k with
    | Some (File content) =>
        if decide (PyStr.suffix k = ".txt") then Some content else output_dir !! k
    | _ => output_dir !! k
    end.
Proof.
  revert k.
  apply (map_fold_weak_ind (λ (r : gmap string string) (m : gmap string entry),
    ∀ k, r !! k = match m !! k with
                  | Some (File content) =>
                      if decide (PyStr.suffix k = ".txt")
                      then Some content else output_dir !! k
                  | _ => output_dir !! k
                  end)).
  - intros k. by rewrite lookup_empty.
  - intros i x m r Hi IH k. unfold move_label.
    destruct (decide (k = i)) as [->|Hne].
    + rewrite lookup_insert_eq. destruct x as [c|].
      * destruct (decide (PyStr.suffix i = ".txt")).
        -- by rewrite lookup_insert_eq.
        -- by rewrite IH, Hi.
      * by rewrite IH, Hi.
    + rewrite (lookup_insert_ne m) by done. rewrite <- IH.
      destruct x as [c|]; [|done].
      destruct (decide (PyStr.suffix i = ".txt")); [|done].
      by rewrite lookup_insert_ne.
Qed.

(** The touch loop keeps every file it finds, adds only empty files, and
    leaves a label file for every image of the input directory. *)
Lemma touch_labels_spec (input_dir output_dir : gmap string string) :
  let r := map_fold touch_label output_dir input_dir in
  (∀ k c, output_dir !! k = Some c → r !! k = Some c)
  ∧ (∀ k c, r !! k = Some c → output_dir !! k = Some c ∨ c = "")
  ∧ (∀ name, is_Some (input_dir !! name) → is_image name = true →
             is_Some (r !! label_file_name name)).
Proof.
  cbv zeta.
  apply (map_fold_weak_ind (λ (r m : gmap string string),
    (∀ k c, output_dir !! k = Some c → r !! k = Some c)
    ∧ (∀ k c, r !! k = Some c → output_dir !! k = Some c ∨ c = "")
    ∧ (∀ name, is_Some (m !! name) → is_image name = true →
               is_Some (r !! label_file_name name)))).
  - split; [done|]. split; [by left|].
    intros name [? H]. by rewrite lookup_empty in H.
  - intros i x m r Hi (Hkeep & Hnew & Hall). unfold touch_label.
    destruct (is_image i) eqn:Himg.
    + destruct (r !! label_file_name i) as [c0|] eqn:Hl.
      * split; [done|]. split; [done|].
        intros name [y Hy] Hn.
        destruct (decide (name = i)) as [->|Hne]; [by rewrite Hl|].
        rewrite lookup_insert_ne in Hy by done. apply Hall; [by eexists | done].
      * split; [|split].
        -- intros k c Hk. destruct (decide (k = label_file_name i)) as [->|Hne].
           ++ apply Hkeep in Hk. congruence.
           ++ rewrite lookup_insert_ne by done. by apply Hkeep.
        -- intros k c. destruct (decide (k = label_file_name i)) as [->|Hne].
           ++ rewrite lookup_insert_eq. intros [= <-]. by right.
           ++ rewrite lookup_insert_ne by done. apply Hnew.
        -- intros name [y Hy] Hn.
           destruct (decide (label_file_name name = label_file_name i)) as [->|Hne].
           ++ rewrite lookup_insert_eq. by eexists.
           ++ rewrite lookup_insert_ne by done.
              destruct (decide (name = i)) as [->|Hni]; [done|].
              rewrite lookup_insert_ne in Hy by done. apply Hall; [by eexists | done].
    + split; [done|]. split; [done|].
      intros name [y Hy] Hn.
      destruct (decide (name = i)) as [->|Hne]; [congruence|].
      rewrite lookup_insert_ne in Hy by done. apply Hall; [by eexists | done].
Qed.

(** A directory lists a name at most once. *)
Lemma filter_key_length {A} (l : list (string * A)) (k : string) (c : A) :
  NoDup l.*1 → (k, c) ∈ l →
  length (filter (λ kv : string * A, kv.1 = k) l) = 1%nat.
Proof.
  induction l as [|[k' c'] l IH]; intros Hnd Hin; [by inversion Hin|].
  simpl in Hnd. apply NoDup_cons in Hnd as [Hk' Hnd].
  rewrite filter_cons. simpl.
  destruct (decide (k' = k)) as [->|Hne].
  - simpl. f_equal.
    destruct (filter (λ kv : string * A, kv.1 = k) l) as [|[k2 c2] t] eqn:Hf; [done|].
    exfalso.
    assert (H2 : (k2, c2) ∈ filter (λ kv : string * A, kv.1 = k) l)
      by (rewrite Hf; left).
    apply list_elem_of_filter in H2 as [Heq H2]. simpl in Heq. subst k2.
    apply Hk'. apply list_elem_of_fmap. by exists (k, c2).
  - apply IH; [done|]. apply elem_of_cons in Hin as [[=]|?]; [congruence | done].
Qed.

Lemma dir_lists_once {A} (d : gmap string A) (k : string) (c : A) :
  d !! k = Some c →
  length (filter (λ kv : string * A, kv.1 = k) (map_to_list d)) = 1%nat.
Proof.
  intros H. apply (filter_key_length _ k c).
  - apply NoDup_fst_map_to_list.
  - by apply elem_of_map_to_list.
Qed.

End process_batch_facts.

(** C2. After [process_batch], every image file of the input directory (a
    name whose lowercased suffix is a supported format) has a label file
    ['{stem}.txt'] in the output directory, listed exactly once; when the
    detector left no label file of that name and the output directory had
    none, the label file exists and is empty. *)
Theorem process_batch_label_per_image
    (predicted_txt_dir : option (gmap string Inference.entry))
    (input_dir output_dir : gmap string string) (name : string) :
  is_Some (input_dir !! name) →
  Inference.is_image name = true →
  let out := Inference.process_batch predicted_txt_dir input_dir output_dir in
  let label := Inference.label_file_name name in
  is_Some (out !! label)
  ∧ length (filter (λ kv : string * string, kv.1 = label) (map_to_list out)) = 1%nat
  ∧ (output_dir !! label = None →
     (∀ labels content, predicted_txt_dir = Some labels →
                        labels !! label ≠ Some (Inference.File content)) →
     out !! label = Some "").
Proof.
  intros Hin Himg out label. unfold Inference.process_batch in out.
  set (moved := match predicted_txt_dir with
                | Some labels => map_fold Inference.move_label output_dir labels
                | None => output_dir
                end) in out.
  destruct (touch_labels_spec input_dir moved) as (Hkeep & Hnew & Hall).
  fold out in Hkeep, Hnew, Hall.
  destruct (Hall name Hin Himg) as [c Hc]. fold label in Hc.
  split; [by eexists|]. split; [by eapply dir_lists_once|].
  intros Hout Hnone.
  assert (Hmoved : moved !! label = None).
  { unfold moved. destruct predicted_txt_dir as [labels|]; [|done].
    rewrite move_labels_lookup.
    destruct (labels !! label) as [[content|]|] eqn:Hl; try done.
    by destruct (Hnone labels content eq_refl). }
  destruct (Hnew _ _ Hc) as [H| ->]; [congruence | done].
Qed.

(** A batch of two images, one with a detection: [a.txt] comes from the
    detector, [b.txt] is created empty. *)
Lemma process_batch_label_per_image_witness :
  let input_dir : gmap string string := {[ "a.jpg" := "A"; "b.PNG" := "B" ]} in
  let labels : gmap string Inference.entry :=
    {[ "a.txt" := Inference.File "0 0.5 0.5 0.1 0.1" ]} in
  let out := Inference.process_batch (Some labels) input_dir ∅ in
  out !! "a.txt" = Some "0 0.5 0.5 0.1 0.1" ∧ out !! "b.txt" = Some "".
Proof.
  cbv zeta. split; [by vm_compute|].
  refine (proj2 (proj2 (process_batch_label_per_image
            (Some {[ "a.txt" := Inference.File "0 0.5 0.5 0.1 0.1" ]})
            {[ "a.jpg" := "A"; "b.PNG" := "B" ]} ∅ "b.PNG" _ _)) _ _).
  - exists "B". by vm_compute.
  - by vm_compute.
  - by vm_compute.
  - intros labels content [= <-]. by vm_compute.
Defined.

(** ** Inference runner: model version *)
Section model_version_facts.
Import Py Inference.

Lemma max_by_version_spec (l : list (N * string)) (best : N * string) :
  let r := max_by_version best l in
  (r = best ∨ r ∈ l) ∧ (best.1 ≤ r.1)%N ∧ ∀ x, x ∈ l → (x.1 ≤ r.1)%N.
Proof.
  revert best. induction l as [|x l IH]; intros best; simpl.
  - split; [by left|]. split; [lia|]. intros x Hx. by inversion Hx.
  - destruct (N.ltb_spec best.1 x.1) as [Hlt|Hge].
    + destruct (IH x) as (Hin & Hle & Hall).
      split; [|split].
      * right. destruct Hin as [->|?]; [left | by right].
      * lia.
      * intros y Hy. apply elem_of_cons in Hy as [->|?]; [done | by apply Hall].
    + destruct (IH best) as (Hin & Hle & Hall).
      split; [|split].
      * destruct Hin as [?|?]; [by left | right; by right].
      * done.
      * intros y Hy. apply elem_of_cons in Hy as [->|?]; [lia | by apply Hall].
Qed.

Lemma model_version_Some pf blob v :
  model_version pf blob = Some v ↔
  ∃ digits, search blob = Some digits
            ∧ v = (int_of_digits digits,
                   pf +:+ "model_v" +:+ str_int (Z.of_N (int_of_digits digits)) +:+ "/").
Proof.
  unfold model_version. destruct (search blob) as [d|].
  - split; [intros [= <-]; eauto | intros (d' & [= <-] & ->); done].
  - split; [done | intros (d' & [=] & _)].
Qed.

(** What [search] finds is a match of the pattern: the text [model_v], a
    non-empty run of digits, and a slash. *)
Lemma strip_prefix_Some (p s r : string) :
  strip_prefix p s = Some r → s = p +:+ r.
Proof.
  revert s. induction p as [|a p IH]; intros s; simpl.
  - by intros [= ->].
  - destruct s as [|c s]; [done|].
    destruct (decide (a = c)) as [->|]; [|done].
    intros H. by rewrite (IH _ H).
Qed.

Lemma span_digits_spec (s : string) :
  s = (span_digits s).1 +:+ (span_digits s).2
  ∧ Forall (λ c, is_digit c = true) (String.list_ascii_of_string (span_digits s).1).
Proof.
  induction s as [|c s [IH1 IH2]]; simpl; [by split|].
  destruct (is_digit c) eqn:Hc; [|by split].
  destruct (span_digits s) as [d rest]. simpl in *. split.
  - exact (f_equal (String c) IH1).
  - by constructor.
Qed.

Lemma match_here_sound (s digits : string) :
  match_here s = Some digits →
  digits ≠ ""
  ∧ Forall (λ c, is_digit c = true) (String.list_ascii_of_string digits)
  ∧ ∃ post, s = "model_v" +:+ digits +:+ "/" +:+ post.
Proof.
  unfold match_here.
  destruct (strip_prefix "model_v" s) as [rest|] eqn:Hp; [|done].
  apply strip_prefix_Some in Hp.
  destruct (span_digits_spec rest) as [Hrest Hdig].
  destruct (span_digits rest) as [d rest']. simpl in *.
  destruct d as [|c d]; [done|].
  destruct rest' as [|c' post]; [done|].
  repeat (destruct c' as [[] [] [] [] [] [] [] []]; try done).
  intros [= <-]. split; [done|]. split; [done|].
  exists post. by rewrite Hp, Hrest.
Qed.

Lemma search_sound (s digits : string) :
  search s = Some digits →
  digits ≠ ""
  ∧ Forall (λ c, is_digit c = true) (String.list_ascii_of_string digits)
  ∧ ∃ pre post, s = pre +:+ "model_v" +:+ digits +:+ "/" +:+ post.
Proof.
  induction s as [|c s IH].
  - done.
  - cbn [search]. destruct (match_here (String c s)) eqn:Hm.
    + intros [= ->]. apply match_here_sound in Hm as (? & ? & post & ?).
      split; [done|]. split; [done|]. by exists "", post.
    + intros H. destruct (IH H) as (? & ? & pre & post & ->).
      split; [done|]. split; [done|]. by exists (String c pre), post.
Qed.

End model_version_facts.

(** C3. [get_latest_model_version] raises exactly when no blob name under
    the production folder matches [model_v{N}/]; otherwise it returns the
    prefix ['{production_folder}model_v{N}/'] for the numerically largest
    [N] among the matching names, so that [model_v10] wins over
    [model_v9]. *)
Theorem get_latest_model_version_max (b : Gcs.bucket) (production_folder : string) :
  let blobs := Gcs.list_blobs b production_folder None in
  (Inference.get_latest_model_version b production_folder
     = Py.Raise (Py.ValueError "No model versions found in the production folder.")
   ↔ ∀ blob, blob ∈ blobs → Inference.search blob = None)
  ∧ ((∃ blob, blob ∈ blobs ∧ Inference.search blob ≠ None) →
     ∃ blob digits,
       blob ∈ blobs ∧ Inference.search blob = Some digits
       ∧ Inference.get_latest_model_version b production_folder
         = Py.Ok (production_folder +:+ "model_v"
                    +:+ Py.str_int (Z.of_N (Py.int_of_digits digits)) +:+ "/")
       ∧ ∀ blob' digits', blob' ∈ blobs → Inference.search blob' = Some digits' →
                          (Py.int_of_digits digits' ≤ Py.int_of_digits digits)%N)
  ∧ Inference.get_latest_model_version
      ["models/production/model_v9/weights/best.pt";
       "models/production/model_v10/weights/best.pt"] "models/production/"
    = Py.Ok "models/production/model_v10/".
Proof.
  intros blobs. unfold Inference.get_latest_model_version. fold blobs.
  split; [|split; [|by vm_compute]].
  - destruct (omap _ blobs) as [|first rest] eqn:Hom.
    + split; [|done]. intros _ blob Hblob.
      destruct (Inference.search blob) as [d|] eqn:Hs; [|done].
      assert (Hin : (Py.int_of_digits d,
                     production_folder +:+ "model_v"
                       +:+ Py.str_int (Z.of_N (Py.int_of_digits d)) +:+ "/")
                    ∈ omap (Inference.model_version production_folder) blobs).
      { apply list_elem_of_omap. exists blob. split; [done|].
        apply model_version_Some. eauto. }
      rewrite Hom in Hin. by inversion Hin.
    + destruct (Inference.max_by_version first rest) as [v pre].
      split; [done|]. intros Hall.
      assert (Hin : first ∈ omap (Inference.model_version production_folder) blobs)
        by (rewrite Hom; left).
      apply list_elem_of_omap in Hin as (blob & Hblob & Hmv).
      apply model_version_Some in Hmv as (d & Hs & _).
      rewrite (Hall blob Hblob) in Hs. done.
  - intros (blob0 & Hblob0 & Hs0).
    destruct (omap _ blobs) as [|first rest] eqn:Hom.
    { destruct (Inference.search blob0) as [d|] eqn:Hs; [|done].
      assert (Hin : (Py.int_of_digits d,
                     production_folder +:+ "model_v"
                       +:+ Py.str_int (Z.of_N (Py.int_of_digits d)) +:+ "/")
                    ∈ omap (Inference.model_version production_folder) blobs).
      { apply list_elem_of_omap. exists blob0. split; [done|].
        apply model_version_Some. eauto. }
      rewrite Hom in Hin. by inversion Hin. }
    destruct (max_by_version_spec rest first) as (Hin & Hle & Hall).
    destruct (Inference.max_by_version first rest) as [v pre] eqn:Hmax.
    assert (Hmem : (v, pre) ∈ omap (Inference.model_version production_folder) blobs).
    { rewrite Hom. destruct Hin as [->|?]; [left | by right]. }
    apply list_elem_of_omap in Hmem as (blob & Hblob & Hmv).
    apply model_version_Some in Hmv as (d & Hs & [= -> ->]).
    exists blob, d. split; [done|]. split; [done|]. split; [done|].
    intros blob' d' Hblob' Hs'.
    assert (Hin' : (Py.int_of_digits d',
                    production_folder +:+ "model_v"
                      +:+ Py.str_int (Z.of_N (Py.int_of_digits d')) +:+ "/")
                   ∈ omap (Inference.model_version production_folder) blobs).
    { apply list_elem_of_omap. exists blob'. split; [done|].
      apply model_version_Some. eauto. }
    rewrite Hom in Hin'. apply elem_of_cons in Hin' as [Heq|Hin'].
    + rewrite <- Heq in Hle. exact Hle.
    + exact (Hall _ Hin').
Qed.

(** Three versions in the production folder, listed in name order. *)
Lemma get_latest_model_version_max_witness :
  ∃ blob digits,
    blob ∈ Gcs.list_blobs
             ["models/production/model_v10/weights/best.pt";
              "models/production/model_v2/weights/best.pt";
              "models/production/model_v9/weights/best.pt"] "models/production/" None
    ∧ Inference.search blob = Some digits
    ∧ Inference.get_latest_model_version
        ["models/production/model_v10/weights/best.pt";
         "models/production/model_v2/weights/best.pt";
         "models/production/model_v9/weights/best.pt"] "models/production/"
      = Py.Ok ("models/production/" +:+ "model_v"
                 +:+ Py.str_int (Z.of_N (Py.int_of_digits digits)) +:+ "/")
    ∧ ∀ blob' digits',
        blob' ∈ Gcs.list_blobs
                  ["models/production/model_v10/weights/best.pt";
                   "models/production/model_v2/weights/best.pt";
                   "models/production/model_v9/weights/best.pt"]
                  "models/production/" None →
        Inference.search blob' = Some digits' →
        (Py.int_of_digits digits' ≤ Py.int_of_digits digits)%N.
Proof.
  apply (get_latest_model_version_max
           ["models/production/model_v10/weights/best.pt";
            "models/production/model_v2/weights/best.pt";
            "models/production/model_v9/weights/best.pt"] "models/production/").
  exists "models/production/model_v10/weights/best.pt". split.
  - vm_compute. left.
  - by vm_compute.
Defined.

(** ** Annotation-platform client *)
Section cvat_facts.
Import Py Cvat.

Lemma after_polls_0 c : after_polls c 0 = c.
Proof.
  destruct c. unfold after_polls. simpl. f_equal; lia.
Qed.

Lemma after_polls_S c k :
  after_polls {| project_id := project_id c;
                 _tasks := _tasks c; _completed_tasks := _completed_tasks c;
                 polls := S (polls c); slept := slept c + 10 |} k
  = after_polls c (S k).
Proof. unfold after_polls. simpl. f_equal; lia. Qed.

Variable pf : platform.

(** The loop stops at the first poll whose status is not 202. *)
Lemma poll_export_first_terminal (n k : nat) (c : client) (code : Z) :
  k < n →
  (∀ j, j < k → poll_status pf (polls c + j) = 202%Z) →
  poll_status pf (polls c + k) = code →
  code ≠ 202%Z →
  poll_export pf n c
  = (if is_200_or_201 code then Ok true
     else Raise (Exception ("Export failed: " +:+ str_int code)),
     after_polls c (S k)).
Proof.
  revert k c. induction n as [|n IH]; intros k c Hk H202 Hcode Hne; [lia|].
  simpl. unfold bind, sleep, poll. simpl.
  destruct k as [|k].
  - rewrite Nat.add_0_r in Hcode. rewrite Hcode.
    rewrite <- (after_polls_S c 0), after_polls_0.
    destruct (is_200_or_201 code); [done|].
    destruct (code =? 202)%Z eqn:E; [apply Z.eqb_eq in E; done | done].
  - pose proof (H202 0%nat ltac:(lia)) as H0. rewrite Nat.add_0_r in H0.
    rewrite H0. simpl.
    rewrite (IH k); [by rewrite after_polls_S | lia | | | done].
    + intros j Hj. simpl. rewrite <- (H202 (S j)) by lia. f_equal. lia.
    + simpl. rewrite <- Hcode. f_equal. lia.
Qed.



Lemma export_annotations_after_lookup (device_id date : string)
    (c c1 : client) (task : task) (r : result bool) (c2 : client) :
  find_task_to_export pf device_id date c = (Ok task, c1) →
  request_export pf c1 = (r, c2) →
  export_annotations_try pf device_id date c = (r, c2)
  ∧ export_annotations pf device_id date c
    = (match r with Ok ok => Ok ok | Raise _ => Ok false end, c2).
Proof.
  intros Hfind Hreq.
  assert (Htry : export_annotations_try pf device_id date c = (r, c2)).
  { unfold export_annotations_try, bind. rewrite Hfind. exact Hreq. }
  split; [done|].
  unfold export_annotations, try_except. rewrite Htry. by destruct r.
Qed.

End cvat_facts.

(** C6. Once the task is found and the export request is answered 202 with
    a request id, [export_annotations] returns right after the first poll
    whose status is not 202, having sent exactly that many polls: with
    success when the status is 200 or 201, without when it is anything
    else; every 202 before it only continues the loop. With five answers
    202 and then 201, success is reported after the sixth poll. *)
Theorem export_reports_at_first_terminal_poll (pf : Cvat.platform)
    (device_id date : string) (c c1 : Cvat.client) (task : Cvat.task)
    (k : nat) (code : Z) :
  Cvat.find_task_to_export pf device_id date c = (Py.Ok task, c1) →
  Cvat.status_code (Cvat.export_response pf) = 202%Z →
  Cvat.truthy (Cvat.rq_id (Cvat.export_response pf)) = true →
  k < 60 →
  (∀ j, j < k → Cvat.poll_status pf (Cvat.polls c1 + j) = 202%Z) →
  Cvat.poll_status pf (Cvat.polls c1 + k) = code →
  code ≠ 202%Z →
  Cvat.export_annotations pf device_id date c
  = (Py.Ok (Cvat.is_200_or_201 code), after_polls c1 (S k)).
Proof.
  intros Hfind H202 Hrq Hk Hbefore Hcode Hne.
  pose proof (poll_export_first_terminal pf 60 k c1 code Hk Hbefore Hcode Hne) as Hloop.
  assert (Hreq : Cvat.request_export pf c1
                 = (if Cvat.is_200_or_201 code then Py.Ok true
                    else Py.Raise (Py.Exception ("Export failed: " +:+ Py.str_int code)),
                    after_polls c1 (S k))).
  { unfold Cvat.request_export. rewrite H202, Hrq. exact Hloop. }
  destruct (export_annotations_after_lookup pf _ _ _ _ _ _ _ Hfind Hreq) as [_ ->].
  by destruct (Cvat.is_200_or_201 code).
Qed.

(** The scenario of C6: [rq_id = 42], five polls answered 202 and the
    sixth 201. *)
Lemma export_reports_at_first_terminal_poll_witness :
  Cvat.export_annotations Scenario.six_polls "3" "2025-1-4" Scenario.new_client
  = (Py.Ok true, after_polls Scenario.cached 6)
  ∧ Cvat.polls (after_polls Scenario.cached 6) = 6
  ∧ Cvat.slept (after_polls Scenario.cached 6) = 60%Z.
Proof.
  split.
  - apply (export_reports_at_first_terminal_poll Scenario.six_polls "3" "2025-1-4"
             Scenario.new_client Scenario.cached
             {| Cvat.t_id := 7; Cvat.t_name := "3_2025-1-4";
                Cvat.t_status := "completed" |} 5 201%Z).
    + by vm_compute.
    + reflexivity.
    + reflexivity.
    + lia.
    + intros j Hj. do 5 (destruct j as [|j]; [reflexivity|]). lia.
    + reflexivity.
    + discriminate.
  - split; reflexivity.
Defined.

(** C10. When the cached task list has no task of the requested name,
    [get_task] does not raise the ["Task ... not found"] exception: it
    fails with a NameError on [task_name], and so does the fallback of
    [get_completed_task] for a name absent from both caches. On a cache
    that was never filled, [get_task] fails with a TypeError from iterating
    [None], without fetching anything. *)
Theorem get_task_missing_is_name_error (c : Cvat.client) (name : string)
    (tasks : list Cvat.task) :
  Cvat._tasks c = Some tasks →
  (∀ t, t ∈ tasks → Cvat.t_name t ≠ name) →
  Cvat.get_task name c = (Py.Raise (Py.NameError "task_name"), c)
  ∧ (∀ msg c', Cvat.get_task name c ≠ (Py.Raise (Py.Exception msg), c'))
  ∧ (∀ completed,
       Cvat._completed_tasks c = Some completed →
       (∀ t, t ∈ completed → Cvat.t_name t ≠ name) →
       Cvat.get_completed_task name c = (Py.Raise (Py.NameError "task_name"), c))
  ∧ (∀ c0, Cvat._tasks c0 = None →
           Cvat.get_task name c0
           = (Py.Raise (Py.TypeError "'NoneType' object is not iterable"), c0)).
Proof.
  intros Htasks Habsent.
  assert (Hfind : ∀ l, (∀ t, t ∈ l → Cvat.t_name t ≠ name) →
                       Cvat.find_by_name name l = None).
  { intros l Hl. unfold Cvat.find_by_name.
    destruct (filter _ l) as [|t r] eqn:Hf; [done|].
    assert (Ht : t ∈ filter (λ t, Cvat.t_name t = name) l) by (rewrite Hf; left).
    apply list_elem_of_filter in Ht as [Hn Ht]. by destruct (Hl t Ht). }
  assert (Hget : Cvat.get_task name c = (Py.Raise (Py.NameError "task_name"), c)).
  { unfold Cvat.get_task. by rewrite Htasks, (Hfind tasks Habsent). }
  split; [done|]. split; [|split].
  - intros msg c'. rewrite Hget. congruence.
  - intros completed Hc Hcabs. unfold Cvat.get_completed_task.
    rewrite Hc, (Hfind completed Hcabs). unfold Cvat.bind. by rewrite Hget.
  - intros c0 H0. unfold Cvat.get_task. by rewrite H0.
Qed.

Lemma get_task_missing_is_name_error_witness :
  let c := {| Cvat.project_id := 184108;
              Cvat._tasks := Some (Cvat.page_results Scenario.review_done);
              Cvat._completed_tasks := Some [];
              Cvat.polls := 0; Cvat.slept := 0 |} in
  Cvat.get_task "9_2025-1-4" c = (Py.Raise (Py.NameError "task_name"), c)
  ∧ Cvat.get_completed_task "9_2025-1-4" c = (Py.Raise (Py.NameError "task_name"), c).
Proof.
  intros c.
  assert (Habs : ∀ t, t ∈ Cvat.page_results Scenario.review_done →
                      Cvat.t_name t ≠ "9_2025-1-4").
  { intros t Ht. simpl in Ht.
    apply elem_of_cons in Ht as [->|Ht]; [discriminate|].
    apply elem_of_cons in Ht as [->|Ht]; [discriminate|]. by inversion Ht. }
  pose proof (get_task_missing_is_name_error c "9_2025-1-4"
                (Cvat.page_results Scenario.review_done) eq_refl Habs)
    as (Hget & _ & Hcompleted & _).
  split; [exact Hget|].
  apply (Hcompleted [] eq_refl). intros t Ht. by inversion Ht.
Defined.

(** ** Export-and-download: the manifest *)
Section manifest_facts.
Import Download.

(** The update is one insertion into the dates of the device. *)
Lemma update_processed_manifest_insert (timestamp : string) (blob : option manifest)
    (device_id date st : string) :
  update_processed_manifest timestamp blob device_id date st
  = <[device_id :=
        <[date := {| status := st; processed_at := timestamp |}]>
          (default ∅ (default ∅ blob !! device_id))]> (default ∅ blob).
Proof.
  unfold update_processed_manifest.
  replace (match blob with Some m => m | None => ∅ end) with (default ∅ blob)
    by (by destruct blob).
  set (m := default ∅ blob).
  apply map_eq. intros k.
  destruct (m !! device_id) as [dates|] eqn:Hd; simpl.
  - rewrite lookup_alter, lookup_insert. case_decide; [subst k; by rewrite Hd | done].
  - rewrite lookup_alter, !lookup_insert.
    rewrite (decide_True (P := device_id = device_id)) by done.
    by destruct (decide (device_id = k)).
Qed.

End manifest_facts.

(** C7. Writing ["completed"] twice for one [(device_id, date)] leaves the
    manifest a single write of the later timestamp would leave: one record
    for that pair, with status ["completed"] and the later [processed_at],
    and every record of another device or date as it was. *)
Theorem update_processed_manifest_twice (blob : option Download.manifest)
    (device_id date t1 t2 : string) :
  let m1 := Download.update_processed_manifest t1 blob device_id date "completed" in
  let m2 := Download.update_processed_manifest t2 (Some m1) device_id date "completed" in
  m2 = Download.update_processed_manifest t2 blob device_id date "completed"
  ∧ record_of m2 device_id date
    = Some {| Download.status := "completed"; Download.processed_at := t2 |}
  ∧ (∃ dates, m2 !! device_id = Some dates
              ∧ length (filter (λ kv : string * Download.entry, kv.1 = date)
                          (map_to_list dates)) = 1%nat)
  ∧ (∀ device_id' date', (device_id', date') ≠ (device_id, date) →
       record_of m2 device_id' date' = record_of (default ∅ blob) device_id' date').
Proof.
  intros m1 m2. unfold m2, m1.
  rewrite !update_processed_manifest_insert. simpl.
  rewrite lookup_insert_eq. simpl. rewrite !insert_insert_eq.
  split; [done|]. unfold record_of.
  split; [|split].
  - rewrite lookup_insert_eq. simpl. by rewrite lookup_insert_eq.
  - eexists. rewrite lookup_insert_eq. split; [done|].
    eapply dir_lists_once. by rewrite lookup_insert_eq.
  - intros d' dt' Hne. destruct (decide (d' = device_id)) as [->|Hd].
    + rewrite lookup_insert_eq. simpl.
      rewrite lookup_insert_ne by congruence.
      by destruct (default ∅ blob !! device_id).
    + by rewrite lookup_insert_ne.
Qed.

(** Two writes for [("3", "2025-1-4")] on a manifest that already has a
    failed record for it and a record of device 1. *)
Lemma update_processed_manifest_twice_witness :
  let old : Download.manifest :=
    {[ "1" := {[ "2025-1-3" := {| Download.status := "completed";
                                  Download.processed_at := "2025-01-04 08:00:00" |} ]};
       "3" := {[ "2025-1-4" := {| Download.status := "error";
                                  Download.processed_at := "2025-01-05 08:00:00" |} ]} ]} in
  let m2 :=
    Download.update_processed_manifest "2025-01-06 08:00:09"
      (Some (Download.update_processed_manifest "2025-01-06 08:00:00" (Some old)
               "3" "2025-1-4" "completed"))
      "3" "2025-1-4" "completed" in
  record_of m2 "3" "2025-1-4"
  = Some {| Download.status := "completed";
            Download.processed_at := "2025-01-06 08:00:09" |}
  ∧ record_of m2 "1" "2025-1-3"
    = Some {| Download.status := "completed";
              Download.processed_at := "2025-01-04 08:00:00" |}.
Proof.
  intros old m2.
  destruct (update_processed_manifest_twice (Some old) "3" "2025-1-4"
              "2025-01-06 08:00:00" "2025-01-06 08:00:09") as (_ & Hrec & _ & Hother).
  split; [exact Hrec|].
  unfold m2. rewrite (Hother "1" "2025-1-3"); [by vm_compute | discriminate].
Defined.

(** ** Export-and-download: one folder *)
Section download_facts.
Import Py Download.

Variable e : env.
Variable device_id date : string.



(** A manifest write that is let through. *)
Lemma write_status_ok st w :
  manifest_io e device_id date st (now w) = Ok tt →
  write_status e device_id date st w
  = (Ok tt,
     set_manifest
       (update_processed_manifest (strftime e (now w)) (manifest_blob w)
          device_id date st) w).
Proof. intros H. unfold write_status. by rewrite H. Qed.

(** A manifest write that raises leaves the world as it was. *)
Lemma write_status_raise st w ex :
  manifest_io e device_id date st (now w) = Raise ex →
  write_status e device_id date st w = (Raise ex, w).
Proof. intros H. unfold write_status. by rewrite H. Qed.

Lemma write_status_cases st w :
  (∃ ex, manifest_io e device_id date st (now w) = Raise ex
         ∧ write_status e device_id date st w = (Raise ex, w))
  ∨ (manifest_io e device_id date st (now w) = Ok tt
     ∧ write_status e device_id date st w
       = (Ok tt,
          set_manifest
            (update_processed_manifest (strftime e (now w)) (manifest_blob w)
               device_id date st) w)).
Proof.
  unfold write_status.
  destruct (manifest_io e device_id date st (now w)) as [[]|ex]; [by right|].
  left. by exists ex.
Qed.


(** Writing a status and reporting it: the shape of every branch. *)
Lemma report_cases (st : string) (i : item) (w : world) :
  (∃ ex, manifest_io e device_id date st (now w) = Raise ex
         ∧ (write_status e device_id date st ;;; act (append_result i)) w
           = (Raise ex, w))
  ∨ (manifest_io e device_id date st (now w) = Ok tt
     ∧ (write_status e device_id date st ;;; act (append_result i)) w
       = (Ok tt,
          append_result i
            (set_manifest
               (update_processed_manifest (strftime e (now w)) (manifest_blob w)
                  device_id date st) w))).
Proof.
  unfold bind, act.
  destruct (write_status_cases st w) as [(ex & Hio & ->)|[Hio ->]].
  - left. by exists ex.
  - by right.
Qed.


(** With a second of [max_wait] per unit of fuel the loop ends. *)
Lemma wait_for_zip_returns (fuel : nat) (start_time : Z) (w : world) :
  (max_wait - (now w - start_time) ≤ Z.of_nat fuel)%Z →
  ∃ r, wait_for_zip fuel e device_id date start_time w = Some r.
Proof.
  revert w. induction fuel as [|fuel IH]; intros w Hfuel; simpl.
  - rewrite decide_False by lia. by eexists.
  - destruct (decide (now w - start_time < max_wait)%Z); [|by eexists].
    destruct (zip_exists e _ (now w)) as [[|]|ex]; [by eexists| |by eexists].
    apply IH. simpl. lia.
Qed.



Lemma process_zip_file_keeps (zp : string) (w : world) :
  let r := process_zip_file e zp w in
  manifest_blob r.2 = manifest_blob w ∧ now r.2 = now w
  ∧ results r.2 = results w ∧ exports r.2 = exports w.
Proof.
  unfold process_zip_file. by destruct (archive e zp).
Qed.

Lemma report_same_log (st : string) (i : item) (w : world) :
  same_log w ((write_status e device_id date st ;;; act (append_result i)) w).2.
Proof.
  by destruct (report_cases st i w) as [(ex & _ & ->)|[_ ->]].
Qed.

Lemma unpack_same_log (w : world) : same_log w (unpack e device_id date w).2.
Proof.
  unfold unpack, try_except. unfold bind at 1.
  destruct (process_zip_file_keeps (device_id +:+ "/" +:+ date +:+ "/annotations.zip") w)
    as (_ & Hn & _ & He).
  destruct (process_zip_file e _ w) as [[[]|zip_error] w1]; simpl in Hn, He.
  - destruct (report_cases "completed"
                {| item_device_id := device_id; item_date := date;
                   item_status := "success"; item_error := None |} w1)
      as [(ex & _ & ->)|[_ ->]].
    + destruct (report_same_log "failed_zip_processing"
                  {| item_device_id := device_id; item_date := date;
                     item_status := "zip_processing_error";
                     item_error := Some (str_exn ex) |} w1) as [H1 H2].
      split; congruence.
    + split; simpl; congruence.
  - destruct (report_same_log "failed_zip_processing"
                {| item_device_id := device_id; item_date := date;
                   item_status := "zip_processing_error";
                   item_error := Some (str_exn zip_error) |} w1) as [H1 H2].
    split; congruence.
Qed.

Lemma wait_for_zip_exports (fuel : nat) (start_time : Z) (w w' : world)
    (r : result unit) :
  wait_for_zip fuel e device_id date start_time w = Some (r, w') →
  exports w' = exports w.
Proof.
  revert w. induction fuel as [|fuel IH]; intros w; simpl.
  - destruct (decide _); [done|]. intros [= Heq].
    pose proof (report_same_log "timeout_waiting_for_zip"
                  {| item_device_id := device_id; item_date := date;
                     item_status := "timeout_waiting_for_zip";
                     item_error := None |} w) as [_ He].
    unfold timed_out in Heq. by rewrite Heq in He.
  - destruct (decide _).
    2:{ intros [= Heq].
        pose proof (report_same_log "timeout_waiting_for_zip"
                      {| item_device_id := device_id; item_date := date;
                         item_status := "timeout_waiting_for_zip";
                         item_error := None |} w) as [_ He].
        unfold timed_out in Heq. by rewrite Heq in He. }
    destruct (zip_exists e _ (now w)) as [[|]|ex]; [| |by intros [= <- <-]].
    + intros [= Heq]. pose proof (unpack_same_log w) as [_ He].
      by rewrite Heq in He.
    + intros H. by rewrite (IH _ H).
Qed.

(** A processed candidate is one more export call, and nothing else is. *)
Lemma process_candidate_exports (w w' : world) (r : result unit) :
  process_candidate e device_id date w = Some (r, w') →
  exports w' = exports w ++ [(device_id, date)].
Proof.
  unfold process_candidate.
  destruct (export_and_wait e device_id date w) as [[r1 w1]|] eqn:Hrun; [|done].
  assert (He1 : exports w1 = exports w ++ [(device_id, date)]).
  { unfold export_and_wait in Hrun.
    destruct (export_annotations e device_id date) as [[|]|ex].
    - by rewrite (wait_for_zip_exports _ _ _ _ _ Hrun).
    - injection Hrun as Heq.
      pose proof (report_same_log "export_failed"
                    {| item_device_id := device_id; item_date := date;
                       item_status := "export_failed"; item_error := None |}
                    (log_export device_id date w)) as [_ He].
      unfold export_rejected in Heq. by rewrite Heq in He.
    - by injection Hrun as <- <-. }
  destruct r1 as [[]|ex].
  - by intros [= <- <-].
  - intros [= Heq].
    pose proof (report_same_log "error"
                  {| item_device_id := device_id; item_date := date;
                     item_status := "error"; item_error := Some (str_exn ex) |} w1)
      as [_ He].
    unfold folder_error in Heq. unfold bind at 1 in Heq.
    destruct ((write_status e device_id date "error" ;;; act (append_result _)) w1)
      as [[[]|ex1] w2]; simpl in He; unfold act in Heq; simplify_eq; simpl; congruence.
Qed.

(** Whatever happens to a candidate folder, its processing ends. *)
Lemma process_candidate_returns (w : world) :
  ∃ r, process_candidate e device_id date w = Some r.
Proof.
  unfold process_candidate, export_and_wait.
  destruct (export_annotations e device_id date) as [[|]|ex].
  - destruct (wait_for_zip_returns (Z.to_nat max_wait)
                (now (log_export device_id date w)) (log_export device_id date w))
      as [[[?|?] ?] ->]; [unfold max_wait; lia | by eexists | by eexists].
  - destruct (export_rejected e device_id date _) as [[?|?] ?]; by eexists.
  - by eexists.
Qed.




(** What a report returns tells whether its write went through. *)
Lemma report_inv (st : string) (i : item) (w w' : world) (r : result unit) :
  (write_status e device_id date st ;;; act (append_result i)) w = (r, w') →
  match r with
  | Ok _ =>
      manifest_io e device_id date st (now w) = Ok tt
      ∧ w' = append_result i
               (set_manifest
                  (update_processed_manifest (strftime e (now w)) (manifest_blob w)
                     device_id date st) w)
  | Raise ex => manifest_io e device_id date st (now w) = Raise ex ∧ w' = w
  end.
Proof.
  destruct (report_cases st i w) as [(ex & Hio & ->)|[Hio ->]];
    by intros [= <- <-].
Qed.







Lemma scan_date_returns (processed_folders : manifest) (w : world) :
  ∃ r, scan_date e processed_folders device_id date w = Some r.
Proof.
  unfold scan_date. destruct (already_completed _ _ _); [by eexists|].
  destruct (_ && _); [apply process_candidate_returns | by eexists].
Qed.

End download_facts.

(** The whole invocation returns a response. *)
Section download_returns.
Import Py Download.

Variable e : env.

Lemma scan_dates_returns (processed_folders : manifest) (device_id : string)
    (dates : list string) (w : world) :
  ∃ r, scan_dates e processed_folders device_id dates w = Some r.
Proof.
  revert w. induction dates as [|date rest IH]; intros w; simpl; [by eexists|].
  destruct (scan_date_returns e device_id date processed_folders w)
    as [[[[]|ex] w1] ->]; [apply IH | by eexists].
Qed.

Lemma scan_devices_returns (processed_folders : manifest)
    (devices : list string) (w : world) :
  ∃ r, scan_devices e processed_folders devices w = Some r.
Proof.
  revert w. induction devices as [|device_id rest IH]; intros w; simpl; [by eexists|].
  destruct (date_folders e w device_id) as [dates|ex]; [|by eexists].
  destruct (scan_dates_returns processed_folders device_id dates w)
    as [[[[]|ex] w1] ->]; [apply IH | by eexists].
Qed.

Lemma cvat_download_returns (w : world) :
  ∃ r, cvat_download e w = Some r.
Proof.
  unfold cvat_download. destruct (new_client e); [|by eexists].
  destruct (load_processed_manifest e w) as [[processed_folders|ex] w1];
    [|by eexists].
  destruct (scan_devices_returns processed_folders ["1"; "2"; "3"] w1)
    as [[[?|?] ?] ->]; by eexists.
Qed.

End download_returns.




(** The test that selects a folder, over any storage client: a folder is
    handed to the export exactly when the manifest does not have it as
    completed, [folder_exists] holds of its [auto-annotations/] and fails
    of its [annotations/]. *)
Lemma scan_date_candidate (e : Download.env)
    (processed_folders : Download.manifest) (device_id date : string)
    (w : Download.world) :
  let auto_annotations_exists :=
    Download.folder_exists e w (device_id +:+ "/" +:+ date +:+ "/auto-annotations/") in
  let annotations_exists :=
    Download.folder_exists e w (device_id +:+ "/" +:+ date +:+ "/annotations/") in
  (∀ r w', Download.scan_date e processed_folders device_id date w = Some (r, w') →
           Download.exports w' ≠ Download.exports w →
           auto_annotations_exists = true ∧ annotations_exists = false)
  ∧ (annotations_exists = true →
     Download.scan_date e processed_folders device_id date w = Some (Py.Ok tt, w))
  ∧ (Download.already_completed processed_folders device_id date = false →
     auto_annotations_exists = true → annotations_exists = false →
     ∃ r w', Download.scan_date e processed_folders device_id date w = Some (r, w')
             ∧ Download.exports w' = Download.exports w ++ [(device_id, date)]).
Proof.
  intros auto_annotations_exists annotations_exists.
  split; [|split].
  - intros r w' Hscan Hne. unfold Download.scan_date in Hscan.
    destruct (Download.already_completed _ _ _); [by injection Hscan as <- <-|].
    fold auto_annotations_exists annotations_exists in Hscan.
    destruct auto_annotations_exists, annotations_exists; simpl in Hscan;
      try (by injection Hscan as <- <-). done.
  - intros Hann. unfold Download.scan_date.
    destruct (Download.already_completed _ _ _); [done|].
    fold auto_annotations_exists annotations_exists. rewrite Hann.
    by rewrite andb_false_r.
  - intros Hnew Hauto Hann. unfold Download.scan_date. rewrite Hnew.
    fold auto_annotations_exists annotations_exists. rewrite Hauto, Hann. simpl.
    destruct (process_candidate_returns e device_id date w) as [[r w'] Hw'].
    exists r, w'. split; [done|]. by apply process_candidate_exports in Hw'.
Qed.

(** C4. The code departs from the claim. [folder_exists] reads the
    prefixes of a listing that was not iterated, which the storage client
    leaves empty, and it lists with a delimiter: it holds of a prefix
    exactly when an object lies directly under it. Folder [3/2025-1-4] has
    [auto-annotations/] and keeps its exported annotations one level down,
    in [annotations/coco/]: [annotations/] is judged absent and the folder
    is handed to the export. Over a client that reports the prefixes the
    same folder is left alone. *)
Theorem nested_annotations_are_exported :
  let e := Scenario.download_env (Py.Ok false) 0 (Py.Ok []) in
  let w := Scenario.nested_world in
  (∀ w prefix,
     Download.folder_exists e w prefix = true
     ↔ Download.direct_blobs (Download.objects w) prefix ≠ [])
  ∧ "3/2025-1-4/annotations/coco/instances_default.json" ∈ Download.objects w
  ∧ Download.after_prefix "3/2025-1-4/annotations/"
      "3/2025-1-4/annotations/coco/instances_default.json"
    = Some "coco/instances_default.json"
  ∧ Download.folder_exists e w "3/2025-1-4/auto-annotations/" = true
  ∧ Download.folder_exists e w "3/2025-1-4/annotations/" = false
  ∧ (∃ w', Download.scan_date e ∅ "3" "2025-1-4" w = Some (Py.Ok tt, w')
           ∧ Download.exports w' = [("3", "2025-1-4")]
           ∧ recorded_status w' "3" "2025-1-4" = Some "export_failed")
  ∧ Download.folder_exists (Scenario.eager e) w "3/2025-1-4/annotations/" = true
  ∧ Download.scan_date (Scenario.eager e) ∅ "3" "2025-1-4" w = Some (Py.Ok tt, w).
Proof.
  intros e w. split.
  - intros w1 prefix. unfold Download.folder_exists. simpl.
    destruct (Download.direct_blobs (Download.objects w1) prefix) as [|n l];
      simpl; done.
  - split; [compute_done|]. split; [by vm_compute|]. split; [by vm_compute|].
    split; [by vm_compute|]. split; [|split; by vm_compute].
    eexists. split; [by vm_compute|]. split; by vm_compute.
Qed.

(** ** More on strings *)
Section text_facts.
Import PyStr PyText.

Lemma endswith_spec (s suffix : string) :
  endswith s suffix = true ↔ ∃ pre, s = pre +:+ suffix.
Proof.
  split.
  - induction s as [|a r IH]; simpl.
    + destruct (decide ("" = suffix)) as [<-|]; [by exists "" | done].
    + destruct (decide (String a r = suffix)) as [<-|]; [by exists ""|].
      intros H. destruct (IH H) as [pre ->]. by exists (String a pre).
  - intros [pre ->]. induction pre as [|a pre IH]; simpl.
    + change ("" +:+ suffix) with suffix.
      destruct suffix; simpl; (done || by rewrite decide_True).
    + by destruct (decide _).
Qed.

Lemma lower_app (a b : string) : lower (a +:+ b) = lower a +:+ lower b.
Proof. induction a as [|c a IH]; simpl; [done | by rewrite IH]. Qed.

Lemma lower_ascii_sep (c sep : ascii) :
  sep = "."%char ∨ sep = "/"%char → lower_ascii c = sep ↔ c = sep.
Proof.
  intros [-> | ->];
    destruct c as [[] [] [] [] [] [] [] []]; vm_compute; split; congruence.
Qed.

Lemma contains_lower (sep : ascii) (s : string) :
  sep = "."%char ∨ sep = "/"%char → contains sep (lower s) = contains sep s.
Proof.
  intros Hsep. induction s as [|c s IH]; simpl; [done|].
  destruct (decide (lower_ascii c = sep)) as [H|H];
    destruct (decide (c = sep)) as [H'|H']; try done.
  - by apply (proj1 (lower_ascii_sep _ _ Hsep)) in H.
  - by apply (proj2 (lower_ascii_sep _ _ Hsep)) in H'.
Qed.

Lemma contains_app (c : ascii) (a b : string) :
  contains c (a +:+ b) = contains c a || contains c b.
Proof.
  induction a as [|x a IH]; simpl; [done|]. by destruct (decide (x = c)).
Qed.

Lemma split_nonempty (c : ascii) (s : string) : split c s ≠ [].
Proof.
  destruct s as [|a r]; simpl; [done|].
  destruct (decide (a = c)); [done|]. by destruct (split c r).
Qed.

(** Without the separator there is one piece. *)
Lemma split_without (c : ascii) (s : string) :
  contains c s = false → split c s = [s].
Proof.
  induction s as [|a r IH]; simpl; [done|].
  destruct (decide (a = c)); [done|]. intros H. by rewrite (IH H).
Qed.

(** The first separator ends the first piece. *)
Lemma split_first (c : ascii) (pre r : string) :
  contains c pre = false → split c (pre +:+ String c r) = pre :: split c r.
Proof.
  induction pre as [|a pre IH]; simpl.
  - intros _. by rewrite decide_True.
  - destruct (decide (a = c)); [done|]. intros H. by rewrite (IH H).
Qed.

Lemma last_item_cons (x : string) (l : list string) :
  l ≠ [] → last_item (x :: l) = last_item l.
Proof. by destruct l. Qed.

Lemma split_two (c : ascii) (pre t : string) :
  ∃ h l, split c (pre +:+ String c t) = h :: l ∧ l ≠ [].
Proof.
  induction pre as [|a pre (h & l & IH & Hl)]; simpl.
  - rewrite decide_True by done. eexists _, _. split; [done|]. apply split_nonempty.
  - destruct (decide (a = c)).
    + eexists _, _. split; [done|]. rewrite IH. done.
    + rewrite IH. by eexists _, _.
Qed.

(** What follows the last separator is the last piece. *)
Lemma last_item_split_app (c : ascii) (pre t : string) :
  last_item (split c (pre +:+ String c t)) = last_item (split c t).
Proof.
  induction pre as [|a pre IH]; simpl.
  - rewrite decide_True by done. apply last_item_cons, split_nonempty.
  - destruct (split_two c pre t) as (h & l & Heq & Hl).
    destruct (decide (a = c)).
    + rewrite last_item_cons by apply split_nonempty. exact IH.
    + rewrite Heq in IH |- *. rewrite last_item_cons by done.
      by rewrite last_item_cons in IH.
Qed.

(** A string with a separator ends with the separator and the last piece,
    which has none. *)
Lemma last_item_split_decompose (c : ascii) (s : string) :
  contains c s = true →
  ∃ pre, s = pre +:+ String c (last_item (split c s))
         ∧ contains c (last_item (split c s)) = false.
Proof.
  induction s as [|a r IH]; simpl; [done|].
  destruct (contains c r) eqn:Hr.
  - intros _. destruct (IH eq_refl) as (pre & Heq & Hlast).
    assert (H2 : ∃ h l, split c r = h :: l ∧ l ≠ []).
    { rewrite Heq. apply split_two. }
    destruct H2 as (h & l & Hs & Hl).
    destruct (decide (a = c)).
    + rewrite last_item_cons by apply split_nonempty.
      exists (String a pre). split; [|done]. exact (f_equal (String a) Heq).
    + rewrite Hs in Heq, Hlast |- *. rewrite last_item_cons in Heq, Hlast by done.
      rewrite last_item_cons by done.
      exists (String a pre). split; [|done]. exact (f_equal (String a) Heq).
  - destruct (decide (a = c)) as [->|]; [|done]. intros _.
    rewrite (split_without _ _ Hr). exists "". by split.
Qed.

Lemma prefix_app (p x : string) : startswith (p +:+ x) p = true.
Proof.
  unfold startswith. induction p as [|a p IH]; simpl; [by destruct x|].
  destruct (Ascii.ascii_dec a a); [exact IH | done].
Qed.

Lemma append_assoc (a b c : string) : (a +:+ b) +:+ c = a +:+ (b +:+ c).
Proof. induction a as [|x a IH]; [done | exact (f_equal (String x) IH)]. Qed.

(** Joining onto a folder path that ends with a slash is concatenation. *)
Lemma path_join_folder (folder name : string) :
  startswith name "/" = false →
  path_join (folder +:+ "/") name = (folder +:+ "/") +:+ name.
Proof.
  intros Hrel. unfold path_join. rewrite Hrel.
  destruct (decide (folder +:+ "/" = "")) as [H|_]; [by destruct folder|].
  replace (endswith (folder +:+ "/") "/") with true; [done|].
  symmetry. apply endswith_spec. by exists folder.
Qed.

End text_facts.

(** ** Image names: what dispatch accepts and what inference lists *)
Section image_name_facts.
Import PyStr PyText.

(** The eleven formats, without the dot. *)
Let formats : list string :=
  ["bmp"; "dng"; "jpeg"; "jpg"; "mpo"; "png"; "tif"; "tiff"; "webp"; "pfm"; "heic"].

Lemma dispatch_formats (ext : string) : ext ∈ Dispatch.IMG_FORMATS ↔ ext ∈ formats.
Proof. unfold Dispatch.IMG_FORMATS. apply elem_of_list_to_set. Qed.

Lemma inference_formats (fmt : string) :
  fmt ∈ Inference.IMG_FORMATS ↔ ∃ ext, fmt = String "." ext ∧ ext ∈ formats.
Proof.
  change Inference.IMG_FORMATS with (String "."%char <$> formats).
  apply list_elem_of_fmap.
Qed.

Lemma formats_dotless (ext : string) : ext ∈ formats → contains "." ext = false.
Proof.
  assert (H : Forall (λ e, contains "." e = false) formats)
    by (repeat constructor).
  rewrite Forall_forall in H. apply H.
Qed.

Lemma listed_spec (name : string) :
  InferenceRun.listed name = true
  ↔ ∃ pre ext, ext ∈ formats ∧ lower name = pre +:+ String "." ext.
Proof.
  unfold InferenceRun.listed. rewrite existsb_exists. split.
  - intros (fmt & Hin & Hend). apply list_elem_of_In, inference_formats in Hin.
    destruct Hin as (ext & -> & Hext). apply endswith_spec in Hend as [pre Hpre].
    by exists pre, ext.
  - intros (pre & ext & Hext & Hpre). exists (String "." ext). split.
    + apply list_elem_of_In, inference_formats. by exists ext.
    + apply endswith_spec. by exists pre.
Qed.

End image_name_facts.

(** X1. The inference runner lists a name as an image exactly when the
    dispatch function accepts its extension and the name has a dot: a name
    that is a bare format word, such as [jpg], passes the dispatch check
    and is not listed for inference. *)
Theorem listed_iff_supported_with_dot (name : string) :
  InferenceRun.listed name = true
  ↔ Dispatch.supported name = true ∧ PyText.contains "." name = true.
Proof.
  rewrite listed_spec. unfold Dispatch.supported, Dispatch.extension. split.
  - intros (pre & ext & Hext & Hpre). rewrite Hpre. split.
    + apply bool_decide_eq_true_2, dispatch_formats.
      rewrite last_item_split_app, (split_without _ _ (formats_dotless _ Hext)).
      exact Hext.
    + rewrite <- (contains_lower "." name) by (by left).
      rewrite Hpre, contains_app. simpl. by rewrite orb_true_r.
  - intros [Hsup Hdot]. apply bool_decide_eq_true_1, dispatch_formats in Hsup.
    rewrite <- (contains_lower "." name) in Hdot by (by left).
    destruct (last_item_split_decompose _ _ Hdot) as (pre & Heq & _).
    eexists pre, _. split; [exact Hsup | exact Heq].
Qed.

(** ** Folder paths between the scripts *)

(** X2. A folder path built by the dispatch function from a device id and a
    date without slashes splits on ["/"] into the device id, the date and an
    empty rest: the uploader script unpacks it into exactly these, and the
    export function reads the date back from it. Without the final slash
    the uploader's unpacking raises ValueError. *)
Theorem folder_path_round_trip (wheel yesterday : string) :
  PyText.contains "/" wheel = false →
  PyText.contains "/" yesterday = false →
  PyStr.split "/" (Dispatch.date_wheel_path wheel yesterday) = [wheel; yesterday; ""]
  ∧ UploadScript.unpack_folder_path (Dispatch.date_wheel_path wheel yesterday)
    = Py.Ok (wheel, yesterday, "")
  ∧ Download.date_folders_of [Dispatch.date_wheel_path wheel yesterday]
    = Py.Ok [yesterday]
  ∧ ∃ msg, UploadScript.unpack_folder_path (wheel +:+ "/" +:+ yesterday)
           = Py.Raise (Py.ValueError msg).
Proof.
  intros Hw Hy.
  assert (Hsplit : PyStr.split "/" (Dispatch.date_wheel_path wheel yesterday)
                   = [wheel; yesterday; ""]).
  { unfold Dispatch.date_wheel_path.
    change (wheel +:+ "/" +:+ yesterday +:+ "/")
      with (wheel +:+ String "/" (yesterday +:+ String "/" "")).
    by rewrite (split_first _ _ _ Hw), (split_first _ _ _ Hy). }
  split; [exact Hsplit|]. split; [|split].
  - unfold UploadScript.unpack_folder_path. by rewrite Hsplit.
  - simpl. unfold PyStr.item1. by rewrite Hsplit.
  - unfold UploadScript.unpack_folder_path.
    change (wheel +:+ "/" +:+ yesterday) with (wheel +:+ String "/" yesterday).
    rewrite (split_first _ _ _ Hw), (split_without _ _ Hy). by eexists.
Qed.

Lemma folder_path_round_trip_witness :
  UploadScript.unpack_folder_path "3/2025-1-4/" = Py.Ok ("3", "2025-1-4", "")
  ∧ Download.date_folders_of ["3/2025-1-4/"] = Py.Ok ["2025-1-4"].
Proof.
  destruct (folder_path_round_trip "3" "2025-1-4" eq_refl eq_refl)
    as (_ & Hunpack & Hdate & _).
  split; [exact Hunpack | exact Hdate].
Defined.

(** ** Inference runner: batches *)
Section batch_facts.
Import InferenceRun.

Variable image_paths : list string.

(** The slices taken from [start] on make up the rest of the list, and
    there are as many of them as sixteens needed to cover it. *)
Lemma range_from_slices (fuel start : nat) :
  length image_paths ≤ fuel + start →
  let idx := range_from fuel start (length image_paths) BATCH_SIZE in
  concat ((λ i, take BATCH_SIZE (drop i image_paths)) <$> idx) = drop start image_paths
  ∧ Forall (λ i, i < length image_paths) idx
  ∧ length image_paths ≤ start + BATCH_SIZE * length idx
  ∧ (start < length image_paths →
     start + BATCH_SIZE * length idx < length image_paths + BATCH_SIZE)
  ∧ (length image_paths ≤ start → idx = []).
Proof.
  revert start. induction fuel as [|fuel IH]; intros start Hfuel;
    cbn [range_from]; cbv zeta.
  - rewrite drop_ge by lia. cbn [length]. unfold BATCH_SIZE.
    split; [done|]. split; [done|]. split; [lia|]. split; [lia | done].
  - destruct (Nat.ltb_spec start (length image_paths)) as [Hlt|Hge].
    + destruct (IH (start + BATCH_SIZE)) as (Hcat & Hall & Hlow & Hup & Hnil);
        [unfold BATCH_SIZE; lia|].
      rewrite fmap_cons. cbn [concat length]. rewrite Hcat.
      split; [|split; [|split; [|split]]].
      * rewrite <- (take_drop BATCH_SIZE (drop start image_paths)) at 2.
        by rewrite drop_drop.
      * by constructor.
      * unfold BATCH_SIZE in *. lia.
      * intros _. unfold BATCH_SIZE in *.
        destruct (Nat.lt_ge_cases (start + 16) (length image_paths)) as [H|H].
        -- specialize (Hup H). lia.
        -- rewrite (Hnil H). cbn [length]. lia.
      * lia.
    + rewrite drop_ge by lia. cbn [length]. unfold BATCH_SIZE.
      split; [done|]. split; [done|]. split; [lia|]. split; [lia | done].
Qed.

End batch_facts.

(** X3. The batches of a run partition the image list: in order they make
    up the whole list, none is empty, none has more than 16 images, and
    their number is the least one with 16 images each that covers the list
    (so an empty list gives no batch). *)
Theorem batches_partition (image_paths : list string) :
  concat (InferenceRun.batches image_paths) = image_paths
  ∧ Forall (λ batch, 1 ≤ length batch ≤ 16) (InferenceRun.batches image_paths)
  ∧ length image_paths ≤ 16 * length (InferenceRun.batches image_paths)
  ∧ 16 * length (InferenceRun.batches image_paths) < length image_paths + 16.
Proof.
  destruct (range_from_slices image_paths (length image_paths) 0 ltac:(lia))
    as (Hcat & Hall & Hlow & Hup & _).
  unfold InferenceRun.batches, InferenceRun.range_step.
  rewrite length_fmap. split; [by rewrite Hcat|]. split; [|split].
  - apply Forall_fmap. eapply Forall_impl; [exact Hall|]. intros i Hi.
    simpl in Hi. unfold compose.
    rewrite length_take, length_drop. unfold InferenceRun.BATCH_SIZE. lia.
  - unfold InferenceRun.BATCH_SIZE in *. lia.
  - unfold InferenceRun.BATCH_SIZE in *.
    destruct image_paths as [|x l]; [simpl; lia|].
    specialize (Hup ltac:(simpl; lia)). lia.
Qed.

(** ** Inference runner: a whole run *)
Section inference_run_facts.
Import PyStr PyText Inference InferenceRun.

Variable content : string → string.
Variable predict : nat → gmap string string → option (gmap string entry).
Variable annotated_gcs_path : string.

Lemma download_batch_keeps (batch : list string) (d : gmap string string) (k : string) :
  is_Some (d !! k) → is_Some (download_batch content batch d !! k).
Proof.
  revert d. induction batch as [|p batch IH]; intros d Hk; [done|].
  apply IH. cbn beta. destruct (decide (basename p = k)) as [->|Hne].
  - rewrite lookup_insert_eq. by eexists.
  - by rewrite lookup_insert_ne.
Qed.

(** Every image of the batch is in the input directory under its base name. *)
Lemma download_batch_has (batch : list string) (d : gmap string string) (p : string) :
  p ∈ batch → is_Some (download_batch content batch d !! basename p).
Proof.
  revert d. induction batch as [|q batch IH]; intros d Hp; [by inversion Hp|].
  apply elem_of_cons in Hp as [->|Hp].
  - apply (download_batch_keeps batch (<[basename q := content q]> d)).
    rewrite lookup_insert_eq. by eexists.
  - by apply IH.
Qed.

(** Uploading keeps what was uploaded and adds every file of the directory. *)
Lemma upload_batch_spec (out up : gmap string string) :
  (∀ n, is_Some (up !! n) → is_Some (upload_batch annotated_gcs_path out up !! n))
  ∧ (∀ f, is_Some (out !! f) →
          is_Some (upload_batch annotated_gcs_path out up
                   !! path_join annotated_gcs_path f)).
Proof.
  unfold upload_batch.
  apply (map_fold_weak_ind (λ (r m : gmap string string),
    (∀ n, is_Some (up !! n) → is_Some (r !! n))
    ∧ (∀ f, is_Some (m !! f) → is_Some (r !! path_join annotated_gcs_path f)))).
  - split; [done|]. intros f [? H]. by rewrite lookup_empty in H.
  - intros f body m r Hf [Hold Hnew]. split.
    + intros n Hn.
      destruct (decide (path_join annotated_gcs_path f = n)) as [->|Hne].
      * rewrite lookup_insert_eq. by eexists.
      * rewrite lookup_insert_ne by done. by apply Hold.
    + intros g Hg.
      destruct (decide (path_join annotated_gcs_path f
                        = path_join annotated_gcs_path g)) as [->|Hne].
      * rewrite lookup_insert_eq. by eexists.
      * rewrite lookup_insert_ne by done. apply Hnew.
        destruct (decide (f = g)) as [->|Hfg]; [done|].
        by rewrite lookup_insert_ne in Hg.
Qed.

(** One batch keeps the uploads so far and uploads a label for each of its
    images. *)
Lemma run_batch_spec (number : nat) (batch : list string) (st : state) :
  let st' := run_batch content predict annotated_gcs_path number batch st in
  (∀ n, is_Some (uploaded st !! n) → is_Some (uploaded st' !! n))
  ∧ (∀ p, p ∈ batch → is_image (basename p) = true →
          is_Some (uploaded st'
                   !! path_join annotated_gcs_path (label_file_name (basename p)))).
Proof.
  unfold run_batch.
  set (inp := download_batch content batch (input_dir st)).
  set (out := process_batch (predict number inp) inp (output_dir st)).
  assert (Hlabel : ∀ p, p ∈ batch → is_image (basename p) = true →
                        is_Some (out !! label_file_name (basename p))).
  { intros p Hp Himg. unfold out, process_batch.
    by apply touch_labels_spec; [apply download_batch_has|]. }
  destruct (upload_batch_spec out (uploaded st)) as [Hold Hnew].
  destruct (map_to_list out) as [|kv l] eqn:Hl; simpl.
  - split; [done|]. intros p Hp Himg.
    apply map_to_list_empty_iff in Hl. destruct (Hlabel p Hp Himg) as [? H].
    by rewrite Hl, lookup_empty in H.
  - split; [exact Hold|]. intros p Hp Himg. by apply Hnew, Hlabel.
Qed.

Lemma run_batches_spec (bs : list (list string)) (number : nat) (st : state) :
  let st' := run_batches content predict annotated_gcs_path number bs st in
  (∀ n, is_Some (uploaded st !! n) → is_Some (uploaded st' !! n))
  ∧ (∀ batch p, batch ∈ bs → p ∈ batch → is_image (basename p) = true →
                is_Some (uploaded st'
                         !! path_join annotated_gcs_path
                              (label_file_name (basename p)))).
Proof.
  revert number st. induction bs as [|b0 bs IH]; intros number st; simpl.
  - split; [done|]. intros batch p Hb. by inversion Hb.
  - destruct (run_batch_spec number b0 st) as [Hold0 Hnew0].
    destruct (IH (S number) (run_batch content predict annotated_gcs_path number b0 st))
      as [Hold Hnew].
    split; [by intros n Hn; apply Hold, Hold0|].
    intros batch p Hb Hp Himg. apply elem_of_cons in Hb as [->|Hb].
    + by apply Hold, Hnew0.
    + by eapply Hnew.
Qed.

End inference_run_facts.



(** With nothing at [weights/best.pt] in what was fetched, the run ends
    with the error of the load, whatever the folder holds. *)
Lemma main_without_weights (m : InferenceRun.machine) (b : Gcs.bucket)
    (content : string → string)
    (predict : nat → gmap string string → option (gmap string Inference.entry))
    (folder_path : string) (uploaded : gmap string string) (model : string)
    (fs : InferenceRun.files) :
  let model_path :=
    PyText.path_join (PyText.path_join (InferenceRun.tmp_dir m) "weights") "best.pt" in
  Inference.get_latest_model_version b "models/production/" = Py.Ok model →
  InferenceRun.download_gcs_folder m b content model (InferenceRun.tmp_dir m) ∅
  = Py.Ok fs →
  nothing_at fs model_path = true →
  InferenceRun.main m b content predict folder_path uploaded
  = Py.Raise (Py.OSError 2 "No such file or directory" model_path).
Proof.
  intros model_path Hmodel Hfetch Hnone. unfold InferenceRun.main.
  rewrite Hmodel, Hfetch. unfold InferenceRun.YOLO. fold model_path.
  apply andb_true_iff in Hnone as [Hfile Hdir].
  apply negb_true_iff in Hfile, Hdir. rewrite Hdir.
  unfold InferenceRun.isfile in Hfile. apply bool_decide_eq_false_1 in Hfile.
  destruct (fs !! model_path) as [weights|]; [|done].
  exfalso. apply Hfile. by eexists.
Qed.

(** ** From inference back to dispatch *)
Section redispatch_facts.
Import PyStr PyText.

Lemma rsplit_slash_spec (s : string) :
  match rsplit_slash s with
  | Some (_, b) => contains "/" b = false
  | None => contains "/" s = false
  end.
Proof.
  induction s as [|c r IH]; simpl; [done|].
  destruct (rsplit_slash r) as [[a b]|]; [done|].
  destruct (decide (c = "/"%char)); [done | done].
Qed.

Lemma basename_no_slash (p : string) : contains "/" (basename p) = false.
Proof.
  unfold basename. pose proof (rsplit_slash_spec p) as H.
  by destruct (rsplit_slash p) as [[a b]|].
Qed.

Lemma rsplit_dot_app (s a b : string) :
  rsplit_dot s = Some (a, b) → s = a +:+ b.
Proof.
  revert a b. induction s as [|c r IH]; intros a b; simpl; [done|].
  destruct (rsplit_dot r) as [[a' b']|].
  - intros [= <- <-]. exact (f_equal (String c) (IH _ _ eq_refl)).
  - destruct (decide (c = "."%char)); [|done]. by intros [= <- <-].
Qed.

Lemma stem_no_slash (name : string) :
  contains "/" name = false → contains "/" (stem name) = false.
Proof.
  intros H. unfold stem.
  destruct (rsplit_dot name) as [[a b]|] eqn:Hr; [|done].
  destruct (decide (a = "")); [done|]. destruct (decide (b = ".")); [done|].
  apply rsplit_dot_app in Hr. rewrite Hr, contains_app in H.
  by apply orb_false_iff in H as [? _].
Qed.

(** A label file name is a relative path. *)
Lemma label_file_name_relative (p : string) :
  startswith (Inference.label_file_name (basename p)) "/" = false.
Proof.
  unfold Inference.label_file_name.
  pose proof (stem_no_slash _ (basename_no_slash p)) as H.
  destruct (stem (basename p)) as [|c r]; [done|].
  simpl in H. destruct (decide (c = "/"%char)) as [->|Hc]; [done|].
  unfold startswith.
  change (String c r +:+ ".txt") with (String c (r +:+ ".txt")).
  cbn [String.prefix].
  destruct (Ascii.ascii_dec "/" c) as [<-|]; done.
Qed.

(** The folder path of the dispatch function ends with a slash, and so do
    the two folders under it. *)
Lemma date_wheel_path_joins (wheel yesterday rel : string) :
  startswith rel "/" = false →
  path_join (Dispatch.date_wheel_path wheel yesterday) rel
  = Dispatch.date_wheel_path wheel yesterday +:+ rel.
Proof.
  intros Hrel. unfold Dispatch.date_wheel_path.
  replace (wheel +:+ "/" +:+ yesterday +:+ "/")
    with ((wheel +:+ "/" +:+ yesterday) +:+ "/")
    by (by rewrite !append_assoc).
  by apply path_join_folder.
Qed.

Lemma auto_annotations_joins (path rel : string) :
  startswith rel "/" = false →
  path_join (Dispatch.auto_annotations_folder_path path) rel
  = Dispatch.auto_annotations_folder_path path +:+ rel.
Proof.
  intros Hrel. unfold Dispatch.auto_annotations_folder_path.
  replace (path +:+ "auto-annotations/") with ((path +:+ "auto-annotations") +:+ "/")
    by (by rewrite append_assoc).
  by apply path_join_folder.
Qed.

End redispatch_facts.

(** X5. Inference ends a folder's eligibility: when a run of the inference
    runner on a dispatched folder returns and the folder has at least one
    listed image whose base name has a supported suffix, the bucket with
    the uploaded objects added no longer makes the dispatch function select
    that folder, for any list of devices. The model folder the run fetched
    is to have left nothing in the working directories [input_images] and
    [annotated_images]: a directory [annotated_images/a.txt] from the model
    folder would stand in for the label of [a.jpg] and not be uploaded. *)
Theorem inference_ends_eligibility (m : InferenceRun.machine) (b : Gcs.bucket)
    (content : string → string)
    (predict : nat → gmap string string → option (gmap string Inference.entry))
    (wheel yesterday : string) (uploaded uploaded' : gmap string string)
    (p : string) (wheels : list string) :
  let path := Dispatch.date_wheel_path wheel yesterday in
  InferenceRun.main m b content predict path uploaded = Py.Ok uploaded' →
  starts_clean m b content = true →
  p ∈ InferenceRun.list_gcs_images b (Dispatch.images_folder_path path) →
  Inference.is_image (PyStr.basename p) = true →
  path ∉ Dispatch.scan (b ++ (map_to_list uploaded').*1) wheels yesterday.
Proof.
  intros path Hrun Hclean Hp Himg Hscan.
  unfold InferenceRun.main in Hrun. unfold starts_clean in Hclean.
  destruct (Inference.get_latest_model_version b "models/production/")
    as [model|ex]; [|done].
  destruct (InferenceRun.download_gcs_folder m b content model _ ∅)
    as [fs|ex]; [|done].
  destruct (InferenceRun.YOLO m fs _) as [[]|ex]; [|done].
  apply negb_true_iff in Hclean. rewrite Hclean in Hrun.
  unfold path in Hrun. rewrite !date_wheel_path_joins in Hrun by done.
  fold path in Hrun.
  change (path +:+ "images/") with (Dispatch.images_folder_path path) in Hrun.
  change (path +:+ "auto-annotations/")
    with (Dispatch.auto_annotations_folder_path path) in Hrun.
  set (image_paths := InferenceRun.list_gcs_images b
                        (Dispatch.images_folder_path path)) in *.
  destruct image_paths as [|p0 l] eqn:Himgs; [by inversion Hp|].
  rewrite <- Himgs in Hrun, Hp.
  destruct (InferenceRun.makedirs fs _ ["input_images"]) as [[]|ex]; [|done].
  destruct (InferenceRun.makedirs fs _ ["annotated_images"]) as [[]|ex]; [|done].
  injection Hrun as <-.
  destruct (run_batches_spec content predict
              (Dispatch.auto_annotations_folder_path path)
              (InferenceRun.batches image_paths) 0
              {| InferenceRun.input_dir := ∅; InferenceRun.output_dir := ∅;
                 InferenceRun.uploaded := uploaded |}) as [_ Hnew].
  assert (Hcat : p ∈ concat (InferenceRun.batches image_paths)).
  { destruct (range_from_slices image_paths (length image_paths) 0 ltac:(lia))
      as (Hc & _). unfold InferenceRun.batches, InferenceRun.range_step.
    by rewrite Hc. }
  apply (proj1 (list_elem_of_In _ _)) in Hcat.
  apply (proj1 (in_concat _ _)) in Hcat as (batch & Hb & Hpb).
  apply (proj2 (list_elem_of_In _ _)) in Hb.
  apply (proj2 (list_elem_of_In _ _)) in Hpb.
  destruct (Hnew batch p Hb Hpb Himg) as [body Hlabel].
  rewrite auto_annotations_joins in Hlabel by apply label_file_name_relative.
  set (label := Dispatch.auto_annotations_folder_path path
                  +:+ Inference.label_file_name (PyStr.basename p)) in Hlabel.
  assert (Hin : label ∈ Gcs.list_blobs (b ++ (map_to_list
                  (InferenceRun.uploaded
                     (InferenceRun.run_batches content predict
                        (Dispatch.auto_annotations_folder_path path) 0
                        (InferenceRun.batches image_paths)
                        {| InferenceRun.input_dir := ∅;
                           InferenceRun.output_dir := ∅;
                           InferenceRun.uploaded := uploaded |}))).*1)
                  (Dispatch.auto_annotations_folder_path path) None).
  { unfold Gcs.list_blobs. simpl. apply list_elem_of_filter. split.
    - apply prefix_app.
    - apply elem_of_app. right. apply list_elem_of_fmap.
      exists (label, body). split; [done|]. by apply elem_of_map_to_list. }
  unfold Dispatch.scan in Hscan.
  apply scan_fold_spec in Hscan as [Hnil|(w & _ & Helig & Hpath)];
    [by inversion Hnil|].
  apply date_wheel_path_inj in Hpath as <-.
  destruct Helig as (_ & _ & Hauto). fold path in Hauto.
  rewrite Hauto in Hin. by inversion Hin.
Qed.

(** The run of the witness above: afterwards the folder is not selected. *)
Lemma inference_ends_eligibility_witness :
  "3/2025-1-4/"
  ∉ Dispatch.scan
      (["models/production/model_v3/weights/best.pt";
        "3/2025-1-4/images/a.jpg"; "3/2025-1-4/images/b.PNG"]
       ++ (map_to_list ({[ "3/2025-1-4/auto-annotations/a.txt" := "";
                           "3/2025-1-4/auto-annotations/b.txt" := "" ]}
                        : gmap string string)).*1)
      ["1"; "2"; "3"] "2025-1-4".
Proof.
  apply (inference_ends_eligibility InferenceScenario.vm
           ["models/production/model_v3/weights/best.pt";
            "3/2025-1-4/images/a.jpg"; "3/2025-1-4/images/b.PNG"]
           (λ _, "image") (λ _ _, None) "3" "2025-1-4" ∅
           {[ "3/2025-1-4/auto-annotations/a.txt" := "";
              "3/2025-1-4/auto-annotations/b.txt" := "" ]}
           "3/2025-1-4/images/a.jpg" ["1"; "2"; "3"]).
  - vm_cast_no_check
      (eq_refl (Py.Ok ({[ "3/2025-1-4/auto-annotations/a.txt" := "";
                          "3/2025-1-4/auto-annotations/b.txt" := "" ]}
                       : gmap string string))).
  - by vm_compute.
  - vm_compute. left.
  - by vm_compute.
Defined.

(** ** Annotation-platform client: the task list *)
Section task_list_facts.
Import Py Cvat.

Lemma fetch_pages_all_ok (rest : list page) (p : page) (acc : list task) :
  Forall (λ q, page_status q = 200%Z) (p :: rest) →
  fetch_pages p rest acc = Ok (acc ++ concat (page_results <$> (p :: rest))).
Proof.
  revert p acc. induction rest as [|q rest IH]; intros p acc Hall;
    apply Forall_cons in Hall as [Hp Hrest]; cbn [fetch_pages]; rewrite Hp; simpl.
  - by rewrite app_nil_r.
  - rewrite (IH q _ Hrest). simpl. by rewrite <- app_assoc.
Qed.

Lemma fetch_pages_first_bad (good after : list page) (bad p : page)
    (rest : list page) (acc : list task) :
  p :: rest = good ++ bad :: after →
  Forall (λ q, page_status q = 200%Z) good →
  page_status bad ≠ 200%Z →
  fetch_pages p rest acc
  = Raise (Exception ("Failed to get tasks: " +:+ str_int (page_status bad))).
Proof.
  revert p rest acc. induction good as [|g good IH]; intros p rest acc Heq Hgood Hbad.
  - simpl in Heq. injection Heq as -> ->.
    destruct after; cbn [fetch_pages];
      (destruct (page_status bad =? 200)%Z eqn:E; [apply Z.eqb_eq in E; done | done]).
  - simpl in Heq. injection Heq as -> ->.
    apply Forall_cons in Hgood as [Hg Hgood].
    destruct good as [|g' good]; simpl; cbn [fetch_pages]; rewrite Hg; simpl.
    + by apply (IH bad after _ eq_refl).
    + by apply (IH g' (good ++ bad :: after) _ eq_refl).
Qed.

End task_list_facts.

(** X6. Fetching the task list follows the pages in order: when every page
    answers 200 the result is the concatenation of their results, and the
    first page that answers anything else raises ["Failed to get tasks:
    <status>"] whatever the pages after it hold. *)
Theorem fetch_all_tasks_pages (pf : Cvat.platform) (c : Cvat.client) :
  (Forall (λ q, Cvat.page_status q = 200%Z)
          ((Cvat.task_pages pf).1 :: (Cvat.task_pages pf).2) →
   Cvat._fetch_all_tasks pf c
   = (Py.Ok (concat (Cvat.page_results
                       <$> ((Cvat.task_pages pf).1 :: (Cvat.task_pages pf).2))), c))
  ∧ (∀ good bad after,
       (Cvat.task_pages pf).1 :: (Cvat.task_pages pf).2 = good ++ bad :: after →
       Forall (λ q, Cvat.page_status q = 200%Z) good →
       Cvat.page_status bad ≠ 200%Z →
       Cvat._fetch_all_tasks pf c
       = (Py.Raise (Py.Exception ("Failed to get tasks: "
                                    +:+ Py.str_int (Cvat.page_status bad))), c)).
Proof.
  unfold Cvat._fetch_all_tasks. split.
  - intros Hall. by rewrite (fetch_pages_all_ok _ _ [] Hall).
  - intros good bad after Heq Hgood Hbad.
    by rewrite (fetch_pages_first_bad good after bad _ _ [] Heq Hgood Hbad).
Qed.

(** Two good pages, then one answering 503, then one more. *)
Lemma fetch_all_tasks_pages_witness :
  let p1 := {| Cvat.page_status := 200;
               Cvat.page_results := [ {| Cvat.t_id := 1; Cvat.t_name := "1_2025-1-4";
                                         Cvat.t_status := "completed" |} ] |} in
  let bad := {| Cvat.page_status := 503; Cvat.page_results := [] |} in
  let pf := {| Cvat.task_pages := (p1, [p1; bad; p1]);
               Cvat.export_response := {| Cvat.status_code := 200; Cvat.rq_id := Cvat.JNull |};
               Cvat.poll_status := λ _, 200%Z |} in
  Cvat._fetch_all_tasks pf Scenario.new_client
  = (Py.Raise (Py.Exception "Failed to get tasks: 503"), Scenario.new_client).
Proof.
  intros p1 bad pf.
  apply (proj2 (fetch_all_tasks_pages pf Scenario.new_client) [p1; p1] bad [p1]).
  - reflexivity.
  - by repeat constructor.
  - discriminate.
Defined.

(** ** Annotation-platform client: the caches *)
Section cache_facts.
Import Py Cvat.

Variable pf : platform.

(** [get_all_tasks] by cases: a fetch happens exactly when the cache is
    empty or a refresh is forced. *)
Lemma get_all_tasks_cases (force_refresh : bool) (c : client) :
  get_all_tasks pf force_refresh c
  = match _tasks c, force_refresh with
    | Some l, false => (Ok l, c)
    | _, _ =>
        match fetch_pages (task_pages pf).1 (task_pages pf).2 [] with
        | Ok all => (Ok all, (set_tasks all c).2)
        | Raise ex => (Raise ex, c)
        end
    end.
Proof.
  unfold get_all_tasks, bind, _fetch_all_tasks, ret.
  destruct (_tasks c) as [l|] eqn:Hc, force_refresh; simpl;
    try (by destruct (fetch_pages _ _ _)).
  by rewrite Hc.
Qed.

Lemma get_completed_tasks_cases (force_refresh : bool) (c : client) :
  get_completed_tasks pf force_refresh c
  = match get_all_tasks pf force_refresh c with
    | (Ok tasks, c1) =>
        let completed :=
          sort_by_name (filter (λ t, t_status t = "completed") tasks) in
        (Ok completed, (set_completed_tasks completed c1).2)
    | (Raise ex, c1) => (Raise ex, c1)
    end.
Proof.
  unfold get_completed_tasks, bind.
  by destruct (get_all_tasks pf force_refresh c) as [[tasks|ex] c1].
Qed.

End cache_facts.

(** X7. The task cache is coherent: after a successful [get_all_tasks] the
    cache holds exactly the list returned, the cache of completed tasks is
    untouched, and a further call without refresh returns the same list
    without asking any platform; with a filled cache and no refresh nothing
    is fetched at all; and a failed fetch leaves the client, stale cache
    included, as it was. *)
Theorem get_all_tasks_cache (pf : Cvat.platform) (force_refresh : bool)
    (c c' : Cvat.client) (r : Py.result (list Cvat.task)) :
  Cvat.get_all_tasks pf force_refresh c = (r, c') →
  match r with
  | Py.Ok l =>
      Cvat._tasks c' = Some l
      ∧ Cvat._completed_tasks c' = Cvat._completed_tasks c
      ∧ (∀ pf', Cvat.get_all_tasks pf' false c' = (Py.Ok l, c'))
      ∧ (force_refresh = false → ∀ l0, Cvat._tasks c = Some l0 → l = l0 ∧ c' = c)
  | Py.Raise ex => c' = c
  end.
Proof.
  rewrite get_all_tasks_cases.
  destruct (Cvat._tasks c) as [l0|] eqn:Hc, force_refresh;
    try (destruct (Cvat.fetch_pages _ _ _) as [all|ex]);
    intros [= <- <-]; try done;
    try (split; [done|]; split; [done|]; split;
         [by intros pf'; rewrite get_all_tasks_cases | done]).
  - split; [done|]. split; [done|]. split.
    + intros pf'. by rewrite get_all_tasks_cases, Hc.
    + by intros _ l1 [= ->].
Qed.

(** A forced fetch by a fresh client, then a call without refresh against
    another platform. *)
Lemma get_all_tasks_cache_witness :
  let c1 := (Cvat.set_tasks (Cvat.page_results Scenario.review_done)
               Scenario.new_client).2 in
  Cvat.get_all_tasks Scenario.six_polls true Scenario.new_client
  = (Py.Ok (Cvat.page_results Scenario.review_done), c1)
  ∧ Cvat.get_all_tasks Scenario.failing false c1
    = (Py.Ok (Cvat.page_results Scenario.review_done), c1).
Proof.
  intros c1.
  assert (Hrun : Cvat.get_all_tasks Scenario.six_polls true Scenario.new_client
                 = (Py.Ok (Cvat.page_results Scenario.review_done), c1))
    by reflexivity.
  split; [exact Hrun|].
  destruct (get_all_tasks_cache Scenario.six_polls true Scenario.new_client c1
              (Py.Ok (Cvat.page_results Scenario.review_done)) Hrun)
    as (_ & _ & Hagain & _).
  exact (Hagain Scenario.failing).
Defined.

(** ** Annotation-platform client: completed tasks *)
Section completed_facts.
Import Py Cvat.

Lemma name_le_trans (a b c : task) : name_le a b → name_le b c → name_le a c.
Proof.
  unfold name_le. intros H1 H2. apply Is_true_true.
  apply Is_true_true in H1, H2.
  exact (transitivity (R := String.le) H1 H2).
Qed.

Lemma name_le_total (a b : task) :
  String.leb (t_name a) (t_name b) = false → name_le b a.
Proof.
  unfold name_le. intros H.
  destruct (String.leb_total (t_name a) (t_name b)); congruence.
Qed.

Lemma insert_by_name_perm (t : task) (l : list task) : insert_by_name t l ≡ₚ t :: l.
Proof.
  induction l as [|u r IH]; simpl; [done|].
  destruct (String.leb (t_name u) (t_name t)); [|done].
  rewrite IH. apply Permutation_swap.
Qed.

Lemma insert_by_name_sorted (t : task) (l : list task) :
  StronglySorted name_le l → StronglySorted name_le (insert_by_name t l).
Proof.
  induction l as [|u r IH]; intros Hs; simpl.
  - by repeat constructor.
  - apply StronglySorted_inv in Hs as [Hr Hu].
    destruct (String.leb (t_name u) (t_name t)) eqn:Hle.
    + constructor; [by apply IH|].
      rewrite insert_by_name_perm. by constructor.
    + apply name_le_total in Hle. constructor; [by constructor|].
      constructor; [done|]. eapply Forall_impl; [exact Hu|].
      intros x Hx. by eapply name_le_trans.
Qed.

(** Insertion is stable: among the tasks of one name the new one comes
    last. *)
Lemma insert_by_name_filter (n : string) (t : task) (l : list task) :
  StronglySorted name_le l →
  filter (λ x, t_name x = n) (insert_by_name t l)
  = filter (λ x, t_name x = n) l ++ filter (λ x, t_name x = n) [t].
Proof.
  induction l as [|u r IH]; intros Hs; simpl; [done|].
  apply StronglySorted_inv in Hs as [Hr Hu].
  destruct (String.leb (t_name u) (t_name t)) eqn:Hle.
  - rewrite !filter_cons, (IH Hr). by destruct (decide (t_name u = n)).
  - rewrite (filter_cons _ t). rewrite (filter_cons _ t []), filter_nil.
    destruct (decide (t_name t = n)) as [Ht|Ht]; [|by rewrite app_nil_r].
    assert (Hnone : filter (λ x, t_name x = n) (u :: r) = []).
    { destruct (filter _ (u :: r)) as [|x xs] eqn:Hf; [done|]. exfalso.
      assert (Hx : x ∈ filter (λ x, t_name x = n) (u :: r)) by (rewrite Hf; left).
      apply list_elem_of_filter in Hx as [Hxn Hx].
      assert (Hux : String.leb (t_name u) (t_name x) = true).
      { apply elem_of_cons in Hx as [->|Hx].
        - destruct (String.leb_total (t_name u) (t_name u)); done.
        - rewrite Forall_forall in Hu. by apply Hu. }
      rewrite Hxn, <- Ht in Hux. congruence. }
    by rewrite Hnone.
Qed.

(** The sort: sorted, a permutation, and stable. *)
Lemma sort_from_spec (l acc : list task) :
  StronglySorted name_le acc →
  let r := foldl (λ acc t, insert_by_name t acc) acc l in
  StronglySorted name_le r
  ∧ r ≡ₚ acc ++ l
  ∧ ∀ n, filter (λ x, t_name x = n) r
         = filter (λ x, t_name x = n) acc ++ filter (λ x, t_name x = n) l.
Proof.
  revert acc. induction l as [|t l IH]; intros acc Hacc; simpl.
  - split; [done|]. split; [by rewrite app_nil_r|]. intros n.
    by rewrite filter_nil, app_nil_r.
  - destruct (IH (insert_by_name t acc) (insert_by_name_sorted t acc Hacc))
      as (Hs & Hp & Hf).
    split; [exact Hs|]. split.
    + rewrite Hp, insert_by_name_perm. simpl. apply Permutation_middle.
    + intros n. rewrite Hf, (insert_by_name_filter n t acc Hacc).
      rewrite (filter_cons _ t l), (filter_cons _ t []), filter_nil.
      rewrite <- app_assoc. by destruct (decide (t_name t = n)).
Qed.

End completed_facts.

(** X8. [get_completed_tasks] returns, and caches, the completed tasks of
    the task list sorted by name: the result is in non-decreasing name
    order, is a permutation of the tasks whose status is ["completed"], and
    the sort is stable, so looking a name up in it finds the same task as in
    the platform's own order. *)
Theorem get_completed_tasks_sorted (pf : Cvat.platform) (force_refresh : bool)
    (c c' : Cvat.client) (completed : list Cvat.task) :
  Cvat.get_completed_tasks pf force_refresh c = (Py.Ok completed, c') →
  ∃ tasks,
    Cvat._tasks c' = Some tasks
    ∧ Cvat._completed_tasks c' = Some completed
    ∧ StronglySorted name_le completed
    ∧ completed ≡ₚ filter (λ t, Cvat.t_status t = "completed") tasks
    ∧ ∀ name, Cvat.find_by_name name completed
              = Cvat.find_by_name name
                  (filter (λ t, Cvat.t_status t = "completed") tasks).
Proof.
  rewrite get_completed_tasks_cases.
  destruct (Cvat.get_all_tasks pf force_refresh c) as [[tasks|ex] c1] eqn:Hall;
    [|done].
  intros [= <- <-]. exists tasks.
  assert (Hcache : Cvat._tasks c1 = Some tasks).
  { rewrite get_all_tasks_cases in Hall.
    destruct (Cvat._tasks c) as [l0|] eqn:Hc, force_refresh;
      try (destruct (Cvat.fetch_pages _ _ _) as [all|ex]);
      simplify_eq; done. }
  destruct (sort_from_spec (filter (λ t, Cvat.t_status t = "completed") tasks) []
              ltac:(constructor)) as (Hs & Hp & Hf).
  split; [exact Hcache|]. split; [done|]. split; [exact Hs|]. split; [exact Hp|].
  intros name. unfold Cvat.find_by_name, Cvat.sort_by_name. by rewrite Hf.
Qed.

Lemma get_completed_tasks_sorted_witness :
  ∃ tasks,
    Cvat._tasks (Cvat.get_completed_tasks Scenario.six_polls true
                   Scenario.new_client).2 = Some tasks
    ∧ Cvat.find_by_name "3_2025-1-4"
        [ {| Cvat.t_id := 7; Cvat.t_name := "3_2025-1-4"; Cvat.t_status := "completed" |} ]
      = Cvat.find_by_name "3_2025-1-4"
          (filter (λ t, Cvat.t_status t = "completed") tasks).
Proof.
  destruct (get_completed_tasks_sorted Scenario.six_polls true Scenario.new_client
              (Cvat.get_completed_tasks Scenario.six_polls true Scenario.new_client).2
              [ {| Cvat.t_id := 7; Cvat.t_name := "3_2025-1-4";
                   Cvat.t_status := "completed" |} ] eq_refl)
    as (tasks & Ht & _ & _ & _ & Hfind).
  exists tasks. split; [exact Ht | exact (Hfind "3_2025-1-4")].
Defined.

(** ** Annotation-platform client: the task to export *)
Section export_lookup_facts.
Import Py Cvat.

Lemma find_by_name_Some (name : string) (l : list task) (t : task) :
  find_by_name name l = Some t → t ∈ l ∧ t_name t = name.
Proof.
  unfold find_by_name. intros H.
  destruct (filter (λ t, t_name t = name) l) as [|x xs] eqn:Hf; [done|].
  injection H as ->.
  assert (Ht : t ∈ filter (λ t, t_name t = name) l) by (rewrite Hf; left).
  apply list_elem_of_filter in Ht. tauto.
Qed.

(** [get_task] and [get_completed_task] only read the client. *)
Lemma get_task_state (name : string) (c : client) : (get_task name c).2 = c.
Proof.
  unfold get_task. destruct (_tasks c) as [l|]; [|done].
  by destruct (find_by_name name l).
Qed.

Lemma get_completed_task_state (name : string) (c : client) :
  (get_completed_task name c).2 = c.
Proof.
  unfold get_completed_task. destruct (_completed_tasks c) as [l|]; [|done].
  destruct (find_by_name name l); [done|].
  unfold bind, raise. pose proof (get_task_state name c) as H.
  by destruct (get_task name c) as [[t|ex] c'].
Qed.

(** The lookup leaves the counters of the client alone. *)
Lemma find_task_to_export_counters (pf : platform) (device_id date : string)
    (c : client) :
  let c' := (find_task_to_export pf device_id date c).2 in
  polls c' = polls c ∧ slept c' = slept c.
Proof.
  unfold find_task_to_export, bind, ensure_completed_tasks.
  destruct (_completed_tasks c) as [l|] eqn:Hc.
  - pose proof (get_completed_task_state (device_id +:+ "_" +:+ date) c) as H.
    destruct (get_completed_task _ c) as [r c']. simpl in *. by subst.
  - unfold bind. rewrite get_completed_tasks_cases, get_all_tasks_cases.
    destruct (_tasks c) as [l0|];
      (destruct (fetch_pages _ _ _) as [all|ex]; [|done]); simpl;
      match goal with
      | |- context [get_completed_task ?n ?c0] =>
          pose proof (get_completed_task_state n c0) as H;
          destruct (get_completed_task n c0) as [r c']; simpl in *; by subst
      end.
Qed.

End export_lookup_facts.

(** X9. For a client whose cache of completed tasks is empty and a task
    list that can be fetched, the lookup at the head of an export finds the
    first task of the platform's list that has the name
    ['{device_id}_{date}'] and status ["completed"]; if tasks of that name
    exist but none is completed it raises ["Task '...' is not completed"],
    and if none has the name it ends in the NameError. A task it returns has
    that name, is completed and is in the fetched list. *)
Theorem find_task_to_export_first_completed (pf : Cvat.platform)
    (device_id date : string) (c : Cvat.client) (all : list Cvat.task) :
  Cvat._completed_tasks c = None →
  Cvat.fetch_pages (Cvat.task_pages pf).1 (Cvat.task_pages pf).2 [] = Py.Ok all →
  let name := device_id +:+ "_" +:+ date in
  (Cvat.find_task_to_export pf device_id date c).1
  = match Cvat.find_by_name name (filter (λ t, Cvat.t_status t = "completed") all) with
    | Some t => Py.Ok t
    | None =>
        match Cvat.find_by_name name all with
        | Some _ => Py.Raise (Py.Exception ("Task '" +:+ name +:+ "' is not completed"))
        | None => Py.Raise (Py.NameError "task_name")
        end
    end
  ∧ ∀ t, (Cvat.find_task_to_export pf device_id date c).1 = Py.Ok t →
         Cvat.t_name t = name ∧ Cvat.t_status t = "completed" ∧ t ∈ all.
Proof.
  intros Hc Hfetch name.
  assert (Hrun : (Cvat.find_task_to_export pf device_id date c).1
    = match Cvat.find_by_name name
              (filter (λ t, Cvat.t_status t = "completed") all) with
      | Some t => Py.Ok t
      | None =>
          match Cvat.find_by_name name all with
          | Some _ => Py.Raise (Py.Exception ("Task '" +:+ name +:+ "' is not completed"))
          | None => Py.Raise (Py.NameError "task_name")
          end
      end).
  { unfold Cvat.find_task_to_export, Cvat.bind at 1, Cvat.ensure_completed_tasks.
    rewrite Hc. unfold Cvat.bind at 1.
    rewrite get_completed_tasks_cases, get_all_tasks_cases, Hfetch.
    replace (match Cvat._tasks c with
             | Some _ | _ => (Py.Ok all, (Cvat.set_tasks all c).2)
             end) with (Py.Ok all, (Cvat.set_tasks all c).2)
      by (by destruct (Cvat._tasks c)).
    cbv zeta. simpl. unfold Cvat.get_completed_task. simpl. fold name.
    destruct (sort_from_spec (filter (λ t, Cvat.t_status t = "completed") all) []
                ltac:(constructor)) as (_ & _ & Hf).
    unfold Cvat.find_by_name at 1, Cvat.sort_by_name. rewrite Hf. simpl.
    fold (Cvat.find_by_name name (filter (λ t, Cvat.t_status t = "completed") all)).
    destruct (Cvat.find_by_name name (filter _ all)); [done|].
    unfold Cvat.bind, Cvat.get_task, Cvat.raise. simpl.
    by destruct (Cvat.find_by_name name all). }
  split; [exact Hrun|]. intros t Ht. rewrite Hrun in Ht.
  destruct (Cvat.find_by_name name (filter _ all)) as [t'|] eqn:Hfind.
  - injection Ht as ->. apply find_by_name_Some in Hfind as [Hin Hname].
    apply list_elem_of_filter in Hin as [Hst Hin]. done.
  - by destruct (Cvat.find_by_name name all).
Qed.

(** The review of [3_2025-1-5] is not finished on the platform of the
    scenarios. *)
Lemma find_task_to_export_first_completed_witness :
  (Cvat.find_task_to_export Scenario.six_polls "3" "2025-1-5" Scenario.new_client).1
  = Py.Raise (Py.Exception "Task '3_2025-1-5' is not completed").
Proof.
  exact (proj1 (find_task_to_export_first_completed Scenario.six_polls
                  "3" "2025-1-5" Scenario.new_client
                  (Cvat.page_results Scenario.review_done) eq_refl eq_refl)).
Defined.

(** ** Annotation-platform client: how long an export can take *)
Section export_bound_facts.
Import Py Cvat.

Variable pf : platform.

Lemma poll_export_bounds (n : nat) (c c' : client) (r : result bool) :
  poll_export pf n c = (r, c') →
  polls c ≤ polls c' ≤ polls c + n
  ∧ slept c' = (slept c + 10 * Z.of_nat (polls c' - polls c))%Z.
Proof.
  revert c. induction n as [|n IH]; intros c; cbn [poll_export].
  - unfold raise. intros [= <- <-]. split; [lia|]. rewrite Nat.sub_diag. lia.
  - unfold bind, sleep, poll. simpl.
    destruct (is_200_or_201 (poll_status pf (polls c))).
    + unfold ret. intros [= <- <-]. simpl. split; [lia|].
      replace (S (polls c) - polls c) with 1 by lia. lia.
    + destruct (negb (poll_status pf (polls c) =? 202)%Z).
      * unfold raise. intros [= <- <-]. simpl. split; [lia|].
        replace (S (polls c) - polls c) with 1 by lia. lia.
      * intros H. apply IH in H. simpl in H. destruct H as [[H1 H2] H3].
        split; [lia|]. rewrite H3.
        replace (polls c' - polls c) with (S (polls c' - S (polls c))) by lia. lia.
Qed.

End export_bound_facts.

(** X10. An export is bounded: [export_annotations] sends at most sixty
    status polls, sleeps exactly ten seconds before each of them and at no
    other time (at most 600 seconds), and it polls only when the task was
    found and the export request was answered 202 with a request id. *)
Theorem export_annotations_bounded (pf : Cvat.platform) (device_id date : string)
    (c c' : Cvat.client) (r : Py.result bool) :
  Cvat.export_annotations pf device_id date c = (r, c') →
  Cvat.polls c ≤ Cvat.polls c' ≤ Cvat.polls c + 60
  ∧ Cvat.slept c' = (Cvat.slept c + 10 * Z.of_nat (Cvat.polls c' - Cvat.polls c))%Z
  ∧ (Cvat.polls c < Cvat.polls c' →
     Cvat.status_code (Cvat.export_response pf) = 202%Z
     ∧ Cvat.truthy (Cvat.rq_id (Cvat.export_response pf)) = true
     ∧ ∃ task c1, Cvat.find_task_to_export pf device_id date c = (Py.Ok task, c1)).
Proof.
  unfold Cvat.export_annotations, Cvat.try_except, Cvat.export_annotations_try,
    Cvat.bind.
  destruct (find_task_to_export_counters pf device_id date c) as [Hp Hs].
  destruct (Cvat.find_task_to_export pf device_id date c) as [[task|ex] c1] eqn:Hfind;
    simpl in Hp, Hs.
  2:{ unfold Cvat.ret. intros [= <- <-]. rewrite Hp, Hs, Nat.sub_diag.
      split; [lia|]. split; [lia|]. lia. }
  assert (Hsame : ∀ r0 : Py.result bool, (r0, c1) = (r, c') →
            Cvat.polls c' = Cvat.polls c
            ∧ Cvat.slept c'
              = (Cvat.slept c + 10 * Z.of_nat (Cvat.polls c' - Cvat.polls c))%Z).
  { intros r0 [= <- <-]. rewrite Hp, Hs, Nat.sub_diag. split; lia. }
  unfold Cvat.request_export.
  destruct (Cvat.status_code (Cvat.export_response pf) =? 202)%Z eqn:E202.
  - apply Z.eqb_eq in E202.
    destruct (Cvat.truthy (Cvat.rq_id (Cvat.export_response pf))) eqn:Hrq;
      cbn [negb].
    + destruct (Cvat.poll_export pf 60 c1) as [r1 c2] eqn:Hloop.
      apply poll_export_bounds in Hloop as [Hb Hsl].
      intros Hres.
      assert (c2 = c') as ->
        by (destruct r1; cbv beta in Hres; unfold Cvat.ret in Hres; congruence).
      rewrite Hp in Hb. rewrite Hs, Hp in Hsl.
      split; [lia|]. split; [exact Hsl|]. intros _.
      split; [done|]. split; [done|]. by exists task, c1.
    + unfold Cvat.raise, Cvat.ret. intros Hres.
      destruct (Hsame _ Hres) as (H1 & H2).
      split; [lia|]. split; [done|]. lia.
  - destruct (Cvat.is_200_or_201 _); unfold Cvat.raise, Cvat.ret; intros Hres;
      (destruct (Hsame _ Hres) as (H1 & H2);
       split; [lia|]; split; [done|]; lia).
Qed.

(** The run in which the export is never ready uses the whole allowance. *)
Lemma export_annotations_bounded_witness :
  Cvat.polls Scenario.new_client ≤ Cvat.polls (after_polls Scenario.cached 60)
    ≤ Cvat.polls Scenario.new_client + 60
  ∧ Cvat.slept (after_polls Scenario.cached 60)
    = (Cvat.slept Scenario.new_client
       + 10 * Z.of_nat (Cvat.polls (after_polls Scenario.cached 60)
                        - Cvat.polls Scenario.new_client))%Z.
Proof.
  assert (Hrun : Cvat.export_annotations Scenario.never_ready "3" "2025-1-4"
                   Scenario.new_client
                 = (Py.Ok false, after_polls Scenario.cached 60))
    by (by vm_compute).
  destruct (export_annotations_bounded Scenario.never_ready "3" "2025-1-4"
              Scenario.new_client _ _ Hrun) as (Hpolls & Hslept & _).
  split; [exact Hpolls | exact Hslept].
Defined.

(** ** Export-and-download: what the manifest decides *)
Section manifest_skip_facts.
Import Download.

Lemma already_completed_record (m : manifest) (device_id date : string) :
  already_completed m device_id date
  = match record_of m device_id date with
    | Some r => bool_decide (status r = "completed")
    | None => false
    end.
Proof.
  unfold already_completed, record_of.
  destruct (m !! device_id) as [dates|]; simpl; [|done].
  by destruct (dates !! date).
Qed.

Lemma record_of_update (timestamp : string) (blob : option manifest)
    (device_id date st d dt : string) :
  record_of (update_processed_manifest timestamp blob device_id date st) d dt
  = if decide ((d, dt) = (device_id, date))
    then Some {| status := st; processed_at := timestamp |}
    else record_of (default ∅ blob) d dt.
Proof.
  rewrite update_processed_manifest_insert. unfold record_of.
  destruct (decide (d = device_id)) as [->|Hd].
  - rewrite lookup_insert_eq. simpl.
    destruct (decide (dt = date)) as [->|Hdt].
    + rewrite lookup_insert_eq. by rewrite decide_True.
    + rewrite lookup_insert_ne by done. rewrite decide_False by congruence.
      by destruct (default ∅ blob !! device_id).
  - rewrite lookup_insert_ne by done. rewrite decide_False by congruence. done.
Qed.

End manifest_skip_facts.

(** X11. What a manifest write means for the next scan: a folder written
    as ["completed"] is skipped whatever the bucket holds, without export
    call, result or manifest write; a folder written with any other status
    is examined again as if it had no record; and the write changes the
    verdict for no other folder. *)
Theorem manifest_write_decides_skip (e : Download.env) (timestamp : string)
    (blob : option Download.manifest) (device_id date st : string)
    (w : Download.world) :
  let m := Download.update_processed_manifest timestamp blob device_id date st in
  Download.already_completed m device_id date = bool_decide (st = "completed")
  ∧ (∀ d dt, (d, dt) ≠ (device_id, date) →
             Download.already_completed m d dt
             = Download.already_completed (default ∅ blob) d dt)
  ∧ (st = "completed" →
     Download.scan_date e m device_id date w = Some (Py.Ok tt, w))
  ∧ (st ≠ "completed" →
     Download.scan_date e m device_id date w
     = Download.scan_date e ∅ device_id date w).
Proof.
  intros m.
  assert (Hself : Download.already_completed m device_id date
                  = bool_decide (st = "completed")).
  { unfold m. rewrite already_completed_record, record_of_update.
    by rewrite decide_True. }
  split; [exact Hself|]. split; [|split].
  - intros d dt Hne. unfold m.
    rewrite !already_completed_record, record_of_update.
    by rewrite decide_False.
  - intros ->. unfold Download.scan_date. by rewrite Hself.
  - intros Hst. unfold Download.scan_date. rewrite Hself.
    by rewrite bool_decide_eq_false_2.
Qed.

(** After the failed run of folder [3/2025-1-4] its record does not stop
    the next scan; after a completed one it does. *)
Lemma manifest_write_decides_skip_witness :
  let e := Scenario.download_env (Py.Ok true) 0 (Py.Ok []) in
  Download.scan_date e
    (Download.update_processed_manifest "t" None "3" "2025-1-4" "completed")
    "3" "2025-1-4" Scenario.bucket_world = Some (Py.Ok tt, Scenario.bucket_world)
  ∧ Download.scan_date e
      (Download.update_processed_manifest "t" None "3" "2025-1-4" "error")
      "3" "2025-1-4" Scenario.bucket_world
    = Download.scan_date e ∅ "3" "2025-1-4" Scenario.bucket_world.
Proof.
  intros e.
  destruct (manifest_write_decides_skip e "t" None "3" "2025-1-4" "completed"
              Scenario.bucket_world) as (_ & _ & Hdone & _).
  destruct (manifest_write_decides_skip e "t" None "3" "2025-1-4" "error"
              Scenario.bucket_world) as (_ & _ & _ & Hretry).
  split; [by apply Hdone | by apply Hretry].
Defined.

(** ** Export-and-download: unpacking the archive *)
Section process_zip_facts.
Import Py Download.





End process_zip_facts.



(** ** Export-and-download: the clock *)
Section download_clock_facts.
Import Py Download.

Variable e : env.
Variable device_id date : string.

Lemma wait_for_zip_clock (fuel : nat) (start_time : Z) (k : nat) (w w' : world)
    (r : result unit) :
  now w = (start_time + 10 * Z.of_nat k)%Z → k ≤ 30 →
  wait_for_zip fuel e device_id date start_time w = Some (r, w') →
  (now w ≤ now w' ≤ start_time + max_wait)%Z.
Proof.
  assert (Hout : ∀ w, (now w - start_time < max_wait)%Z ∨ now w = (start_time + 300)%Z →
            ∀ r w', timed_out e device_id date w = (r, w') ∨ unpack e device_id date w = (r, w') →
                    (now w ≤ now w' ≤ start_time + max_wait)%Z).
  { intros w0 Hw0 r0 w0' [H|H].
    - pose proof (report_same_log e device_id date "timeout_waiting_for_zip"
                    {| item_device_id := device_id; item_date := date;
                       item_status := "timeout_waiting_for_zip";
                       item_error := None |} w0) as [Hn _].
      unfold timed_out in H. rewrite H in Hn. simpl in Hn.
      unfold max_wait in *. lia.
    - pose proof (unpack_same_log e device_id date w0) as [Hn _].
      rewrite H in Hn. simpl in Hn. unfold max_wait in *. lia. }
  revert k w. induction fuel as [|fuel IH]; intros k w Hnow Hk; simpl.
  - destruct (decide _) as [|Hge]; [done|]. intros [= H].
    refine (Hout w _ r w' (or_introl H)). right.
    unfold max_wait in Hge. lia.
  - destruct (decide _) as [Hlt|Hge].
    2:{ intros [= H]. refine (Hout w _ r w' (or_introl H)). right.
        unfold max_wait in Hge. lia. }
    destruct (zip_exists e _ (now w)) as [[|]|ex].
    + intros [= H]. refine (Hout w _ r w' (or_intror H)). by left.
    + intros H. apply (IH (S k)) in H; simpl in *; unfold max_wait in *; lia.
    + intros [= <- <-]. unfold max_wait. lia.
Qed.

End download_clock_facts.

(** X13. One candidate folder costs between 5 and 305 seconds of sleeping:
    the wait for the archive never lasts beyond the five minutes, the pause
    after the folder is five seconds, and a folder whose export call does
    not return [True] costs exactly the five seconds. When the processing
    raises instead of returning, the pause is not taken: at most the five
    minutes have passed, and none when the export call did not return
    [True]. *)
Theorem process_candidate_clock (e : Download.env) (device_id date : string)
    (w w' : Download.world) (r : Py.result unit) :
  Download.process_candidate e device_id date w = Some (r, w') →
  match r with
  | Py.Ok _ =>
      (Download.now w + 5 ≤ Download.now w' ≤ Download.now w + 305)%Z
      ∧ (Download.export_annotations e device_id date ≠ Py.Ok true →
         Download.now w' = (Download.now w + 5)%Z)
  | Py.Raise _ =>
      (Download.now w ≤ Download.now w' ≤ Download.now w + 300)%Z
      ∧ (Download.export_annotations e device_id date ≠ Py.Ok true →
         Download.now w' = Download.now w)
  end.
Proof.
  unfold Download.process_candidate.
  destruct (Download.export_and_wait e device_id date w) as [[r1 w1]|] eqn:Hrun;
    [|done].
  assert (H1 : (Download.now w ≤ Download.now w1 ≤ Download.now w + 300)%Z
               ∧ (Download.export_annotations e device_id date ≠ Py.Ok true →
                  Download.now w1 = Download.now w)).
  { unfold Download.export_and_wait in Hrun.
    destruct (Download.export_annotations e device_id date) as [[|]|ex].
    - apply (wait_for_zip_clock e device_id date _ _ 0) in Hrun;
        [|simpl; lia | lia].
      simpl in Hrun. unfold Download.max_wait in Hrun. split; [lia | done].
    - injection Hrun as H.
      pose proof (report_same_log e device_id date "export_failed"
                    {| Download.item_device_id := device_id;
                       Download.item_date := date;
                       Download.item_status := "export_failed";
                       Download.item_error := None |}
                    (Download.log_export device_id date w)) as [Hn _].
      unfold Download.export_rejected in H. rewrite H in Hn. simpl in Hn.
      split; [lia | done].
    - injection Hrun as _ <-. simpl. split; [lia | done]. }
  destruct H1 as [Hb Heq].
  destruct r1 as [[]|ex0].
  - intros [= <- <-]. simpl. split; [lia|]. intros H. rewrite (Heq H). done.
  - unfold Download.folder_error. unfold Download.bind at 1.
    destruct (report_cases e device_id date "error"
                {| Download.item_device_id := device_id;
                   Download.item_date := date;
                   Download.item_status := "error";
                   Download.item_error := Some (Py.str_exn ex0) |} w1)
      as [(ex & _ & ->)|[_ ->]]; intros [= <- <-]; simpl.
    + split; [lia | done].
    + split; [lia|]. intros H. rewrite (Heq H). done.
Qed.

(** The archive never arrives: the folder takes the full 305 seconds. *)
Lemma process_candidate_clock_witness :
  let e := Scenario.download_env (Py.Ok true) 2000 (Py.Ok []) in
  let w' :=
    {| Download.objects := Download.objects Scenario.bucket_world;
       Download.manifest_blob :=
         Some {[ "3" := {[ "2025-1-4" :=
                   {| Download.status := "timeout_waiting_for_zip";
                      Download.processed_at := "t+300" |} ]} ]};
       Download.now := 305;
       Download.results :=
         [ {| Download.item_device_id := "3"; Download.item_date := "2025-1-4";
              Download.item_status := "timeout_waiting_for_zip";
              Download.item_error := None |} ];
       Download.exports := [("3", "2025-1-4")] |} in
  Download.process_candidate e "3" "2025-1-4" Scenario.bucket_world
  = Some (Py.Ok tt, w')
  ∧ (Download.now Scenario.bucket_world + 5 ≤ Download.now w'
     ≤ Download.now Scenario.bucket_world + 305)%Z.
Proof.
  intros e w'.
  assert (Hrun : Download.process_candidate e "3" "2025-1-4" Scenario.bucket_world
                 = Some (Py.Ok tt, w')) by (vm_compute; reflexivity).
  split; [exact Hrun|].
  exact (proj1 (process_candidate_clock e "3" "2025-1-4" Scenario.bucket_world w'
                  (Py.Ok tt) Hrun)).
Defined.

(** ** Export-and-download: what a run leaves behind *)
Section download_run_facts.
Import Py Download.

Variable e : env.

Lemma progress_refl (devices : list string) (w : world) :
  progress devices w w [] [].
Proof.
  unfold progress. rewrite !app_nil_r. simpl. repeat split; (done || lia).
Qed.

Lemma progress_trans (devices : list string) (w1 w2 w3 : world)
    (new1 new2 last : list (string * string)) :
  progress devices w1 w2 new1 [] → progress devices w2 w3 new2 last →
  progress devices w1 w3 (new1 ++ new2) last.
Proof.
  intros (He1 & Hr1 & Hf1 & _ & _ & Hm1) (He2 & Hr2 & Hf2 & Hl & Hn & Hm2).
  rewrite app_nil_r in He1.
  split; [by rewrite He2, He1, !app_assoc|].
  split; [by rewrite Hr2, Hr1, app_assoc|].
  split; [|split; [done|split; [done|by intros d dt H; apply Hm2, Hm1]]].
  apply Forall_app. split; [|done].
  eapply Forall_impl; [exact Hf1|]. intros k [Hk Hrec]. split; [done | by apply Hm2].
Qed.

Lemma progress_devices (devices devices' : list string) (w w' : world)
    (new last : list (string * string)) :
  (∀ d, d ∈ devices → d ∈ devices') →
  progress devices w w' new last → progress devices' w w' new last.
Proof.
  intros Hsub (He & Hr & Hf & Hl & Hn & Hm).
  split; [done|]. split; [done|]. split; [|split; [|done]].
  - eapply Forall_impl; [exact Hf|]. intros k [Hk Hrec]. split; [by apply Hsub | done].
  - eapply Forall_impl; [exact Hl|]. intros k Hk. by apply Hsub.
Qed.

Lemma progress_sleep (devices : list string) (w w' : world)
    (new last : list (string * string)) (n : Z) :
  progress devices w w' new last → progress devices w (sleep n w') new last.
Proof. done. Qed.

Lemma recorded_status_set (device_id date st d dt : string) (w : world) :
  recorded_status
    (set_manifest
       (update_processed_manifest (strftime e (now w)) (manifest_blob w)
          device_id date st) w) d dt
  = if decide ((d, dt) = (device_id, date)) then Some st
    else recorded_status w d dt.
Proof.
  unfold recorded_status. simpl. rewrite record_of_update.
  destruct (decide _); [done|]. by destruct (manifest_blob w).
Qed.

(** A folder that raised: the export call was made, nothing was written. *)
Lemma raised_progress (device_id date : string) (w w' : world) :
  manifest_blob w' = manifest_blob w →
  results w' = results w →
  exports w' = exports w ++ [(device_id, date)] →
  progress [device_id] w w' [] [(device_id, date)].
Proof.
  intros Hm Hr He. split; [done|]. split; [by rewrite Hr, app_nil_r|].
  split; [done|]. split; [|split; [simpl; lia|]].
  - constructor; [simpl; left | done].
  - intros d dt. unfold recorded_status. by rewrite Hm.
Qed.

(** Writing and reporting the outcome of a folder, from a world in which
    nothing but the clock, the bucket and the export log moved. *)
Lemma report_progress (device_id date st rs : string) (err : option string)
    (w w1 w' : world) (r : result unit) :
  manifest_blob w1 = manifest_blob w →
  results w1 = results w →
  exports w1 = exports w ++ [(device_id, date)] →
  (write_status e device_id date st ;;;
   act (append_result
          {| item_device_id := device_id; item_date := date;
             item_status := rs; item_error := err |})) w1 = (r, w') →
  match r with
  | Ok _ => progress [device_id] w w' [(device_id, date)] []
  | Raise _ =>
      manifest_blob w' = manifest_blob w ∧ results w' = results w
      ∧ exports w' = exports w ++ [(device_id, date)]
  end.
Proof.
  intros Hm Hr He Hrep. apply report_inv in Hrep.
  destruct r as [[]|ex]; destruct Hrep as [_ ->]; [|done].
  split; [by rewrite app_nil_r|]. split.
  - simpl. by rewrite Hr, fmap_app.
  - split; [|split; [done|split; [simpl; lia|]]].
    + constructor; [|done]. split; [simpl; left|].
      change (is_Some (recorded_status
                (set_manifest
                   (update_processed_manifest (strftime e (now w1)) (manifest_blob w1)
                      device_id date st) w1) device_id date)).
      rewrite recorded_status_set, decide_True by done. by eexists.
    + intros d dt H.
      change (is_Some (recorded_status
                (set_manifest
                   (update_processed_manifest (strftime e (now w1)) (manifest_blob w1)
                      device_id date st) w1) d dt)).
      rewrite recorded_status_set. destruct (decide _); [by eexists|].
      unfold recorded_status in *. by rewrite Hm.
Qed.

Lemma unpack_progress (device_id date : string) (w w1 w' : world)
    (r : result unit) :
  manifest_blob w1 = manifest_blob w →
  results w1 = results w →
  exports w1 = exports w ++ [(device_id, date)] →
  unpack e device_id date w1 = (r, w') →
  match r with
  | Ok _ => progress [device_id] w w' [(device_id, date)] []
  | Raise _ =>
      manifest_blob w' = manifest_blob w ∧ results w' = results w
      ∧ exports w' = exports w ++ [(device_id, date)]
  end.
Proof.
  intros Hm Hr He. unfold unpack, try_except. unfold bind at 1.
  destruct (process_zip_file_keeps e
              (device_id +:+ "/" +:+ date +:+ "/annotations.zip") w1)
    as (Hm1 & _ & Hr1 & He1).
  destruct (process_zip_file e _ w1) as [[[]|zip_error] w2]; simpl in Hm1, Hr1, He1.
  - destruct (report_cases e device_id date "completed"
                {| item_device_id := device_id; item_date := date;
                   item_status := "success"; item_error := None |} w2)
      as [(ex & Hio & Hrep)|[Hio Hrep]].
    + rewrite Hrep. apply report_progress; congruence.
    + pose proof (report_progress device_id date "completed" "success" None
                    w w2 _ (Ok tt) ltac:(congruence) ltac:(congruence)
                    ltac:(congruence) Hrep) as H.
      rewrite Hrep. by intros [= <- <-].
  - apply report_progress; congruence.
Qed.

Lemma wait_for_zip_progress (device_id date : string) (fuel : nat)
    (start_time : Z) (w0 w w' : world) (r : result unit) :
  manifest_blob w = manifest_blob w0 →
  results w = results w0 →
  exports w = exports w0 ++ [(device_id, date)] →
  wait_for_zip fuel e device_id date start_time w = Some (r, w') →
  match r with
  | Ok _ => progress [device_id] w0 w' [(device_id, date)] []
  | Raise _ =>
      manifest_blob w' = manifest_blob w0 ∧ results w' = results w0
      ∧ exports w' = exports w0 ++ [(device_id, date)]
  end.
Proof.
  revert w. induction fuel as [|fuel IH]; intros w Hm Hr He; simpl.
  - destruct (decide _); [done|]. intros [= H].
    exact (report_progress _ _ _ _ _ w0 w _ _ Hm Hr He H).
  - destruct (decide _);
      [|intros [= H]; exact (report_progress _ _ _ _ _ w0 w _ _ Hm Hr He H)].
    destruct (zip_exists e _ (now w)) as [[|]|ex].
    + intros [= H]. exact (unpack_progress _ _ w0 w _ _ Hm Hr He H).
    + by apply IH.
    + by intros [= <- <-].
Qed.

Lemma process_candidate_progress (device_id date : string) (w w' : world)
    (r : result unit) :
  process_candidate e device_id date w = Some (r, w') →
  match r with
  | Ok _ => progress [device_id] w w' [(device_id, date)] []
  | Raise _ => progress [device_id] w w' [] [(device_id, date)]
  end.
Proof.
  unfold process_candidate.
  destruct (export_and_wait e device_id date w) as [[r1 w1]|] eqn:Hrun; [|done].
  assert (H1 : match r1 with
               | Ok _ => progress [device_id] w w1 [(device_id, date)] []
               | Raise _ =>
                   manifest_blob w1 = manifest_blob w ∧ results w1 = results w
                   ∧ exports w1 = exports w ++ [(device_id, date)]
               end).
  { unfold export_and_wait in Hrun.
    destruct (export_annotations e device_id date) as [[|]|ex].
    - by apply (wait_for_zip_progress _ _ _ _ w) in Hrun.
    - injection Hrun as H.
      exact (report_progress _ _ _ _ _ w (log_export device_id date w) _ _
               eq_refl eq_refl eq_refl H).
    - by injection Hrun as <- <-. }
  destruct r1 as [[]|ex0].
  - intros [= <- <-]. by apply progress_sleep.
  - destruct H1 as (Hm & Hr & He).
    unfold folder_error. unfold bind at 1.
    destruct ((write_status e device_id date "error" ;;; act (append_result _)) w1)
      as [r2 w2] eqn:Hrep.
    apply (report_progress _ _ _ _ _ w w1) in Hrep; [|done..].
    destruct r2 as [[]|ex2]; intros [= <- <-].
    + by apply progress_sleep.
    + destruct Hrep as (Hm2 & Hr2 & He2). by apply raised_progress.
Qed.

Lemma scan_dates_progress (processed_folders : manifest) (device_id : string)
    (dates : list string) (w w' : world) (r : result unit) :
  scan_dates e processed_folders device_id dates w = Some (r, w') →
  ∃ new last, progress [device_id] w w' new last ∧ (is_ok r = true → last = []).
Proof.
  revert w. induction dates as [|date rest IH]; intros w; simpl.
  - intros [= <- <-]. exists [], []. split; [apply progress_refl | done].
  - destruct (scan_date e processed_folders device_id date w) as [[r1 w1]|] eqn:Hd;
      [|done].
    assert (H1 : match r1 with
                 | Ok _ => ∃ new1, progress [device_id] w w1 new1 []
                 | Raise _ => progress [device_id] w w1 [] [(device_id, date)]
                 end).
    { unfold scan_date in Hd.
      destruct (already_completed _ _ _);
        [injection Hd as <- <-; exists []; apply progress_refl|].
      destruct (_ && _).
      - apply process_candidate_progress in Hd.
        destruct r1 as [[]|ex]; [by eexists | done].
      - injection Hd as <- <-. exists []. apply progress_refl. }
    destruct r1 as [[]|ex].
    + intros Hrest. destruct (IH _ Hrest) as (new2 & last & H2 & Hlast).
      destruct H1 as [new1 H1]. exists (new1 ++ new2), last.
      split; [by eapply progress_trans | done].
    + intros [= <- <-]. exists [], [(device_id, date)]. by split.
Qed.

Lemma scan_devices_progress (processed_folders : manifest) (devices : list string)
    (w w' : world) (r : result unit) :
  scan_devices e processed_folders devices w = Some (r, w') →
  ∃ new last, progress devices w w' new last ∧ (is_ok r = true → last = []).
Proof.
  revert w. induction devices as [|d rest IH]; intros w; simpl.
  - intros [= <- <-]. exists [], []. split; [apply progress_refl | done].
  - destruct (date_folders e w d) as [dates|ex];
      [|intros [= <- <-]; exists [], []; split; [apply progress_refl | done]].
    destruct (scan_dates e processed_folders d dates w) as [[r1 w1]|] eqn:Hd; [|done].
    destruct (scan_dates_progress _ _ _ _ _ _ Hd) as (new1 & last1 & H1 & Hl1).
    assert (Hd1 : progress (d :: rest) w w1 new1 last1).
    { eapply progress_devices; [|exact H1]. intros x Hx.
      apply list_elem_of_singleton in Hx as ->. left. }
    destruct r1 as [[]|ex].
    + intros Hrest. destruct (IH _ Hrest) as (new2 & last & H2 & Hlast).
      exists (new1 ++ new2), last. split; [|done].
      rewrite (Hl1 eq_refl) in Hd1. eapply progress_trans; [exact Hd1|].
      eapply progress_devices; [|exact H2]. intros x Hx. by right.
    + intros [= <- <-]. exists new1, last1. by split.
Qed.

End download_run_facts.

(** X14. A whole invocation of the export function accounts for its
    export calls: the calls made are for devices 1, 2 and 3 only; the
    elements added to [results] are, in order, one per call and about the
    folder of that call, and each such folder has a record in the manifest
    afterwards; no earlier record is lost. The one call that can go without
    result and record is the last one of a run that answers 500, when the
    manifest writes of that folder raised; a completed answer has no such
    call and carries exactly these results. *)
Theorem cvat_download_accounts (e : Download.env) (w w' : Download.world)
    (resp : Download.response) :
  Download.cvat_download e w = Some (resp, w') →
  ∃ new last,
    Download.exports w' = Download.exports w ++ new ++ last
    ∧ item_key <$> Download.results w' = (item_key <$> Download.results w) ++ new
    ∧ Forall (λ k, k.1 ∈ ["1"; "2"; "3"]
                   ∧ is_Some (recorded_status w' k.1 k.2)) new
    ∧ Forall (λ k, k.1 ∈ ["1"; "2"; "3"]) last
    ∧ length last ≤ 1
    ∧ (∀ d dt, is_Some (recorded_status w d dt) → is_Some (recorded_status w' d dt))
    ∧ (∀ items, resp = Download.Completed items →
                items = Download.results w' ∧ last = []).
Proof.
  unfold Download.cvat_download.
  assert (Hnone : progress ["1"; "2"; "3"] w w [] []) by apply progress_refl.
  destruct (Download.new_client e) as [[]|ex].
  2:{ intros [= <- <-]. exists [], [].
      destruct Hnone as (? & ? & ? & ? & ? & ?). done. }
  assert (Hload : progress ["1"; "2"; "3"] w (Download.load_processed_manifest e w).2
                    [] []).
  { unfold Download.load_processed_manifest.
    destruct (Download.manifest_load e); [|exact Hnone].
    destruct (Download.manifest_blob w) as [m|] eqn:Hm; simpl; [exact Hnone|].
    split; [by rewrite !app_nil_r|]. split; [by rewrite app_nil_r|].
    split; [done|]. split; [done|]. split; [simpl; lia|].
    intros d dt [x Hx]. unfold recorded_status in Hx.
    by rewrite Hm in Hx. }
  destruct (Download.load_processed_manifest e w) as [[processed_folders|ex] w1].
  2:{ intros [= <- <-]. exists [], [].
      destruct Hload as (? & ? & ? & ? & ? & ?). done. }
  simpl in Hload.
  destruct (Download.scan_devices e processed_folders ["1"; "2"; "3"] w1)
    as [[r w2]|] eqn:Hscan; [|done].
  destruct (scan_devices_progress e _ _ _ _ _ Hscan) as (new & last & Hnew & Hlast).
  pose proof (progress_trans _ _ _ _ _ _ _ Hload Hnew) as (He & Hr & Hf & Hl & Hn & Hm).
  destruct r as [[]|ex]; intros [= <- <-]; exists new, last;
    (split; [done|]; split; [done|]; split; [done|]; split; [done|];
     split; [done|]; split; [done|]).
  - intros items [= <-]. split; [done | by apply Hlast].
  - by intros items.
Qed.

(** The run over the two devices in which the storage refuses the manifest
    writes of device 3: the folder of device 1 is accounted for, the call
    for the folder of device 3 is the last one. *)
Lemma cvat_download_accounts_witness :
  let e :=
    {| Download.storage := Download.object_storage false;
       Download.new_client := Py.Ok tt;
       Download.export_annotations := λ _ _, Py.Ok false;
       Download.zip_exists := λ _ _, Py.Ok false;
       Download.archive := λ _, Py.Ok [];
       Download.strftime := λ t, "t+" +:+ Py.str_int t;
       Download.manifest_load := Py.Ok tt;
       Download.manifest_io := λ device_id _ _ _,
         if bool_decide (device_id = "3")
         then Py.Raise (Py.Exception "503 Service Unavailable")
         else Py.Ok tt |} in
  ∃ w' new last,
    Download.cvat_download e Scenario.two_device_world
    = Some (Download.GlobalError "503 Service Unavailable", w')
    ∧ Download.exports w' = [("1", "2025-1-4"); ("3", "2025-1-4")]
    ∧ Download.exports w' = Download.exports Scenario.two_device_world ++ new ++ last
    ∧ item_key <$> Download.results w'
      = (item_key <$> Download.results Scenario.two_device_world) ++ new
    ∧ Forall (λ k, k.1 ∈ ["1"; "2"; "3"]
                   ∧ is_Some (recorded_status w' k.1 k.2)) new
    ∧ length last ≤ 1.
Proof.
  intros e.
  destruct (Download.cvat_download e Scenario.two_device_world) as [[resp w']|] eqn:Hrun;
    [|vm_compute in Hrun; discriminate Hrun].
  destruct (cvat_download_accounts e Scenario.two_device_world w' resp Hrun)
    as (new & last & He & Hr & Hf & _ & Hn & _).
  exists w', new, last.
  assert (Hresp : resp = Download.GlobalError "503 Service Unavailable"
                  ∧ Download.exports w' = [("1", "2025-1-4"); ("3", "2025-1-4")]).
  { clear He Hr Hf Hn. vm_compute in Hrun. injection Hrun as <- <-.
    split; reflexivity. }
  destruct Hresp as [-> Hexp].
  split; [reflexivity|]. split; [exact Hexp|]. split; [exact He|].
  split; [exact Hr|]. split; [exact Hf | exact Hn].
Defined.

(** ** Dispatch: the instance that is created *)
Section dispatch_instance_facts.
Import Dispatch.

Variable b : Gcs.bucket.
Variable yesterday : string.




End dispatch_instance_facts.


(** ** Upload to CVAT: which files are taken *)
Section upload_glob_facts.
Import PyStr PyText CvatUpload.

Lemma match_classes_lower (pat : list (list ascii * ascii)) (s : string) :
  Forall (λ p, ∀ c, bool_decide (c ∈ p.1) = bool_decide (lower_ascii c = p.2)) pat →
  match_classes (pat.*1) s = bool_decide (lower s = String.string_of_list_ascii (pat.*2)).
Proof.
  intros Hpat. revert s. induction Hpat as [|[cl l] pat Hc _ IH]; intros s.
  - by destruct s.
  - destruct s as [|c r]; [done|].
    cbn [match_classes fmap list_fmap fst snd lower String.string_of_list_ascii].
    rewrite Hc, IH. cbn [fst snd].
    destruct (decide (lower_ascii c = l)) as [->|Hne].
    + rewrite (bool_decide_eq_true_2 (l = l)) by done. cbn [andb].
      apply bool_decide_ext. split; [by intros -> | by intros [= ->]].
    + rewrite (bool_decide_eq_false_2 (lower_ascii c = l)) by done. cbn [andb].
      symmetry. apply bool_decide_eq_false_2. by intros [= ? _].
Qed.

Lemma class_lower (c : ascii) :
  Forall (λ p : list ascii * ascii,
            bool_decide (c ∈ p.1) = bool_decide (lower_ascii c = p.2))
    [ (["."], "."); (["j"; "J"], "j"); (["p"; "P"], "p"); (["g"; "G"], "g");
      (["e"; "E"], "e"); (["n"; "N"], "n") ]%char.
Proof.
  destruct c as [[] [] [] [] [] [] [] []];
    repeat (apply Forall_cons_2; [vm_compute; reflexivity|]); apply Forall_nil_2.
Qed.

Lemma fnmatch_endswith (classes : list (list ascii)) (lit name : string) :
  (∀ s, match_classes classes s = bool_decide (lower s = lit)) →
  fnmatch classes name = endswith (lower name) lit.
Proof.
  intros Hm. induction name as [|c r IH]; simpl.
  - rewrite Hm. simpl. rewrite orb_false_r.
    by destruct (decide ("" = lit)); [rewrite bool_decide_eq_true_2
                                    | rewrite bool_decide_eq_false_2].
  - rewrite Hm, IH. simpl.
    by destruct (decide (String (lower_ascii c) (lower r) = lit));
      [rewrite bool_decide_eq_true_2 | rewrite bool_decide_eq_false_2].
Qed.

(** A pattern of plain characters is case-sensitive. *)
Lemma match_classes_exact (lit : list ascii) (s : string) :
  match_classes ((λ c, [c]) <$> lit) s
  = bool_decide (s = String.string_of_list_ascii lit).
Proof.
  revert s. induction lit as [|l lit IH]; intros s.
  - by destruct s.
  - destruct s as [|c r]; [done|].
    cbn [match_classes fmap list_fmap String.string_of_list_ascii].
    rewrite IH.
    destruct (decide (c = l)) as [->|Hne].
    + rewrite (bool_decide_eq_true_2 (l ∈ [l])) by left. cbn [andb].
      apply bool_decide_ext. split; [by intros -> | by intros [= ->]].
    + rewrite (bool_decide_eq_false_2 (c ∈ [l]))
        by (by intros ?%list_elem_of_singleton). cbn [andb].
      symmetry. apply bool_decide_eq_false_2. by intros [= ? _].
Qed.

Lemma fnmatch_endswith_exact (classes : list (list ascii)) (lit name : string) :
  (∀ s, match_classes classes s = bool_decide (s = lit)) →
  fnmatch classes name = endswith name lit.
Proof.
  intros Hm. induction name as [|c r IH]; simpl.
  - rewrite Hm. simpl. rewrite orb_false_r.
    by destruct (decide ("" = lit)); [rewrite bool_decide_eq_true_2
                                    | rewrite bool_decide_eq_false_2].
  - rewrite Hm, IH. simpl.
    by destruct (decide (String c r = lit));
      [rewrite bool_decide_eq_true_2 | rewrite bool_decide_eq_false_2].
Qed.

Lemma fnmatch_JPG (name : string) : fnmatch JPG name = endswith (lower name) ".jpg".
Proof.
  apply fnmatch_endswith. intros s.
  apply (match_classes_lower
           [ (["."], "."); (["j"; "J"], "j"); (["p"; "P"], "p"); (["g"; "G"], "g") ]%char).
  repeat (apply Forall_cons_2; [intros c|]); [..|apply Forall_nil_2];
    pose proof (class_lower c) as H; rewrite Forall_forall in H;
    apply (H (_, _)); compute_done.
Qed.

Lemma fnmatch_JPEG (name : string) : fnmatch JPEG name = endswith (lower name) ".jpeg".
Proof.
  apply fnmatch_endswith. intros s.
  apply (match_classes_lower
           [ (["."], "."); (["j"; "J"], "j"); (["p"; "P"], "p"); (["e"; "E"], "e");
             (["g"; "G"], "g") ]%char).
  repeat (apply Forall_cons_2; [intros c|]); [..|apply Forall_nil_2];
    pose proof (class_lower c) as H; rewrite Forall_forall in H;
    apply (H (_, _)); compute_done.
Qed.

Lemma fnmatch_PNG (name : string) : fnmatch PNG name = endswith (lower name) ".png".
Proof.
  apply fnmatch_endswith. intros s.
  apply (match_classes_lower
           [ (["."], "."); (["p"; "P"], "p"); (["n"; "N"], "n"); (["g"; "G"], "g") ]%char).
  repeat (apply Forall_cons_2; [intros c|]); [..|apply Forall_nil_2];
    pose proof (class_lower c) as H; rewrite Forall_forall in H;
    apply (H (_, _)); compute_done.
Qed.

Lemma fnmatch_TXT (name : string) : fnmatch TXT name = endswith name ".txt".
Proof.
  apply fnmatch_endswith_exact. intros s.
  apply (match_classes_exact [".";"t";"x";"t"]%char).
Qed.

(** The upload takes the names that end, in any case, with one of three
    of the eleven formats. *)
Lemma uploadable_spec (name : string) :
  uploadable name = existsb (endswith (lower name)) [".jpg"; ".jpeg"; ".png"].
Proof.
  unfold uploadable. rewrite fnmatch_JPG, fnmatch_JPEG, fnmatch_PNG. simpl.
  by rewrite orb_false_r, orb_assoc.
Qed.

Lemma uploadable_listed (name : string) :
  uploadable name = true → InferenceRun.listed name = true.
Proof.
  rewrite uploadable_spec. unfold InferenceRun.listed.
  rewrite !existsb_exists. intros (fmt & Hin & Hend). exists fmt.
  split; [|done]. apply list_elem_of_In. apply list_elem_of_In in Hin.
  revert Hin. rewrite !elem_of_cons. unfold Inference.IMG_FORMATS.
  intros [->|[->|[->|Hin]]]; [compute_done..|by inversion Hin].
Qed.

(** The other formats the dispatch accepts are not taken. *)
Lemma uploadable_extension (name : string) :
  uploadable name = true → Dispatch.extension name ∈ ["jpg"; "jpeg"; "png"].
Proof.
  rewrite uploadable_spec, existsb_exists. intros (fmt & Hin & Hend).
  apply endswith_spec in Hend as [pre Hpre]. unfold Dispatch.extension.
  rewrite Hpre. apply list_elem_of_In in Hin. revert Hin.
  rewrite !elem_of_cons. intros [->|[->|[->|Hin]]]; [..|by inversion Hin].
  - change (pre +:+ ".jpg") with (pre +:+ String "." "jpg").
    rewrite last_item_split_app. compute_done.
  - change (pre +:+ ".jpeg") with (pre +:+ String "." "jpeg").
    rewrite last_item_split_app. compute_done.
  - change (pre +:+ ".png") with (pre +:+ String "." "png").
    rewrite last_item_split_app. compute_done.
Qed.

Lemma elem_of_glob (classes : list (list ascii)) (dir : gset string) (name : string) :
  name ∈ glob classes dir ↔ name ∈ dir ∧ fnmatch classes name = true.
Proof. unfold glob. rewrite elem_of_filter. tauto. Qed.

Lemma elem_of_glob_images (dir : gset string) (name : string) :
  name ∈ ⋃ glob_all [JPG; JPEG; PNG] dir ↔ name ∈ dir ∧ uploadable name = true.
Proof.
  unfold glob_all, uploadable. simpl.
  rewrite !elem_of_union, !elem_of_glob, !orb_true_iff, elem_of_empty. tauto.
Qed.

Lemma elem_of_glob_images' (dir : gset string) (name : string) :
  name ∈ ⋃ glob_all [PNG; JPG; JPEG] dir ↔ name ∈ dir ∧ uploadable name = true.
Proof.
  unfold glob_all, uploadable. simpl.
  rewrite !elem_of_union, !elem_of_glob, !orb_true_iff, elem_of_empty. tauto.
Qed.

Lemma count_zero {A} `{Countable A} (found : list (gset A)) :
  count found = 0%nat ↔ ⋃ found = ∅.
Proof.
  induction found as [|X l IH]; simpl; [done|].
  rewrite empty_union_L, <- IH, Nat.eq_add_0.
  by rewrite size_empty_iff, leibniz_equiv_iff.
Qed.

End upload_glob_facts.

(** ** Upload to CVAT: the steps of one upload *)
Section upload_step_facts.
Import PyStr PyText CvatUpload.

Variable pf : platform.

Lemma polled_S (task_id : Cvat.json) (interval : Z) (n : nat) (w : world) :
  polled task_id interval (S n) w
  = polled task_id interval n
      (add_sleep interval (count_poll (send (GetStatus task_id) w))).
Proof. unfold polled. by rewrite Nat.iter_succ_r. Qed.

Lemma polled_fields (task_id : Cvat.json) (interval : Z) (n : nat) (w : world) :
  temp_dir (polled task_id interval n w) = temp_dir w
  ∧ temp_images (polled task_id interval n w) = temp_images w
  ∧ images_zip (polled task_id interval n w) = images_zip w
  ∧ upload_zip (polled task_id interval n w) = upload_zip w
  ∧ sent (polled task_id interval n w) = sent w ++ replicate n (GetStatus task_id)
  ∧ polls (polled task_id interval n w) = (polls w + n)%nat
  ∧ slept (polled task_id interval n w) = (slept w + interval * Z.of_nat n)%Z
  ∧ uploads (polled task_id interval n w) = uploads w.
Proof.
  induction n as [|n (H1 & H2 & H3 & H4 & H5 & H6 & H7 & H8)].
  - simpl. rewrite app_nil_r. repeat split; try done; lia.
  - change (polled task_id interval (S n) w)
      with (add_sleep interval
              (count_poll (send (GetStatus task_id) (polled task_id interval n w)))).
    simpl. rewrite H1, H2, H3, H4, H5, H6, H7, H8.
    repeat split; try done; try lia.
    rewrite <- app_assoc. f_equal.
    change (replicate n (GetStatus task_id) ++ replicate 1 (GetStatus task_id)
            = replicate (S n) (GetStatus task_id)).
    rewrite <- replicate_add. f_equal. lia.
Qed.

(** The status answers that end a waiting loop. *)
Lemma pending_dec (a : status_answer) :
  pending a
  ∨ status_status a ≠ 200%Z
  ∨ status_status a = 200%Z ∧ state a = Some "Failed"
  ∨ status_status a = 200%Z ∧ state a = Some "Finished".
Proof.
  unfold pending. destruct (decide (status_status a = 200%Z)); [|tauto].
  destruct (decide (state a = Some "Failed")); [tauto|].
  destruct (decide (state a = Some "Finished")); tauto.
Qed.

Lemma get_task_status_pending (task_id : Cvat.json) (w : world) :
  pending (status_response pf (polls w)) →
  ∃ status, _get_task_status pf task_id w
            = Some (Return status, count_poll (send (GetStatus task_id) w))
            ∧ status ≠ "Failed" ∧ status ≠ "Finished".
Proof.
  intros (Hs & Hf & Hd). unfold _get_task_status. cbv zeta.
  rewrite Hs. simpl. eexists. split; [done|].
  destruct (state (status_response pf (polls w))) as [st|]; simpl; [|done].
  split; congruence.
Qed.

(** While the answers are pending the loop goes on. *)
Lemma wait_finished_pending (fuel n : nat) (task_id : Cvat.json) (interval : Z)
    (failed : site) (w : world) :
  (∀ i, (i < n)%nat → pending (status_response pf (polls w + i))) →
  wait_finished (n + fuel) pf task_id interval failed w
  = wait_finished fuel pf task_id interval failed (polled task_id interval n w).
Proof.
  revert w. induction n as [|n IH]; intros w Hp; [done|].
  rewrite polled_S. rewrite <- IH.
  - change (S n + fuel)%nat with (S (n + fuel)).
    cbn [wait_finished]. unfold bind at 1.
    destruct (get_task_status_pending task_id w) as (status & -> & Hf & Hd).
    { specialize (Hp 0%nat). rewrite Nat.add_0_r in Hp. apply Hp. lia. }
    rewrite !bool_decide_eq_false_2 by done. reflexivity.
  - intros i Hi.
    change (polls (add_sleep interval (count_poll (send (GetStatus task_id) w))))
      with (S (polls w)).
    replace (S (polls w) + i)%nat with (polls w + S i)%nat by lia.
    apply Hp. lia.
Qed.


(** The first answer that is not pending decides. *)
Lemma wait_finished_terminal (fuel n : nat) (task_id : Cvat.json) (interval : Z)
    (failed : site) (w : world) :
  (∀ i, (i < n)%nat → pending (status_response pf (polls w + i))) →
  let a := status_response pf (polls w + n) in
  let w' := count_poll (send (GetStatus task_id) (polled task_id interval n w)) in
  (status_status a ≠ 200%Z →
   wait_finished (n + S fuel) pf task_id interval failed w
   = Some (Raise (Exception (FailedToGetTaskStatus (status_status a))), w'))
  ∧ (status_status a = 200%Z → state a = Some "Failed" →
     wait_finished (n + S fuel) pf task_id interval failed w
     = Some (Raise (Exception failed), w'))
  ∧ (status_status a = 200%Z → state a = Some "Finished" →
     wait_finished (n + S fuel) pf task_id interval failed w
     = Some (Return tt, w')).
Proof.
  intros Hp a w'. rewrite (wait_finished_pending _ _ _ _ _ _ Hp).
  cbn [wait_finished]. unfold bind, _get_task_status. cbv zeta.
  destruct (polled_fields task_id interval n w) as (_ & _ & _ & _ & _ & -> & _).
  fold a. fold w'. split; [|split].
  - intros Hs. apply Z.eqb_neq in Hs. by rewrite Hs.
  - intros Hs Hst. apply Z.eqb_eq in Hs. by rewrite Hs, Hst.
  - intros Hs Hst. apply Z.eqb_eq in Hs. by rewrite Hs, Hst.
Qed.

(** A loop that has ended has seen pending answers and then one that is
    not. *)
Lemma wait_finished_inv (fuel : nat) (task_id : Cvat.json) (interval : Z)
    (failed : site) (w : world) (r : outcome unit) (w' : world) :
  wait_finished fuel pf task_id interval failed w = Some (r, w') →
  ∃ n, (n < fuel)%nat
    ∧ (∀ i, (i < n)%nat → pending (status_response pf (polls w + i)))
    ∧ w' = count_poll (send (GetStatus task_id) (polled task_id interval n w))
    ∧ let a := status_response pf (polls w + n) in
      (status_status a ≠ 200%Z
       ∧ r = Raise (Exception (FailedToGetTaskStatus (status_status a)))
       ∨ status_status a = 200%Z ∧ state a = Some "Failed"
         ∧ r = Raise (Exception failed)
       ∨ status_status a = 200%Z ∧ state a = Some "Finished" ∧ r = Return tt).
Proof.
  revert w. induction fuel as [|fuel IH]; intros w; [done|].
  destruct (pending_dec (status_response pf (polls w))) as [Hp|Hterm].
  - assert (Hp1 : ∀ i, (i < 1)%nat → pending (status_response pf (polls w + i))).
    { intros i Hi. replace i with 0%nat by lia. by rewrite Nat.add_0_r. }
    change (S fuel) with (1 + fuel)%nat.
    rewrite (wait_finished_pending _ _ _ _ _ _ Hp1). intros Hrun.
    destruct (IH _ Hrun) as (n & Hn & Hpn & -> & Hr).
    destruct (polled_fields task_id interval 1 w) as (_ & _ & _ & _ & _ & Hpolls & _).
    rewrite Hpolls in Hpn, Hr.
    exists (S n). split; [lia|]. split; [|split].
    + intros i Hi. destruct i as [|i]; [by rewrite Nat.add_0_r|].
      replace (polls w + S i)%nat with (polls w + 1 + i)%nat by lia.
      apply Hpn. lia.
    + rewrite (polled_S _ _ n w). reflexivity.
    + replace (polls w + S n)%nat with (polls w + 1 + n)%nat by lia. exact Hr.
  - assert (Hp0 : ∀ i, (i < 0)%nat → pending (status_response pf (polls w + i)))
      by (intros i Hi; lia).
    destruct (wait_finished_terminal fuel 0 task_id interval failed w Hp0)
      as (H1 & H2 & H3).
    rewrite Nat.add_0_r in H1, H2, H3. change (0 + S fuel)%nat with (S fuel) in *.
    intros Hrun. exists 0%nat. rewrite Nat.add_0_r. split; [lia|].
    split; [intros i Hi; lia|].
    destruct Hterm as [Hs|[[Hs Hst]|[Hs Hst]]].
    + rewrite (H1 Hs) in Hrun. injection Hrun as <- <-. split; [done|]. by left.
    + rewrite (H2 Hs Hst) in Hrun. injection Hrun as <- <-. split; [done|].
      right. by left.
    + rewrite (H3 Hs Hst) in Hrun. injection Hrun as <- <-. split; [done|].
      right. by right.
Qed.

Lemma set_temp_dir_same (w : world) : set_temp_dir (temp_dir w) w = w.
Proof. by destruct w. Qed.

Lemma set_temp_dir_twice (a b : option tempdir) (w : world) :
  set_temp_dir a (set_temp_dir b w) = set_temp_dir a w.
Proof. done. Qed.

(** [_get_device_data] touches the temporary directory only; when it
    returns, the folder had images of the three formats and labels, and the
    directory holds them. *)
Lemma get_device_data_run (mnt : mount) (device_id date : string) (w : world) :
  ∃ r td,
    _get_device_data mnt device_id date w = Some (r, set_temp_dir td w)
    ∧ (∀ u, r = Return u →
       ∃ f imgs annos,
         mnt device_id date = Some f ∧ images f = Some imgs
         ∧ auto_annotations f = Some annos
         ∧ ⋃ glob_all [JPG; JPEG; PNG] imgs ≠ ∅
         ∧ glob TXT annos ≠ ∅
         ∧ let t0 := default {| images_dest := ∅; annotations_dest := ∅ |}
                       (temp_dir w) in
           td = Some {| images_dest := images_dest t0 ∪ ⋃ glob_all [JPG; JPEG; PNG] imgs;
                        annotations_dest := annotations_dest t0 ∪ glob TXT annos |})
    ∧ (∀ f imgs, mnt device_id date = Some f → images f = Some imgs →
                 ⋃ glob_all [JPG; JPEG; PNG] imgs = ∅ →
                 r = Raise (Exception NoImagesFound)).
Proof.
  unfold _get_device_data.
  destruct (mnt device_id date) as [f|] eqn:Hf.
  2:{ exists (Raise (Exception SourceDirectoryNotFound)), (temp_dir w).
      rewrite set_temp_dir_same. by repeat split. }
  destruct (images f) as [imgs|] eqn:Hi.
  2:{ exists (Raise (Exception ImagesDirectoryNotFound)), (temp_dir w).
      rewrite set_temp_dir_same. split; [done|]. split; [done|].
      intros f' imgs' Hf' Hi' Hnil. by simplify_eq. }
  unfold bind, act. cbv zeta.
  destruct (count (glob_all [JPG; JPEG; PNG] imgs) =? 0)%nat eqn:Hc.
  { eexists _, _. split; [reflexivity|]. split; [done|].
    intros f' imgs' Hf' Hi' Hnil. by simplify_eq. }
  apply Nat.eqb_neq in Hc. rewrite count_zero in Hc.
  destruct (auto_annotations f) as [annos|] eqn:Ha.
  2:{ eexists _, _. split; [reflexivity|]. split; [done|].
      intros f' imgs' Hf' Hi' Hnil. by simplify_eq. }
  destruct (size (glob TXT annos) =? 0)%nat eqn:Hs.
  { eexists _, _. split; [reflexivity|]. split; [done|].
    intros f' imgs' Hf' Hi' Hnil. by simplify_eq. }
  apply Nat.eqb_neq in Hs.
  eexists _, _. split; [reflexivity|]. split.
  - intros _ _. exists f, imgs, annos. repeat split; try done.
    intros Hnil. apply Hs. rewrite Hnil. apply size_empty.
  - intros f' imgs' Hf' Hi' Hnil. by simplify_eq.
Qed.

Lemma create_task_run (name : string) (w : world) :
  ∃ r, _create_task pf name w = Some (r, send (PostTask name) w)
       ∧ ∀ td, r = Return td →
               create_status (create_response pf name) = 201%Z
               ∧ td = task_data (create_response pf name)
               ∧ is_Some (td !! "id") ∧ is_Some (td !! "name").
Proof.
  unfold _create_task, bind, act. cbv zeta.
  destruct (create_status (create_response pf name) =? 201)%Z eqn:Hs; simpl.
  2:{ eexists. split; [reflexivity | done]. }
  apply Z.eqb_eq in Hs.
  destruct (bool_decide (task_data (create_response pf name) = ∅)
            || bool_decide (task_data (create_response pf name) !! "id" = None))
    eqn:Hd.
  { eexists. split; [reflexivity | done]. }
  apply orb_false_iff in Hd as [_ Hid]. apply bool_decide_eq_false_1 in Hid.
  destruct (task_data (create_response pf name) !! "name") as [n|] eqn:Hn.
  2:{ eexists. split; [reflexivity | done]. }
  eexists. split; [reflexivity|]. intros td [= <-].
  split; [done|]. split; [done|]. split; [by apply not_eq_None_Some|].
  by rewrite Hn.
Qed.

Lemma prepare_image_zip_run (device_id date : string) (w : world) (t : tempdir) :
  temp_dir w = Some t → temp_images w = None →
  let zip := in_dir (device_id +:+ "/" +:+ date +:+ "/images/")
               (⋃ glob_all [PNG; JPG; JPEG] (images_dest t)) in
  ⋃ glob_all [PNG; JPG; JPEG] (images_dest t) ≠ ∅ →
  _prepare_image_zip device_id date w
  = Some (Return zip, set_images_zip (Some zip) w).
Proof.
  intros Ht Hti zip Hne.
  assert (Hc : (count (glob_all [PNG; JPG; JPEG] (images_dest t)) =? 0)%nat = false).
  { apply Nat.eqb_neq. by rewrite count_zero. }
  unfold _prepare_image_zip. cbv zeta. rewrite Ht, Hti. subst zip.
  simpl in *. rewrite Hc, (left_id_L ∅ (∪)). unfold ret. do 2 f_equal.
  destruct w. simpl in *. by subst.
Qed.

Lemma prepare_yolo_data_run (device_id date : string) (w : world) (t : tempdir) :
  temp_dir w = Some t →
  let imgs : gset (string * string) :=
    ⋃ ((λ p, rglob p device_id date t) <$> [PNG; JPG; JPEG]) in
  let zip := {| obj_train_data := ⋃ (train_files t <$> elements imgs);
                train_txt := set_map (λ img : string * string,
                                        "obj_train_data/" +:+ img.1 +:+ img.2) imgs |} in
  imgs ≠ ∅ →
  _prepare_yolo_data device_id date w
  = Some (Return zip, set_upload_zip (Some zip) w).
Proof.
  intros Ht imgs zip Hne.
  assert (Hc : (count ((λ p, rglob p device_id date t) <$> [PNG; JPG; JPEG]) =? 0)%nat
               = false).
  { apply Nat.eqb_neq. by rewrite count_zero. }
  unfold _prepare_yolo_data. cbv zeta. rewrite Ht.
  change (default _ (Some t)) with t. by rewrite Hc.
Qed.

(** What a waiting loop that has ended leaves behind. *)
Lemma wait_finished_fields (fuel : nat) (task_id : Cvat.json) (interval : Z)
    (failed : site) (w : world) (r : outcome unit) (w' : world) :
  wait_finished fuel pf task_id interval failed w = Some (r, w') →
  ∃ n, (n < fuel)%nat
    ∧ temp_dir w' = temp_dir w ∧ temp_images w' = temp_images w
    ∧ images_zip w' = images_zip w ∧ upload_zip w' = upload_zip w
    ∧ uploads w' = uploads w
    ∧ sent w' = sent w ++ replicate (S n) (GetStatus task_id)
    ∧ polls w' = (polls w + S n)%nat
    ∧ slept w' = (slept w + interval * Z.of_nat n)%Z
    ∧ (∀ i, (i < n)%nat → pending (status_response pf (polls w + i)))
    ∧ ¬ pending (status_response pf (polls w + n))
    ∧ (∀ u, r = Return u → finished_at pf (polls w) n).
Proof.
  intros Hrun. apply wait_finished_inv in Hrun as (n & Hn & Hp & -> & Hr).
  destruct (polled_fields task_id interval n w)
    as (H1 & H2 & H3 & H4 & H5 & H6 & H7 & H8).
  exists n. simpl. rewrite H1, H2, H3, H4, H5, H6, H7, H8.
  split; [done|]. do 5 (split; [done|]). split.
  { rewrite <- app_assoc. f_equal.
    change (replicate n (GetStatus task_id) ++ replicate 1 (GetStatus task_id)
            = replicate (S n) (GetStatus task_id)).
    rewrite <- replicate_add. f_equal. lia. }
  split; [lia|]. split; [done|]. split; [done|]. split.
  - intros (Hs & Hf & Hd). cbv zeta in Hr.
    destruct Hr as [[? _]|[(_ & ? & _)|(_ & ? & _)]]; done.
  - intros u ->. cbv zeta in Hr.
    destruct Hr as [[_ ?]|[(_ & _ & ?)|(Hs & Hst & _)]]; [done..|].
    by split.
Qed.

Lemma upload_images_inv (fuel : nat) (task_id : Cvat.json) (device_id date : string)
    (w : world) (t : tempdir) (r : outcome unit) (w' : world) :
  temp_dir w = Some t → temp_images w = None →
  ⋃ glob_all [PNG; JPG; JPEG] (images_dest t) ≠ ∅ →
  _upload_images fuel pf task_id device_id date w = Some (r, w') →
  let zip := in_dir (device_id +:+ "/" +:+ date +:+ "/images/")
               (⋃ glob_all [PNG; JPG; JPEG] (images_dest t)) in
  ∃ m, temp_dir w' = Some t ∧ temp_images w' = None ∧ images_zip w' = None
    ∧ upload_zip w' = upload_zip w ∧ uploads w' = uploads w
    ∧ sent w' = sent w ++ PostData task_id zip :: replicate m (GetStatus task_id)
    ∧ polls w' = (polls w + m)%nat
    ∧ slept w' = (slept w + 15 * Z.of_nat (pred m))%Z
    ∧ (∀ u, r = Return u →
            status_code (data_response pf task_id) ∈ [201; 202]%Z
            ∧ ∃ n, m = S n ∧ finished_at pf (polls w) n).
Proof.
  intros Ht Hti Hne. unfold _upload_images, bind.
  rewrite (prepare_image_zip_run device_id date w t Ht Hti Hne).
  cbv zeta.
  set (zip := in_dir (device_id +:+ "/" +:+ date +:+ "/images/")
                (⋃ glob_all [PNG; JPG; JPEG] (images_dest t))).
  intros Hrun. unfold try_finally, bind, act in Hrun.
  destruct (bool_decide (status_code (data_response pf task_id) ∈ [201; 202]%Z))
    eqn:Hs; cbn [negb] in Hrun.
  2:{ injection Hrun as <- <-. exists 0%nat. simpl.
      rewrite Nat.add_0_r, Z.add_0_r. by repeat split. }
  apply bool_decide_eq_true_1 in Hs.
  destruct (wait_finished fuel pf task_id 15 TaskProcessingFailed _)
    as [[r1 w1]|] eqn:Hwait; [|done].
  injection Hrun as <- <-.
  apply wait_finished_fields in Hwait
    as (n & _ & H1 & H2 & H3 & H4 & H5 & H6 & H7 & H8 & _ & _ & Hfin).
  exists (S n). simpl in *. rewrite H1, H2, H4, H5, H6, H7, H8.
  do 5 (split; [done|]). split; [by rewrite <- app_assoc|].
  split; [done|]. split; [done|]. intros u ->. split; [done|].
  exists n. split; [done|]. by eapply Hfin.
Qed.

Lemma upload_annotations_inv (fuel : nat) (task_id : Cvat.json) (zip : yolo_zip)
    (w : world) (r : outcome unit) (w' : world) :
  _upload_annotations fuel pf task_id zip w = Some (r, w') →
  ∃ m, temp_dir w' = temp_dir w ∧ temp_images w' = temp_images w
    ∧ images_zip w' = images_zip w ∧ upload_zip w' = upload_zip w
    ∧ uploads w' = uploads w
    ∧ sent w' = sent w ++ PutAnnotations task_id zip :: replicate m (GetStatus task_id)
    ∧ polls w' = (polls w + m)%nat
    ∧ slept w' = (slept w + 5 * Z.of_nat (pred m))%Z
    ∧ (∀ u, r = Return u →
            status_code (annotations_response pf task_id) = 200%Z ∧ m = 0%nat
            ∨ status_code (annotations_response pf task_id) = 202%Z
              ∧ ∃ n, m = S n ∧ finished_at pf (polls w) n).
Proof.
  unfold _upload_annotations, bind, act. intros Hrun.
  destruct (bool_decide (status_code (annotations_response pf task_id) ∈ [200; 202]%Z))
    eqn:Hs; cbn [negb] in Hrun.
  2:{ injection Hrun as <- <-. exists 0%nat. simpl.
      rewrite Nat.add_0_r, Z.add_0_r. by repeat split. }
  apply bool_decide_eq_true_1 in Hs.
  destruct (status_code (annotations_response pf task_id) =? 202)%Z eqn:H202.
  2:{ injection Hrun as <- <-. exists 0%nat. simpl.
      rewrite Nat.add_0_r, Z.add_0_r. do 8 (split; [done|]).
      intros _ _. left. split; [|done]. apply Z.eqb_neq in H202.
      revert Hs. rewrite !elem_of_cons. intros [?|[?|Hs]]; [done|done|by inversion Hs]. }
  apply Z.eqb_eq in H202.
  apply wait_finished_fields in Hrun
    as (n & _ & H1 & H2 & H3 & H4 & H5 & H6 & H7 & H8 & _ & _ & Hfin).
  exists (S n). simpl in *. rewrite H1, H2, H3, H4, H5, H6, H7, H8.
  do 5 (split; [done|]). split; [by rewrite <- app_assoc|].
  split; [done|]. split; [done|]. intros u ->. right. split; [done|].
  exists n. split; [done|]. by eapply Hfin.
Qed.

Lemma glob_images_taken (imgs : gset string) :
  ⋃ glob_all [JPG; JPEG; PNG] imgs = taken imgs.
Proof.
  apply set_eq. intros x. unfold taken.
  by rewrite elem_of_glob_images, elem_of_filter, (and_comm (x ∈ imgs)).
Qed.

Lemma glob_images_taken' (imgs : gset string) :
  ⋃ glob_all [PNG; JPG; JPEG] imgs = taken imgs.
Proof.
  apply set_eq. intros x. unfold taken.
  by rewrite elem_of_glob_images', elem_of_filter, (and_comm (x ∈ imgs)).
Qed.

Lemma taken_idem (imgs : gset string) : taken (taken imgs) = taken imgs.
Proof. apply set_eq. intros x. unfold taken. rewrite !elem_of_filter. tauto. Qed.

Lemma glob_txt_labels (annos : gset string) : glob TXT annos = labels annos.
Proof.
  apply set_eq. intros x. unfold labels.
  by rewrite elem_of_glob, elem_of_filter, fnmatch_TXT, (and_comm (x ∈ annos)).
Qed.

(** A label is not an image. *)
Lemma txt_not_uploadable (name : string) :
  endswith name ".txt" = true → uploadable name = false.
Proof.
  intros [pre ->]%endswith_spec. rewrite uploadable_spec.
  apply not_true_is_false. rewrite existsb_exists.
  intros (fmt & Hin & [pre' Heq]%endswith_spec).
  rewrite lower_app in Heq. change (lower ".txt") with ".txt" in Heq.
  apply (f_equal String.list_ascii_of_string) in Heq.
  rewrite !list_ascii_app in Heq.
  apply list_elem_of_In in Hin. revert Hin. rewrite !elem_of_cons.
  intros [->|[->|[->|Hin]]]; [..|by inversion Hin]; simpl in Heq.
  - change [".";"t";"x";"t"]%char with ([".";"t";"x"] ++ ["t"])%char in Heq.
    change [".";"j";"p";"g"]%char with ([".";"j";"p"] ++ ["g"])%char in Heq.
    rewrite !app_assoc in Heq. by apply app_inj_2 in Heq as [_ ?].
  - change [".";"t";"x";"t"]%char with ([".";"t";"x"] ++ ["t"])%char in Heq.
    change [".";"j";"p";"e";"g"]%char with ([".";"j";"p";"e"] ++ ["g"])%char in Heq.
    rewrite !app_assoc in Heq. by apply app_inj_2 in Heq as [_ ?].
  - change [".";"t";"x";"t"]%char with ([".";"t";"x"] ++ ["t"])%char in Heq.
    change [".";"p";"n";"g"]%char with ([".";"p";"n"] ++ ["g"])%char in Heq.
    rewrite !app_assoc in Heq. by apply app_inj_2 in Heq as [_ ?].
Qed.

(** The images found under a temporary directory that holds the taken
    images and the labels: the taken images. *)
Lemma rglob_taken (device_id date : string) (imgs annos : gset string) :
  let t := {| images_dest := taken imgs; annotations_dest := labels annos |} in
  ⋃ ((λ p, rglob p device_id date t) <$> [PNG; JPG; JPEG])
  = set_map (λ name, (device_id +:+ "/" +:+ date +:+ "/images/", name)) (taken imgs).
Proof.
  intros t. apply set_eq. intros [dir name]. simpl.
  rewrite !elem_of_union, elem_of_empty. unfold rglob.
  rewrite !elem_of_union, !elem_of_map. simpl.
  setoid_rewrite elem_of_glob. unfold taken, labels.
  setoid_rewrite elem_of_filter.
  split.
  - intros H. unfold uploadable.
    assert (Hl : ∀ p x, (endswith x ".txt" = true ∧ x ∈ annos) ∧ fnmatch p x = true →
                        p ∈ [PNG; JPG; JPEG] → False).
    { intros p x [[Hx _] Hp] Hin. apply txt_not_uploadable in Hx.
      unfold uploadable in Hx. apply orb_false_iff in Hx as [Hx HP].
      apply orb_false_iff in Hx as [HJ HE].
      revert Hin. rewrite !elem_of_cons.
      intros [->|[->|[->|Hin]]]; [congruence..|by inversion Hin]. }
    destruct H as [[H|H]|[[H|H]|[[H|H]|[]]]].
    1,3,5: destruct H as (x & Heq & Hx & _); by exists x.
    all: destruct H as (x & _ & Hx); exfalso; eapply Hl; [exact Hx | compute_done].
  - intros (x & [= -> ->] & Hu & Hin). unfold uploadable in Hu.
    apply orb_true_iff in Hu as [Hu|HP]; [apply orb_true_iff in Hu as [HJ|HE]|].
    + right. left. left. exists x. unfold uploadable. rewrite HJ. by repeat split.
    + right. right. left. left. exists x. unfold uploadable. rewrite HE.
      rewrite orb_true_r. by repeat split.
    + left. left. exists x. unfold uploadable. rewrite HP, orb_true_r. by repeat split.
Qed.

Lemma bind_inv {A B} (m : M A) (k : A → M B) (w : world) (r : outcome B) (w' : world) :
  bind m k w = Some (r, w') →
  (∃ a w1, m w = Some (Return a, w1) ∧ k a w1 = Some (r, w'))
  ∨ (∃ e, m w = Some (Raise e, w') ∧ r = Raise e).
Proof.
  unfold bind. destruct (m w) as [[[a|e] w1]|]; [eauto|..|done].
  intros [= <- <-]. eauto.
Qed.

Lemma task_id_of_inv (task : gmap string Cvat.json) (w : world)
    (r : outcome Cvat.json) (w' : world) :
  task_id_of task w = Some (r, w') →
  w' = w ∧ ∀ i, r = Return i → task !! "id" = Some i.
Proof.
  unfold task_id_of. destruct (task !! "id"); intros [= <- <-]; split; try done.
  by intros i [= ->].
Qed.

(** One call of [upload_to_cvat] from a tidy state: it never raises and
    leaves a tidy state; and what a [True] tells. *)
Lemma upload_to_cvat_inv (fuel : nat) (mnt : mount) (device_id date : string)
    (w : world) (r : outcome bool) (w' : world) :
  tidy w →
  upload_to_cvat fuel pf mnt device_id date w = Some (r, w') →
  ∃ b, r = Return b ∧ tidy w' ∧ uploads w' = uploads w ++ [(device_id, date)]
    ∧ (b = true →
       ∃ f imgs annos task_id n1 m2,
         mnt device_id date = Some f ∧ images f = Some imgs
         ∧ auto_annotations f = Some annos
         ∧ taken imgs ≠ ∅ ∧ labels annos ≠ ∅
         ∧ let name := device_id +:+ "_" +:+ date in
           let dir := device_id +:+ "/" +:+ date +:+ "/images/" in
           let t := {| images_dest := taken imgs; annotations_dest := labels annos |} in
           let found : gset (string * string) :=
             set_map (λ n, (dir, n)) (taken imgs) in
           let zip :=
             {| obj_train_data := ⋃ (train_files t <$> elements found);
                train_txt := set_map (λ img : string * string,
                                        "obj_train_data/" +:+ img.1 +:+ img.2) found |} in
           create_status (create_response pf name) = 201%Z
           ∧ task_data (create_response pf name) !! "id" = Some task_id
           ∧ is_Some (task_data (create_response pf name) !! "name")
           ∧ status_code (data_response pf task_id) ∈ [201; 202]%Z
           ∧ finished_at pf (polls w) n1
           ∧ (status_code (annotations_response pf task_id) = 200%Z ∧ m2 = 0%nat
              ∨ status_code (annotations_response pf task_id) = 202%Z
                ∧ ∃ n2, m2 = S n2 ∧ finished_at pf (polls w + S n1) n2)
           ∧ sent w' = sent w
                       ++ [PostTask name; PostData task_id (in_dir dir (taken imgs))]
                       ++ replicate (S n1) (GetStatus task_id)
                       ++ PutAnnotations task_id zip :: replicate m2 (GetStatus task_id)
           ∧ polls w' = (polls w + S n1 + m2)%nat
           ∧ slept w' = (slept w + 15 * Z.of_nat n1 + 5 * Z.of_nat (pred m2))%Z
           ∧ upload_zip w' = None).
Proof.
  intros (Htd & Hti & Hiz) Hrun. unfold upload_to_cvat in Hrun.
  apply bind_inv in Hrun as [(u0 & w0 & Hlog & Hrun)|(e & Hlog & _)]; [|done].
  unfold act in Hlog. injection Hlog as _ <-.
  unfold try_finally, try_except in Hrun.
  destruct (bind _ _ (log_upload device_id date w)) as [[rb w2]|] eqn:Hbody in Hrun;
    [|done].
  set (w0 := log_upload device_id date w) in *.
  assert (Hfacts :
    temp_images w2 = None ∧ images_zip w2 = None ∧ uploads w2 = uploads w0
    ∧ ∀ b, rb = Return b →
       b = true ∧
       ∃ f imgs annos task_id n1 m2,
         mnt device_id date = Some f ∧ images f = Some imgs
         ∧ auto_annotations f = Some annos
         ∧ taken imgs ≠ ∅ ∧ labels annos ≠ ∅
         ∧ let name := device_id +:+ "_" +:+ date in
           let dir := device_id +:+ "/" +:+ date +:+ "/images/" in
           let t := {| images_dest := taken imgs; annotations_dest := labels annos |} in
           let found : gset (string * string) :=
             set_map (λ n, (dir, n)) (taken imgs) in
           let zip :=
             {| obj_train_data := ⋃ (train_files t <$> elements found);
                train_txt := set_map (λ img : string * string,
                                        "obj_train_data/" +:+ img.1 +:+ img.2) found |} in
           create_status (create_response pf name) = 201%Z
           ∧ task_data (create_response pf name) !! "id" = Some task_id
           ∧ is_Some (task_data (create_response pf name) !! "name")
           ∧ status_code (data_response pf task_id) ∈ [201; 202]%Z
           ∧ finished_at pf (polls w0) n1
           ∧ (status_code (annotations_response pf task_id) = 200%Z ∧ m2 = 0%nat
              ∨ status_code (annotations_response pf task_id) = 202%Z
                ∧ ∃ n2, m2 = S n2 ∧ finished_at pf (polls w0 + S n1) n2)
           ∧ sent w2 = sent w0
                       ++ [PostTask name; PostData task_id (in_dir dir (taken imgs))]
                       ++ replicate (S n1) (GetStatus task_id)
                       ++ PutAnnotations task_id zip :: replicate m2 (GetStatus task_id)
           ∧ polls w2 = (polls w0 + S n1 + m2)%nat
           ∧ slept w2 = (slept w0 + 15 * Z.of_nat n1 + 5 * Z.of_nat (pred m2))%Z
           ∧ upload_zip w2 = None).
  { clear Hrun.
    assert (Hti0 : temp_images w0 = None) by done.
    assert (Hiz0 : images_zip w0 = None) by done.
    assert (Htd0 : temp_dir w0 = None) by done.
    clearbody w0.
    (* the copy *)
    apply bind_inv in Hbody as [(u1 & w1 & Hget & Hbody)|(e & Hget & ->)].
    2:{ destruct (get_device_data_run mnt device_id date w0) as (r1 & td & Heq & _).
        rewrite Heq in Hget. injection Hget as _ <-. by repeat split. }
    destruct (get_device_data_run mnt device_id date w0)
      as (r1 & td & Heq & Hret & _).
    rewrite Heq in Hget. injection Hget as -> <-.
    destruct (Hret u1 eq_refl) as (f & imgs & annos & Hf & Hi & Ha & Hne & Hla & Htd').
    cbv zeta in Htd'. rewrite Htd0 in Htd'.
    change (default ?d None) with d in Htd'.
    cbn [images_dest annotations_dest] in Htd'.
    rewrite !(left_id_L ∅ (∪)), glob_images_taken, glob_txt_labels in Htd'.
    rewrite glob_images_taken in Hne. rewrite glob_txt_labels in Hla.
    set (t := {| images_dest := taken imgs; annotations_dest := labels annos |}) in *.
    clear Heq Hret. subst td.
    (* the task *)
    apply bind_inv in Hbody as [(task & w3 & Hcreate & Hbody)|(e & Hcreate & ->)].
    2:{ destruct (create_task_run (device_id +:+ "_" +:+ date) (set_temp_dir (Some t) w0))
          as (r2 & Heq & _).
        rewrite Heq in Hcreate. injection Hcreate as _ <-. by repeat split. }
    destruct (create_task_run (device_id +:+ "_" +:+ date) (set_temp_dir (Some t) w0))
      as (r2 & Heq & Hret).
    rewrite Heq in Hcreate. injection Hcreate as -> <-.
    destruct (Hret task eq_refl) as (Hstatus & -> & Hid & Hname). clear Heq Hret.
    apply bind_inv in Hbody as [(task_id & w4 & Htid & Hbody)|(e & Htid & ->)].
    2:{ apply task_id_of_inv in Htid as [-> _]. by repeat split. }
    apply task_id_of_inv in Htid as [-> Htid]. specialize (Htid _ eq_refl).
    (* the images *)
    set (w3 := send (PostTask (device_id +:+ "_" +:+ date))
                 (set_temp_dir (Some t) w0)) in *.
    assert (Hne' : ⋃ glob_all [PNG; JPG; JPEG] (images_dest t) ≠ ∅).
    { rewrite glob_images_taken'. simpl. by rewrite taken_idem. }
    assert (Hzip : in_dir (device_id +:+ "/" +:+ date +:+ "/images/")
                     (⋃ glob_all [PNG; JPG; JPEG] (images_dest t))
                   = in_dir (device_id +:+ "/" +:+ date +:+ "/images/") (taken imgs)).
    { rewrite glob_images_taken'. simpl. by rewrite taken_idem. }
    apply bind_inv in Hbody as [(u5 & w5 & Himg & Hbody)|(e & Himg & ->)].
    2:{ apply (upload_images_inv _ _ _ _ w3 t) in Himg; [|done..].
        destruct Himg as (m & _ & ? & ? & _ & ? & _). by repeat split. }
    apply (upload_images_inv _ _ _ _ w3 t) in Himg; [|done..].
    cbv zeta in Himg. rewrite Hzip in Himg.
    destruct Himg as (m1 & Ht5 & Hti5 & Hiz5 & Huz5 & Hup5 & Hsent5 & Hpolls5
                      & Hslept5 & Hret5).
    destruct (Hret5 _ eq_refl) as (Hdata & n1 & -> & Hfin1). clear Hret5.
    (* the labels *)
    assert (Hfound : ⋃ ((λ p, rglob p device_id date t) <$> [PNG; JPG; JPEG])
                     = set_map (λ n, (device_id +:+ "/" +:+ date +:+ "/images/", n))
                         (taken imgs))
      by apply rglob_taken.
    assert (Hfne : (⋃ ((λ p, rglob p device_id date t) <$> [PNG; JPG; JPEG])
                    : gset (string * string)) ≠ ∅).
    { rewrite Hfound. intros Hnil. apply Hne. apply set_eq. intros x.
      rewrite elem_of_empty. split; [|done]. intros Hx.
      assert (Hin : (device_id +:+ "/" +:+ date +:+ "/images/", x)
                    ∈ (set_map (λ n, (device_id +:+ "/" +:+ date +:+ "/images/", n))
                         (taken imgs) : gset (string * string)))
        by (apply elem_of_map; eauto).
      rewrite Hnil in Hin. by apply elem_of_empty in Hin. }
    apply bind_inv in Hbody as [(zip & w6 & Hyolo & Hbody)|(e & Hyolo & ->)].
    2:{ rewrite (prepare_yolo_data_run device_id date w5 t Ht5 Hfne) in Hyolo. done. }
    rewrite (prepare_yolo_data_run device_id date w5 t Ht5 Hfne) in Hyolo.
    rewrite Hfound in Hyolo. injection Hyolo as <- <-.
    apply bind_inv in Hbody as [(u7 & w7 & Hanno & Hbody)|(e & Hanno & ->)].
    2:{ apply upload_annotations_inv in Hanno as (m & _ & ? & ? & _ & ? & _).
        simpl in *. repeat split; (congruence || done). }
    apply upload_annotations_inv in Hanno
      as (m2 & Ht7 & Hti7 & Hiz7 & Huz7 & Hup7 & Hsent7 & Hpolls7 & Hslept7 & Hret7).
    specialize (Hret7 _ eq_refl).
    unfold bind, act, ret in Hbody. injection Hbody as <- <-.
    simpl in *. split; [congruence|]. split; [congruence|]. split; [congruence|].
    intros b [= <-]. split; [done|].
    exists f, imgs, annos, task_id, n1, m2.
    do 5 (split; [done|]). do 4 (split; [done|]).
    split; [done|]. split.
    { rewrite Hpolls5 in Hret7. exact Hret7. }
    split.
    { rewrite Hsent7, Hsent5. simpl. rewrite <- !app_assoc. simpl. done. }
    split; [lia|]. split; [|done].
    rewrite Hslept7, Hslept5. simpl. lia. }
  destruct Hfacts as (Hti2 & Hiz2 & Hup2 & Hret).
  destruct rb as [b|e].
  - injection Hrun as <- <-. exists b. split; [done|]. split; [done|].
    split; [done|]. intros ->. destruct (Hret _ eq_refl) as [_ H]. exact H.
  - unfold bind, act, ret in Hrun. injection Hrun as <- <-. exists false.
    split; [done|]. split; [done|]. split; [done|]. done.
Qed.

(** *** The steps when they go well *)

Lemma get_device_data_ok (mnt : mount) (device_id date : string) (w : world)
    (f : folder) (imgs annos : gset string) :
  temp_dir w = None →
  mnt device_id date = Some f → images f = Some imgs →
  auto_annotations f = Some annos →
  taken imgs ≠ ∅ → labels annos ≠ ∅ →
  _get_device_data mnt device_id date w
  = Some (Return tt,
          set_temp_dir (Some {| images_dest := taken imgs;
                                annotations_dest := labels annos |}) w).
Proof.
  intros Htd Hf Hi Ha Hne Hla.
  destruct (get_device_data_run mnt device_id date w) as (r & td & Heq & Hret & _).
  rewrite Heq. unfold _get_device_data in Heq. rewrite Hf, Hi, Ha in Heq.
  unfold bind, act in Heq. cbv zeta in Heq.
  rewrite <- glob_images_taken in Hne. rewrite <- glob_txt_labels in Hla.
  assert (Hc : (count (glob_all [JPG; JPEG; PNG] imgs) =? 0)%nat = false).
  { apply Nat.eqb_neq. by rewrite count_zero. }
  assert (Hs : (size (glob TXT annos) =? 0)%nat = false).
  { apply Nat.eqb_neq. intros Hz. apply Hla.
    by apply leibniz_equiv, size_empty_iff. }
  rewrite Hc, Hs in Heq. unfold ret in Heq. injection Heq as <- Heq.
  destruct (Hret tt eq_refl) as (f' & imgs' & annos' & Hf' & Hi' & Ha' & _ & _ & ->).
  simplify_eq. cbv zeta. rewrite Htd.
  change (default ?d None) with d. cbn [images_dest annotations_dest].
  by rewrite !(left_id_L ∅ (∪)), glob_images_taken, glob_txt_labels.
Qed.

Lemma create_task_ok (name : string) (w : world) (task_id : Cvat.json) :
  create_status (create_response pf name) = 201%Z →
  task_data (create_response pf name) !! "id" = Some task_id →
  is_Some (task_data (create_response pf name) !! "name") →
  _create_task pf name w
  = Some (Return (task_data (create_response pf name)), send (PostTask name) w).
Proof.
  intros Hs Hid [n Hn]. unfold _create_task, bind, act. cbv zeta.
  rewrite Hs. cbn [Z.eqb Pos.eqb negb].
  rewrite (bool_decide_eq_false_2 (task_data (create_response pf name) = ∅)).
  2:{ intros Hnil. by rewrite Hnil in Hid. }
  rewrite (bool_decide_eq_false_2 (task_data (create_response pf name) !! "id" = None))
    by (by rewrite Hid).
  cbn [orb]. by rewrite Hn.
Qed.

(** The world in which the first waiting loop begins: the call is logged,
    the folder copied, the task created, the images packed and sent. *)
Lemma upload_to_cvat_start (fuel : nat) (mnt : mount) (device_id date : string)
    (w : world) (f : folder) (imgs annos : gset string) (task_id : Cvat.json) :
  tidy w →
  mnt device_id date = Some f → images f = Some imgs →
  auto_annotations f = Some annos →
  taken imgs ≠ ∅ → labels annos ≠ ∅ →
  let name := device_id +:+ "_" +:+ date in
  let zip := in_dir (device_id +:+ "/" +:+ date +:+ "/images/") (taken imgs) in
  let t := {| images_dest := taken imgs; annotations_dest := labels annos |} in
  create_status (create_response pf name) = 201%Z →
  task_data (create_response pf name) !! "id" = Some task_id →
  is_Some (task_data (create_response pf name) !! "name") →
  status_code (data_response pf task_id) ∈ [201; 202]%Z →
  let w3 := send (PostData task_id zip)
              (set_images_zip (Some zip)
                 (send (PostTask name)
                    (set_temp_dir (Some t) (log_upload device_id date w)))) in
  upload_to_cvat fuel pf mnt device_id date w
  = match wait_finished fuel pf task_id 15 TaskProcessingFailed w3 with
    | None => None
    | Some (Raise e, w4) => Some (Return false, set_temp_dir None (set_images_zip None w4))
    | Some (Return _, w4) =>
        try_finally
          (try_except
             (zip_file <~ _prepare_yolo_data device_id date ;;
              _upload_annotations fuel pf task_id zip_file ;;;
              act (set_upload_zip None) ;;;
              ret true)
             (λ e, act rmtree_temp_dir ;;; ret false))
          rmtree_temp_dir (set_images_zip None w4)
    end.
Proof.
  intros (Htd & Hti & Hiz) Hf Hi Ha Hne Hla name zip t Hs Hid Hname Hdata w3.
  unfold upload_to_cvat.
  unfold bind at 1. unfold act at 1. unfold try_finally at 1. unfold try_except at 1.
  unfold bind at 1.
  rewrite (get_device_data_ok mnt device_id date _ f imgs annos) by done.
  fold t. unfold bind at 1. fold name.
  rewrite (create_task_ok name _ task_id Hs Hid Hname).
  unfold bind at 1. unfold task_id_of at 1. rewrite Hid. unfold ret at 1.
  unfold bind at 1. unfold _upload_images at 1. unfold bind at 1.
  assert (Hne' : ⋃ glob_all [PNG; JPG; JPEG] (images_dest t) ≠ ∅).
  { rewrite glob_images_taken'. simpl. by rewrite taken_idem. }
  rewrite (prepare_image_zip_run device_id date
             (send (PostTask name) (set_temp_dir (Some t) (log_upload device_id date w)))
             t eq_refl Hti Hne').
  rewrite glob_images_taken'. cbn [images_dest t]. rewrite taken_idem. fold zip.
  unfold try_finally at 1. unfold bind at 1. unfold act at 1.
  rewrite (bool_decide_eq_true_2 _ Hdata). cbn [negb]. fold w3.
  destruct (wait_finished fuel pf task_id 15 TaskProcessingFailed w3)
    as [[[[]|e] w4]|]; [|done..].
  unfold try_finally, try_except. by destruct w4.
Qed.

(** The files of the label archive. *)
Lemma elem_of_train_files (t : tempdir) (found : gset (string * string)) (p : string) :
  p ∈ ⋃ (train_files t <$> elements found)
  ↔ ∃ img, img ∈ found
       ∧ (p = "obj_train_data/" +:+ img.1 +:+ img.2
          ∨ Inference.label_file_name img.2 ∈ annotations_dest t
            ∧ p = "obj_train_data/" +:+ img.1 +:+ Inference.label_file_name img.2).
Proof.
  rewrite elem_of_union_list. split.
  - intros (X & HX & Hp). apply list_elem_of_fmap in HX as (img & -> & Himg).
    apply elem_of_elements in Himg. exists img. split; [done|].
    unfold train_files in Hp. apply elem_of_union in Hp as [Hp|Hp].
    + left. by apply elem_of_singleton in Hp.
    + right. unfold Inference.label_file_name.
      destruct (bool_decide (stem img.2 +:+ ".txt" ∈ annotations_dest t)) eqn:Hl.
      * apply bool_decide_eq_true_1 in Hl. split; [done|].
        by apply elem_of_singleton in Hp.
      * by apply elem_of_empty in Hp.
  - intros (img & Himg & Hp). exists (train_files t img). split.
    + apply list_elem_of_fmap. exists img. split; [done|]. by apply elem_of_elements.
    + unfold train_files. apply elem_of_union. destruct Hp as [->|[Hl ->]].
      * left. by apply elem_of_singleton.
      * right. unfold Inference.label_file_name in *.
        rewrite bool_decide_eq_true_2 by done. by apply elem_of_singleton.
Qed.

Lemma label_in_labels (annos : gset string) (name : string) :
  Inference.label_file_name name ∈ labels annos
  ↔ Inference.label_file_name name ∈ annos.
Proof.
  unfold labels. rewrite elem_of_filter. split; [tauto|]. intros H. split; [|done].
  apply endswith_spec. by exists (stem name).
Qed.

(** The rest of an upload once the images are processed. *)
Lemma upload_to_cvat_finish (fuel : nat) (device_id date : string)
    (imgs annos : gset string) (task_id : Cvat.json) (w4 : world) (n2 : nat) :
  temp_dir w4 = Some {| images_dest := taken imgs; annotations_dest := labels annos |} →
  taken imgs ≠ ∅ →
  status_code (annotations_response pf task_id) = 200%Z
  ∨ status_code (annotations_response pf task_id) = 202%Z
    ∧ finished_at pf (polls w4) n2 ∧ (n2 < fuel)%nat →
  ∃ w',
    try_finally
      (try_except
         (zip_file <~ _prepare_yolo_data device_id date ;;
          _upload_annotations fuel pf task_id zip_file ;;;
          act (set_upload_zip None) ;;;
          ret true)
         (λ e, act rmtree_temp_dir ;;; ret false))
      rmtree_temp_dir w4
    = Some (Return true, w').
Proof.
  intros Ht Hne Hanno.
  set (t := {| images_dest := taken imgs; annotations_dest := labels annos |}) in *.
  assert (Hfne : (⋃ ((λ p, rglob p device_id date t) <$> [PNG; JPG; JPEG])
                  : gset (string * string)) ≠ ∅).
  { unfold t. rewrite rglob_taken. intros Hnil. apply Hne. apply set_eq. intros x.
    rewrite elem_of_empty. split; [|done]. intros Hx.
    assert (Hin : (device_id +:+ "/" +:+ date +:+ "/images/", x)
                  ∈ (set_map (λ n, (device_id +:+ "/" +:+ date +:+ "/images/", n))
                       (taken imgs) : gset (string * string)))
      by (apply elem_of_map; eauto).
    rewrite Hnil in Hin. by apply elem_of_empty in Hin. }
  unfold try_finally, try_except. unfold bind at 1.
  rewrite (prepare_yolo_data_run device_id date w4 t Ht Hfne).
  unfold bind at 1. unfold _upload_annotations. unfold bind at 1. unfold act at 1.
  destruct Hanno as [H200|(H202 & (Hp & Hs & Hst) & Hn2)].
  - rewrite H200. cbn [negb Z.eqb Pos.eqb].
    rewrite bool_decide_eq_true_2 by (rewrite !elem_of_cons; tauto).
    cbn [negb]. unfold ret at 1. unfold bind, act, ret. by eexists.
  - rewrite H202. cbn [negb Z.eqb Pos.eqb].
    rewrite bool_decide_eq_true_2 by (rewrite !elem_of_cons; tauto).
    cbn [negb].
    match goal with
    | |- context [wait_finished fuel pf task_id 5 AnnotationProcessingFailed ?w] =>
        destruct (wait_finished_terminal (fuel - S n2) n2 task_id 5
                    AnnotationProcessingFailed w Hp) as (_ & _ & Hfin)
    end.
    replace (n2 + S (fuel - S n2))%nat with fuel in Hfin by lia.
    rewrite (Hfin Hs Hst). unfold bind, act, ret. by eexists.
Qed.

End upload_step_facts.





(** ** Upload to CVAT: what the client does *)

(** X16. The three patterns of the upload take from a directory exactly the
    names the inference runner lists as images and whose extension, as the
    dispatch function reads it, is [jpg], [jpeg] or [png]. *)
Theorem glob_images_iff (dir : gset string) (name : string) :
  name ∈ ⋃ CvatUpload.glob_all [CvatUpload.JPG; CvatUpload.JPEG; CvatUpload.PNG] dir
  ↔ name ∈ dir ∧ InferenceRun.listed name = true
    ∧ Dispatch.extension name ∈ ["jpg"; "jpeg"; "png"].
Proof.
  rewrite elem_of_glob_images. split.
  - intros [Hin Hu]. split; [done|].
    split; [by apply uploadable_listed | by apply uploadable_extension].
  - intros (Hin & Hl & Hext). split; [done|].
    apply listed_spec in Hl as (pre & ext & Hfmt & Hpre).
    rewrite uploadable_spec, Hpre. unfold Dispatch.extension in Hext.
    rewrite Hpre, last_item_split_app,
      (split_without _ _ (formats_dotless _ Hfmt)) in Hext.
    change (PyStr.last_item [ext]) with ext in Hext.
    rewrite existsb_exists. exists (String "." ext). split.
    + apply list_elem_of_In. revert Hext. rewrite !elem_of_cons.
      intros [->|[->|[->|H]]]; [compute_done..|by inversion H].
    + apply endswith_spec. by exists pre.
Qed.

(** X17. A folder none of whose images has the extension [jpg], [jpeg] or
    [png] is not uploaded: [upload_to_cvat] returns [False] before any
    request is sent, and leaves no temporary directory. This is so for the
    eight other formats that the dispatch function and the inference runner
    accept. *)
Theorem upload_rejects_other_formats (fuel : nat) (pf : CvatUpload.platform)
    (mnt : CvatUpload.mount) (device_id date : string) (w : CvatUpload.world)
    (f : CvatUpload.folder) (imgs : gset string) :
  mnt device_id date = Some f →
  CvatUpload.images f = Some imgs →
  (∀ name, name ∈ imgs → Dispatch.extension name ∉ ["jpg"; "jpeg"; "png"]) →
  CvatUpload.upload_to_cvat fuel pf mnt device_id date w
  = Some (CvatUpload.Return false,
          CvatUpload.set_temp_dir None (CvatUpload.log_upload device_id date w)).
Proof.
  intros Hf Hi Hext.
  assert (Hnil : ⋃ CvatUpload.glob_all
                     [CvatUpload.JPG; CvatUpload.JPEG; CvatUpload.PNG] imgs = ∅).
  { apply set_eq. intros x. rewrite elem_of_glob_images, elem_of_empty.
    split; [|done]. intros [Hin Hu]. apply (Hext x Hin).
    by apply uploadable_extension. }
  destruct (get_device_data_run mnt device_id date
              (CvatUpload.log_upload device_id date w)) as (r & td & Heq & _ & Hno).
  rewrite (Hno f imgs Hf Hi Hnil) in Heq.
  unfold CvatUpload.upload_to_cvat.
  unfold CvatUpload.bind at 1. unfold CvatUpload.act at 1.
  unfold CvatUpload.try_finally, CvatUpload.try_except.
  unfold CvatUpload.bind at 1. by rewrite Heq.
Qed.

Lemma upload_rejects_other_formats_witness :
  Dispatch.supported "x.bmp" = true ∧ Dispatch.supported "y.tiff" = true
  ∧ CvatUpload.upload_to_cvat 3 (UploadScenario.accepting []) UploadScenario.bucket
      "2" "2025-1-4" UploadScenario.fresh
    = Some (CvatUpload.Return false,
            CvatUpload.set_temp_dir None
              (CvatUpload.log_upload "2" "2025-1-4" UploadScenario.fresh)).
Proof.
  split; [vm_compute; reflexivity|]. split; [vm_compute; reflexivity|].
  apply (upload_rejects_other_formats 3 _ _ "2" "2025-1-4" _
           {| CvatUpload.images := Some {[ "x.bmp"; "y.tiff" ]};
              CvatUpload.auto_annotations := Some {[ "x.txt"; "y.txt" ]} |}
           {[ "x.bmp"; "y.tiff" ]}).
  - reflexivity.
  - reflexivity.
  - intros name Hin. apply elem_of_union in Hin as [Hin|Hin];
      apply elem_of_singleton in Hin as ->; vm_compute; intros H;
      repeat (apply elem_of_cons in H as [H|H]; [discriminate H|]);
      by apply elem_of_nil in H.
Defined.

(** X18. What a [True] of [upload_to_cvat] tells, from a state without
    left-over temporary files: the folder, its [images] and its
    [auto-annotations] exist on the mount and hold an image of the three
    formats and a [.txt] label; the task creation was answered 201 with an
    id and a name; the data upload 201 or 202; the platform then reported
    ["Finished"] before ["Failed"]; the annotation upload was answered 200,
    or 202 and then ["Finished"] again. The client sent exactly these
    requests, in this order, polled every 15 and then every 5 seconds, and
    removed [upload.zip]. *)
Theorem upload_true_means (fuel : nat) (pf : CvatUpload.platform)
    (mnt : CvatUpload.mount) (device_id date : string) (w w' : CvatUpload.world) :
  tidy w →
  CvatUpload.upload_to_cvat fuel pf mnt device_id date w
  = Some (CvatUpload.Return true, w') →
  ∃ f imgs annos task_id n1 m2 zip,
    mnt device_id date = Some f ∧ CvatUpload.images f = Some imgs
    ∧ CvatUpload.auto_annotations f = Some annos
    ∧ taken imgs ≠ ∅ ∧ labels annos ≠ ∅
    ∧ let name := device_id +:+ "_" +:+ date in
      let dir := device_id +:+ "/" +:+ date +:+ "/images/" in
      CvatUpload.create_status (CvatUpload.create_response pf name) = 201%Z
      ∧ CvatUpload.task_data (CvatUpload.create_response pf name) !! "id" = Some task_id
      ∧ is_Some (CvatUpload.task_data (CvatUpload.create_response pf name) !! "name")
      ∧ CvatUpload.status_code (CvatUpload.data_response pf task_id) ∈ [201; 202]%Z
      ∧ finished_at pf (CvatUpload.polls w) n1
      ∧ (CvatUpload.status_code (CvatUpload.annotations_response pf task_id) = 200%Z
         ∧ m2 = 0%nat
         ∨ CvatUpload.status_code (CvatUpload.annotations_response pf task_id) = 202%Z
           ∧ ∃ n2, m2 = S n2 ∧ finished_at pf (CvatUpload.polls w + S n1) n2)
      ∧ CvatUpload.sent w'
        = CvatUpload.sent w
          ++ [CvatUpload.PostTask name;
              CvatUpload.PostData task_id (CvatUpload.in_dir dir (taken imgs))]
          ++ replicate (S n1) (CvatUpload.GetStatus task_id)
          ++ CvatUpload.PutAnnotations task_id zip
             :: replicate m2 (CvatUpload.GetStatus task_id)
      ∧ CvatUpload.polls w' = (CvatUpload.polls w + S n1 + m2)%nat
      ∧ CvatUpload.slept w'
        = (CvatUpload.slept w + 15 * Z.of_nat n1 + 5 * Z.of_nat (pred m2))%Z
      ∧ CvatUpload.upload_zip w' = None.
Proof.
  intros Htidy Hrun.
  destruct (upload_to_cvat_inv pf fuel mnt device_id date w _ w' Htidy Hrun)
    as (b & [= <-] & _ & _ & Hsucc).
  destruct (Hsucc eq_refl)
    as (f & imgs & annos & task_id & n1 & m2 & Hf & Hi & Ha & Hne & Hla & H).
  cbv zeta in H.
  destruct H as (H1 & H2 & H3 & H4 & H5 & H6 & H7 & H8 & H9 & H10).
  eexists f, imgs, annos, task_id, n1, m2, _.
  do 5 (split; [done|]). cbv zeta. do 6 (split; [done|]).
  split; [exact H7|]. done.
Qed.

Lemma upload_true_means_witness :
  ∃ w' task_id zip,
    CvatUpload.upload_to_cvat 4 (UploadScenario.accepting ["Started"; "Finished"; "Finished"])
      UploadScenario.bucket "3" "2025-1-4" UploadScenario.fresh
    = Some (CvatUpload.Return true, w')
    ∧ CvatUpload.sent w'
      = [CvatUpload.PostTask "3_2025-1-4";
         CvatUpload.PostData task_id
           (CvatUpload.in_dir "3/2025-1-4/images/" (taken {[ "a.jpg"; "b.PNG"; "c.bmp" ]}));
         CvatUpload.GetStatus task_id; CvatUpload.GetStatus task_id;
         CvatUpload.PutAnnotations task_id zip; CvatUpload.GetStatus task_id]
    ∧ CvatUpload.slept w' = 15%Z.
Proof.
  destruct (CvatUpload.upload_to_cvat 4
              (UploadScenario.accepting ["Started"; "Finished"; "Finished"])
              UploadScenario.bucket "3" "2025-1-4" UploadScenario.fresh)
    as [[[[|]|e] w']|] eqn:Hrun;
    [|vm_compute in Hrun; discriminate Hrun..].
  destruct (upload_true_means _ _ _ _ _ _ w'
              (conj eq_refl (conj eq_refl eq_refl) : tidy UploadScenario.fresh) Hrun)
    as (f & imgs & annos & task_id & n1 & m2 & zip & Hf & Hi & Ha & _ & _ & H).
  clear Hrun. cbv zeta in H.
  destruct H as (_ & _ & _ & _ & Hfin1 & Hfin2 & Hsent & _ & Hslept & _).
  injection Hf as <-. injection Hi as <-. clear Ha.
  assert (Hn1 : n1 = 1%nat).
  { destruct Hfin1 as (Hp & _ & Hst). destruct n1 as [|[|n1]].
    - discriminate Hst.
    - reflexivity.
    - specialize (Hp 1%nat ltac:(lia)). destruct Hp as (_ & _ & Hp).
      exfalso. by apply Hp. }
  subst n1. clear Hfin1.
  assert (Hm2 : m2 = 1%nat).
  { destruct Hfin2 as [[Hs _]|(_ & n2 & -> & Hp & _ & Hst)]; [discriminate Hs|].
    destruct n2 as [|n2]; [reflexivity|].
    specialize (Hp 0%nat ltac:(lia)). destruct Hp as (_ & _ & Hp).
    exfalso. by apply Hp. }
  subst m2. clear Hfin2. exists w', task_id, zip.
  split; [reflexivity|]. split; [exact Hsent|].
  rewrite Hslept. reflexivity.
Defined.

(** X19. What a successful upload sends: the image archive holds, under
    ['{device}/{date}/images/'], exactly the images of the folder that the
    three patterns take; [train.txt] of the label archive has one line
    ['obj_train_data/{device}/{date}/images/{name}'] for each of them; and
    [obj_train_data] holds each of these images and, beside it, the label
    the inference runner names after it, ['{stem}.txt'], when the folder's
    [auto-annotations] has it. Labels of other images are left out. *)
Theorem upload_archives (fuel : nat) (pf : CvatUpload.platform)
    (mnt : CvatUpload.mount) (device_id date : string) (w w' : CvatUpload.world) :
  tidy w →
  CvatUpload.upload_to_cvat fuel pf mnt device_id date w
  = Some (CvatUpload.Return true, w') →
  ∃ f imgs annos task_id client_files zip new,
    mnt device_id date = Some f ∧ CvatUpload.images f = Some imgs
    ∧ CvatUpload.auto_annotations f = Some annos
    ∧ CvatUpload.sent w' = CvatUpload.sent w ++ new
    ∧ filter (λ r, is_data r = true) new
      = [CvatUpload.PostData task_id client_files]
    ∧ filter (λ r, is_annotations r = true) new
      = [CvatUpload.PutAnnotations task_id zip]
    ∧ let dir := device_id +:+ "/" +:+ date +:+ "/images/" in
      (∀ p, p ∈ client_files ↔ ∃ name, name ∈ imgs ∧ uploadable name = true
                                        ∧ p = dir +:+ name)
      ∧ (∀ line, line ∈ CvatUpload.train_txt zip
                 ↔ ∃ name, name ∈ imgs ∧ uploadable name = true
                           ∧ line = "obj_train_data/" +:+ dir +:+ name)
      ∧ (∀ p, p ∈ CvatUpload.obj_train_data zip
              ↔ ∃ name, name ∈ imgs ∧ uploadable name = true
                  ∧ (p = "obj_train_data/" +:+ dir +:+ name
                     ∨ Inference.label_file_name name ∈ annos
                       ∧ p = "obj_train_data/" +:+ dir
                             +:+ Inference.label_file_name name)).
Proof.
  intros Htidy Hrun.
  destruct (upload_to_cvat_inv pf fuel mnt device_id date w _ w' Htidy Hrun)
    as (b & [= <-] & _ & _ & Hsucc).
  destruct (Hsucc eq_refl)
    as (f & imgs & annos & task_id & n1 & m2 & Hf & Hi & Ha & _ & _ & H).
  cbv zeta in H. destruct H as (_ & _ & _ & _ & _ & _ & Hsent & _).
  eexists f, imgs, annos, task_id, _, _, _.
  do 3 (split; [done|]). split; [exact Hsent|].
  assert (Hrep : ∀ (g : CvatUpload.request → bool) n i,
             g (CvatUpload.GetStatus i) = false →
             filter (λ r, g r = true) (replicate n (CvatUpload.GetStatus i)) = []).
  { intros g n i Hn. induction n as [|n IH]; [done|].
    simpl. rewrite filter_cons, decide_False; [done|]. by rewrite Hn. }
  split; [|split].
  - by rewrite !filter_app, !filter_cons, filter_nil, !Hrep.
  - by rewrite !filter_app, !filter_cons, filter_nil, !Hrep.
  - cbv zeta. split; [|split].
    + intros p. unfold CvatUpload.in_dir. rewrite elem_of_map.
      unfold taken. setoid_rewrite elem_of_filter.
      split; intros (n & ? & ? & ?); exists n; tauto.
    + intros line. cbn [CvatUpload.train_txt]. rewrite elem_of_map. split.
      * intros ([dir n] & -> & Hin). apply elem_of_map in Hin as (n' & [= -> ->] & Hn).
        unfold taken in Hn. apply elem_of_filter in Hn as [? ?]. by exists n'.
      * intros (n & Hn & Hu & ->). eexists (_, n). split; [done|].
        apply elem_of_map. exists n. split; [done|]. by apply elem_of_filter.
    + intros p. cbn [CvatUpload.obj_train_data]. rewrite elem_of_train_files.
      cbn [CvatUpload.annotations_dest]. split.
      * intros ([dir n] & Hin & Hp). apply elem_of_map in Hin as (n' & [= -> ->] & Hn).
        unfold taken in Hn. apply elem_of_filter in Hn as [? ?]. exists n'.
        do 2 (split; [done|]). simpl in Hp. rewrite label_in_labels in Hp. exact Hp.
      * intros (n & Hn & Hu & Hp). eexists (_, n). split.
        -- apply elem_of_map. exists n. split; [done|]. by apply elem_of_filter.
        -- simpl. rewrite label_in_labels. exact Hp.
Qed.

Lemma upload_archives_witness :
  ∃ w' task_id zip new,
    CvatUpload.upload_to_cvat 4 (UploadScenario.accepting ["Finished"; "Finished"])
      UploadScenario.bucket "3" "2025-1-4" UploadScenario.fresh
    = Some (CvatUpload.Return true, w')
    ∧ CvatUpload.sent w' = new
    ∧ CvatUpload.PutAnnotations task_id zip ∈ new
    ∧ "obj_train_data/3/2025-1-4/images/a.txt" ∈ CvatUpload.obj_train_data zip
    ∧ "obj_train_data/3/2025-1-4/images/b.PNG" ∈ CvatUpload.obj_train_data zip
    ∧ "obj_train_data/3/2025-1-4/images/c.txt" ∉ CvatUpload.obj_train_data zip.
Proof.
  destruct (CvatUpload.upload_to_cvat 4
              (UploadScenario.accepting ["Finished"; "Finished"])
              UploadScenario.bucket "3" "2025-1-4" UploadScenario.fresh)
    as [[[[|]|e] w']|] eqn:Hrun;
    [|vm_compute in Hrun; discriminate Hrun..].
  destruct (upload_archives _ _ _ _ _ _ w'
              (conj eq_refl (conj eq_refl eq_refl) : tidy UploadScenario.fresh) Hrun)
    as (f & imgs & annos & task_id & files & zip & new & Hf & Hi & Ha & Hsent
        & _ & Hput & H).
  clear Hrun. cbv zeta in H. destruct H as (_ & _ & Hfiles).
  injection Hf as <-. injection Hi as <-. injection Ha as <-.
  exists w', task_id, zip, new. split; [reflexivity|]. split; [exact Hsent|].
  split.
  { assert (Hin : CvatUpload.PutAnnotations task_id zip
                  ∈ filter (λ r, is_annotations r = true) new)
      by (rewrite Hput; left).
    by apply list_elem_of_filter in Hin as [_ ?]. }
  split; [|split].
  - apply Hfiles. exists "a.jpg". split; [set_solver|].
    split; [vm_compute; reflexivity|]. right. split; [|reflexivity].
    change (Inference.label_file_name "a.jpg") with "a.txt". set_solver.
  - apply Hfiles. exists "b.PNG". split; [set_solver|].
    split; [vm_compute; reflexivity|]. by left.
  - intros (name & Hin & Hu & Hp)%Hfiles.
    apply elem_of_union in Hin as [Hin|Hin];
      [apply elem_of_union in Hin as [Hin|Hin]|];
      apply elem_of_singleton in Hin as ->;
      try (vm_compute in Hu; discriminate Hu);
      destruct Hp as [Hp|[_ Hp]]; vm_compute in Hp; discriminate Hp.
Defined.



(** X21. [upload_to_cvat] never raises: whatever fails inside, the answer
    is [True] or [False]. From a state without left-over temporary files it
    leaves such a state again: the temporary directory, the directory of
    the image archive and [images.zip] are gone, also after a failure, and
    after a [True] so is [upload.zip]. *)
Theorem upload_never_raises (fuel : nat) (pf : CvatUpload.platform)
    (mnt : CvatUpload.mount) (device_id date : string) (w w' : CvatUpload.world)
    (r : CvatUpload.outcome bool) :
  tidy w →
  CvatUpload.upload_to_cvat fuel pf mnt device_id date w = Some (r, w') →
  ∃ b, r = CvatUpload.Return b ∧ tidy w'
       ∧ CvatUpload.uploads w' = CvatUpload.uploads w ++ [(device_id, date)]
       ∧ (b = true → CvatUpload.upload_zip w' = None).
Proof.
  intros Htidy Hrun.
  destruct (upload_to_cvat_inv pf fuel mnt device_id date w r w' Htidy Hrun)
    as (b & -> & Ht & Hup & Hsucc).
  exists b. do 3 (split; [done|]). intros Hb.
  destruct (Hsucc Hb) as (f & imgs & annos & task_id & n1 & m2 & _ & _ & _ & _ & _ & H).
  cbv zeta in H. by destruct H as (_ & _ & _ & _ & _ & _ & _ & _ & _ & H).
Qed.

Lemma upload_never_raises_witness :
  ∃ w', CvatUpload.upload_to_cvat 4 (UploadScenario.accepting ["Failed"])
          UploadScenario.bucket "3" "2025-1-4" UploadScenario.fresh
        = Some (CvatUpload.Return false, w')
        ∧ tidy w' ∧ CvatUpload.uploads w' = [("3", "2025-1-4")].
Proof.
  destruct (CvatUpload.upload_to_cvat 4 (UploadScenario.accepting ["Failed"])
              UploadScenario.bucket "3" "2025-1-4" UploadScenario.fresh)
    as [[[[|]|e] w']|] eqn:Hrun;
    [vm_compute in Hrun; discriminate Hrun| |vm_compute in Hrun; discriminate Hrun..].
  destruct (upload_never_raises _ _ _ _ _ _ w' _
              (conj eq_refl (conj eq_refl eq_refl) : tidy UploadScenario.fresh) Hrun)
    as (b & _ & Ht & Hup & _).
  exists w'. split; [reflexivity|]. split; [exact Ht | exact Hup].
Defined.

(** X22. A folder that can be uploaded is uploaded when the platform plays
    along: if the folder has an image of the three formats and a label, the
    task is created with an id and a name, the data upload is answered 201
    or 202, the task is reported ["Finished"] after [n1] other answers, and
    the annotation upload is answered 200, or 202 and ["Finished"] after
    [n2] more, then [upload_to_cvat] returns [True] once it may poll more
    than [n1] and [n2] times. *)
Theorem upload_returns_true (fuel : nat) (pf : CvatUpload.platform)
    (mnt : CvatUpload.mount) (device_id date : string) (w : CvatUpload.world)
    (f : CvatUpload.folder) (imgs annos : gset string) (task_id : Cvat.json)
    (n1 n2 : nat) :
  tidy w →
  mnt device_id date = Some f → CvatUpload.images f = Some imgs →
  CvatUpload.auto_annotations f = Some annos →
  taken imgs ≠ ∅ → labels annos ≠ ∅ →
  let name := device_id +:+ "_" +:+ date in
  CvatUpload.create_status (CvatUpload.create_response pf name) = 201%Z →
  CvatUpload.task_data (CvatUpload.create_response pf name) !! "id" = Some task_id →
  is_Some (CvatUpload.task_data (CvatUpload.create_response pf name) !! "name") →
  CvatUpload.status_code (CvatUpload.data_response pf task_id) ∈ [201; 202]%Z →
  finished_at pf (CvatUpload.polls w) n1 →
  CvatUpload.status_code (CvatUpload.annotations_response pf task_id) = 200%Z
  ∨ CvatUpload.status_code (CvatUpload.annotations_response pf task_id) = 202%Z
    ∧ finished_at pf (CvatUpload.polls w + S n1) n2 →
  (n1 < fuel)%nat → (n2 < fuel)%nat →
  ∃ w', CvatUpload.upload_to_cvat fuel pf mnt device_id date w
        = Some (CvatUpload.Return true, w').
Proof.
  intros Htidy Hf Hi Ha Hne Hla name Hs Hid Hname Hdata (Hp1 & Hs1 & Hst1) Hanno
    Hn1 Hn2.
  rewrite (upload_to_cvat_start pf fuel mnt device_id date w f imgs annos task_id)
    by done.
  cbv zeta.
  match goal with
  | |- context [CvatUpload.wait_finished fuel pf task_id 15
                  CvatUpload.TaskProcessingFailed ?w3] =>
      destruct (wait_finished_terminal pf (fuel - S n1) n1 task_id 15
                  CvatUpload.TaskProcessingFailed w3 Hp1) as (_ & _ & Hfin);
      pose proof (polled_fields task_id 15 n1 w3)
        as (Ht4 & _ & _ & _ & _ & Hpolls4 & _)
  end.
  replace (n1 + S (fuel - S n1))%nat with fuel in Hfin by lia.
  rewrite (Hfin Hs1 Hst1).
  apply (upload_to_cvat_finish pf fuel device_id date imgs annos task_id _ n2).
  - simpl. by rewrite Ht4.
  - done.
  - destruct Hanno as [H200|[H202 Hfin2]]; [by left|]. right. split; [done|].
    split; [|done]. simpl. rewrite Hpolls4. simpl.
    by replace (S (CvatUpload.polls w + n1)) with (CvatUpload.polls w + S n1)%nat by lia.
Qed.

Lemma upload_returns_true_witness :
  ∃ w', CvatUpload.upload_to_cvat 3
          (UploadScenario.accepting ["Started"; "Finished"; "Finished"])
          UploadScenario.bucket "3" "2025-1-4" UploadScenario.fresh
        = Some (CvatUpload.Return true, w').
Proof.
  apply (upload_returns_true 3
           (UploadScenario.accepting ["Started"; "Finished"; "Finished"])
           UploadScenario.bucket "3" "2025-1-4" UploadScenario.fresh
           {| CvatUpload.images := Some {[ "a.jpg"; "b.PNG"; "c.bmp" ]};
              CvatUpload.auto_annotations := Some {[ "a.txt"; "c.txt"; "notes.md" ]} |}
           {[ "a.jpg"; "b.PNG"; "c.bmp" ]} {[ "a.txt"; "c.txt"; "notes.md" ]}
           (Cvat.JInt 7) 1 0).
  - by repeat split.
  - reflexivity.
  - reflexivity.
  - reflexivity.
  - intros Hnil.
    assert (Hin : "a.jpg" ∈ taken {[ "a.jpg"; "b.PNG"; "c.bmp" ]}).
    { apply elem_of_filter. split; [vm_compute; reflexivity | set_solver]. }
    rewrite Hnil in Hin. by apply elem_of_empty in Hin.
  - intros Hnil.
    assert (Hin : "a.txt" ∈ labels {[ "a.txt"; "c.txt"; "notes.md" ]}).
    { apply elem_of_filter. split; [vm_compute; reflexivity | set_solver]. }
    rewrite Hnil in Hin. by apply elem_of_empty in Hin.
  - reflexivity.
  - reflexivity.
  - by eexists.
  - rewrite !elem_of_cons. tauto.
  - split; [|by split]. intros i Hi. replace i with 0%nat by lia.
    split; [reflexivity|]. by split.
  - right. split; [reflexivity|]. split; [|by split]. intros i Hi. lia.
  - lia.
  - lia.
Defined.

(** X23. The loop of the uploader script, from a state without left-over
    temporary files: the folder paths are taken in order and
    [upload_to_cvat] is called once for each, whether the upload before it
    returned [True] or [False]; the first path that does not split on ["/"]
    into exactly three parts ends the script with a ValueError, and no
    later folder is uploaded. No other exception leaves the loop, and no
    temporary file is left behind. *)
Theorem upload_folders_attempts (fuel : nat) (pf : CvatUpload.platform)
    (mnt : CvatUpload.mount) (folder_paths : list string)
    (w w' : CvatUpload.world) (r : CvatUpload.outcome unit) :
  tidy w →
  CvatUpload.upload_folders fuel pf mnt folder_paths w = Some (r, w') →
  ∃ called,
    CvatUpload.uploads w' = CvatUpload.uploads w ++ called ∧ tidy w'
    ∧ match r with
      | CvatUpload.Return _ => Forall2 unpacks_to folder_paths called
      | CvatUpload.Raise e =>
          ∃ before bad after msg,
            folder_paths = before ++ bad :: after
            ∧ Forall2 unpacks_to before called
            ∧ UploadScript.unpack_folder_path bad = Py.Raise (Py.ValueError msg)
            ∧ e = CvatUpload.Builtin (Py.ValueError msg)
      end.
Proof.
  revert w. induction folder_paths as [|p rest IH]; intros w Htidy; simpl.
  - intros [= <- <-]. exists []. rewrite app_nil_r.
    split; [done|]. split; [done|]. constructor.
  - destruct (UploadScript.unpack_folder_path p) as [[[device_id date] discard]|e]
      eqn:Hp.
    + intros Hrun. apply bind_inv in Hrun as [(ok & w1 & Hup & Hrun)|(e & Hup & ->)].
      * destruct (upload_to_cvat_inv pf fuel mnt device_id date w _ w1 Htidy Hup)
          as (b & _ & Ht1 & Hup1 & _).
        destruct (IH _ Ht1 Hrun) as (called & Hcalled & Ht' & Hr).
        exists ((device_id, date) :: called). split.
        { rewrite Hcalled, Hup1. by rewrite <- app_assoc. }
        split; [done|]. destruct r as [u|e].
        -- constructor; [by exists discard | done].
        -- destruct Hr as (before & bad & after & msg & -> & Hb & Hbad & ->).
           exists (p :: before), bad, after, msg. split; [done|].
           split; [|done]. constructor; [by exists discard | done].
      * by destruct (upload_to_cvat_inv pf fuel mnt device_id date w _ w' Htidy Hup)
          as (b & ? & _).
    + intros [= <- <-]. exists []. rewrite app_nil_r. split; [done|]. split; [done|].
      assert (Hv : ∃ msg, e = Py.ValueError msg).
      { unfold UploadScript.unpack_folder_path in Hp.
        destruct (PyStr.split "/" p) as [|a [|b [|c [|d l]]]];
          simplify_eq; by eexists. }
      destruct Hv as [msg ->]. by exists [], p, rest, msg.
Qed.

Lemma upload_folders_attempts_witness :
  ∃ w' e called before bad after,
    CvatUpload.upload_folders 4 (UploadScenario.accepting ["Finished"; "Finished"])
      UploadScenario.bucket ["2/2025-1-4/"; "3/2025-1-4/"; "3/2025-1-5"; "1/2025-1-4/"]
      UploadScenario.fresh
    = Some (CvatUpload.Raise e, w')
    ∧ CvatUpload.uploads w' = called
    ∧ ["2/2025-1-4/"; "3/2025-1-4/"; "3/2025-1-5"; "1/2025-1-4/"]
      = before ++ bad :: after
    ∧ Forall2 unpacks_to before called.
Proof.
  destruct (CvatUpload.upload_folders 4
              (UploadScenario.accepting ["Finished"; "Finished"])
              UploadScenario.bucket
              ["2/2025-1-4/"; "3/2025-1-4/"; "3/2025-1-5"; "1/2025-1-4/"]
              UploadScenario.fresh)
    as [[[[]|e] w']|] eqn:Hrun;
    [vm_compute in Hrun; discriminate Hrun| |vm_compute in Hrun; discriminate Hrun].
  destruct (upload_folders_attempts _ _ _ _ _ w' _
              (conj eq_refl (conj eq_refl eq_refl) : tidy UploadScenario.fresh) Hrun)
    as (called & Hup & _ & before & bad & after & msg & Hpaths & Hcalled & _).
  clear Hrun. exists w', e, called, before, bad, after.
  split; [reflexivity|]. split; [exact Hup|]. split; [exact Hpaths | exact Hcalled].
Defined.

(** ** Worked examples *)

Example extension_jpg : Dispatch.extension "3/2025-1-4/images/A.JPG" = "jpg".
Proof. reflexivity. Qed.

(** The placeholder object of [images/] has no supported extension. *)
Example extension_placeholder :
  Dispatch.supported "3/2025-1-4/images/" = false.
Proof. by vm_compute. Qed.

Example scan_scenario :
  Dispatch.scan ["3/2025-1-4/images/a.jpg"; "3/2025-1-4/images/b.jpg"]
    ["1"; "2"; "3"] "2025-1-4" = ["3/2025-1-4/"].
Proof. by vm_compute. Qed.

Example suffix_and_stem :
  (PyStr.suffix "a.b.JPG", PyStr.stem "a.b.JPG", PyStr.suffix ".bashrc", PyStr.suffix "a.")
  = (".JPG", "a.b", "", "").
Proof. reflexivity. Qed.

Example search_leftmost :
  Inference.search "models/production/model_vx/model_v007/best.pt" = Some "007".
Proof. reflexivity. Qed.

(** A version written with leading zeros is returned without them. *)
Example latest_model_leading_zeros :
  Inference.get_latest_model_version ["models/production/model_v007/best.pt"]
    "models/production/" = Py.Ok "models/production/model_v7/".
Proof. by vm_compute. Qed.

(** The folder of that version is then looked for under the rebuilt
    prefix, where nothing is: no weights are fetched and the run ends with
    the error of the load. *)
Example leading_zeros_run :
  InferenceRun.main InferenceScenario.vm
    ["models/production/model_v007/weights/best.pt"; "3/2025-1-4/images/a.jpg"]
    (λ _, "body") (λ _ _, None) "3/2025-1-4/" ∅
  = Py.Raise (Py.OSError 2 "No such file or directory"
                "/tmp/tmpk3x9q2ab/weights/best.pt").
Proof. by vm_compute. Qed.

(** A model folder that holds a file named [weights]: the directory for
    [weights/best.pt] cannot be made. *)
Example weights_is_a_file :
  InferenceRun.download_gcs_folder InferenceScenario.vm
    ["models/production/model_v3/weights"; "models/production/model_v3/weights/best.pt"]
    (λ _, "body") "models/production/model_v3/" "/tmp/tmpk3x9q2ab" ∅
  = Py.Raise (Py.OSError 17 "File exists" "/tmp/tmpk3x9q2ab/weights").
Proof. by vm_compute. Qed.

(** A task that exists but is not completed is refused with a message; a
    task that does not exist at all runs into the NameError. *)
Example export_not_completed :
  (Cvat.export_annotations_try Scenario.failing "3" "2025-1-5" Scenario.new_client).1
  = Py.Raise (Py.Exception "Task '3_2025-1-5' is not completed").
Proof. by vm_compute. Qed.

Example export_unknown_task :
  (Cvat.export_annotations_try Scenario.failing "9" "2025-1-5" Scenario.new_client).1
  = Py.Raise (Py.NameError "task_name").
Proof. by vm_compute. Qed.

(** A whole invocation in which the archive never arrives: the folder is
    recorded as timed out after 300 seconds and the answer is still the
    completed one. *)
Example download_timeout_run :
  fst <$> Download.cvat_download
            (Scenario.download_env (Py.Ok true) 2000 (Py.Ok [])) Scenario.bucket_world
  = Some (Download.Completed
            [ {| Download.item_device_id := "3"; Download.item_date := "2025-1-4";
                 Download.item_status := "timeout_waiting_for_zip";
                 Download.item_error := None |} ]).
Proof. by vm_compute. Qed.
